(** * testgen: a shallow embedding of [testgen.py]

    The generator inspects a loaded module tree, mirrors it as a tree of
    test files and appends skipped test stubs for every function, method
    and class that has no test yet.  This file embeds the program as Rocq
    functions (reflection as data, the file system and the interpreter's
    import machinery as an explicit world threaded through a small
    state-and-exception monad) and states the properties of the
    specification about them. *)

From Stdlib Require Import String Ascii List Bool Arith Lia.
Import ListNotations.
Open Scope string_scope.
Set Warnings "-register-all".

(** ** Python strings *)

Module PyStr.

Definition nl : string := String (ascii_of_nat 10) "".

(** [sep.join(l)] *)
Definition join (sep : string) (l : list string) : string := String.concat sep l.

(** [s.split(c)] for a one-character separator: never returns the empty list. *)
Fixpoint split_on (c : ascii) (s : string) : list string :=
  match s with
  | EmptyString => [""]
  | String a s' =>
      if Ascii.eqb a c then "" :: split_on c s'
      else match split_on c s' with
           | [] => [String a ""]
           | w :: ws => String a w :: ws
           end
  end.

(** [s.startswith(p)] *)
Definition startswith (s p : string) : bool := String.prefix p s.

(** [l[1:]], [l[1:-1]] and [l[-1]] on the list a [split] returns. *)
Definition slice_from1 {A} (l : list A) : list A := tl l.
Definition slice_1_to_last {A} (l : list A) : list A := removelast (tl l).
Definition last_item (l : list string) : string := last l "".

(** [s[:-3]] *)
Definition drop_last3 (s : string) : string :=
  String.substring 0 (String.length s - 3) s.

(** [" " * k] *)
Fixpoint spaces (k : nat) : string :=
  match k with
  | 0 => ""
  | S k' => String " " (spaces k')
  end.

(** Truthiness of a string: [if s:] *)
Definition nonempty (s : string) : bool :=
  match s with EmptyString => false | _ => true end.

(** The line boundaries [str.splitlines] knows among the code points below
    256, and the characters [str.strip] removes. *)
Definition is_linebreak (a : ascii) : bool :=
  let n := nat_of_ascii a in
  ((n =? 10) || (n =? 11) || (n =? 12) || (n =? 13)
   || (n =? 28) || (n =? 29) || (n =? 30) || (n =? 133))%nat.

Definition is_space (a : ascii) : bool :=
  let n := nat_of_ascii a in
  (((9 <=? n) && (n <=? 13)) || ((28 <=? n) && (n <=? 32))
   || (n =? 133) || (n =? 160))%nat.

(** [text.splitlines(True)]: the lines with their terminators kept; a
    carriage return directly followed by a line feed is one terminator. *)
Fixpoint splitlines_from (cur : string) (s : string) : list string :=
  match s with
  | EmptyString => if nonempty cur then [cur] else []
  | String a s' =>
      if Ascii.eqb a (ascii_of_nat 13) then
        match s' with
        | String b s'' =>
            if Ascii.eqb b (ascii_of_nat 10)
            then (cur ++ String a (String b "")) :: splitlines_from "" s''
            else (cur ++ String a "") :: splitlines_from "" s'
        | EmptyString => [cur ++ String a ""]
        end
      else if is_linebreak a then (cur ++ String a "") :: splitlines_from "" s'
      else splitlines_from (cur ++ String a "") s'
  end.

Definition splitlines_keepends (s : string) : list string := splitlines_from "" s.

(** Truthiness of [line.strip()]: some character is not white space. *)
Fixpoint strip_nonempty (s : string) : bool :=
  match s with
  | EmptyString => false
  | String a s' => negb (is_space a) || strip_nonempty s'
  end.

(** [textwrap.indent(text, prefix)] with its default predicate: the prefix
    goes in front of every line that is not white space only. *)
Definition textwrap_indent (text prefix : string) : string :=
  String.concat ""
    (map (fun line => if strip_nonempty line then prefix ++ line else line)
         (splitlines_keepends text)).

(** [needle in s] *)
Fixpoint contains (needle s : string) : bool :=
  String.prefix needle s ||
  match s with
  | EmptyString => false
  | String _ s' => contains needle s'
  end.

End PyStr.
Import PyStr.

(** ** Exceptions *)

Inductive exn :=
| IndexError | UnboundLocalError | RecursionError
| ModuleNotFoundError | TypeError | ValueError
| SyntaxError | OSError.

Inductive result (A : Type) : Type :=
| Ok (a : A)
| Raise (e : exn).
Arguments Ok {A} a.
Arguments Raise {A} e.

Definition rbind {A B} (r : result A) (k : A -> result B) : result B :=
  match r with
  | Ok a => k a
  | Raise e => Raise e
  end.

Notation "'let!' x ':=' r 'in' k" := (rbind r (fun x => k))
  (at level 10, x name, r at level 100, k at level 200).

(** ** The objects reflection sees

    An object is what [inspect] can tell about it: what sort of thing it
    is, its [__name__] and [__module__], the [__path__] of a package and the
    [__file__] of a module when it has them, and its attributes.  [members]
    lists the attributes as [inspect.getmembers] walks them: one pair per
    name of [dir(obj)], in name order.  A binding made twice under two
    names ([g = f]) is two pairs with the same value.  An object is a
    finite tree: a class that is reachable from its own attributes
    ([A.me = A]), on which [format_class] recurses until the interpreter
    raises [RecursionError], is not among these objects. *)

Inductive pykind := KFunction | KMethod | KClass | KModule | KOther.

Inductive pyobj : Type := PyObj {
  kind : pykind;
  __name__ : string;
  __module__ : string;
  __path__ : option (list string);
  __file__ : option string;
  members : list (string * pyobj)
}.

Module inspect.

Definition isclass (o : pyobj) : bool :=
  match kind o with KClass => true | _ => false end.
Definition isfunction (o : pyobj) : bool :=
  match kind o with KFunction => true | _ => false end.
Definition ismethod (o : pyobj) : bool :=
  match kind o with KMethod => true | _ => false end.
Definition ismodule (o : pyobj) : bool :=
  match kind o with KModule => true | _ => false end.

(** [inspect.getmembers(obj, predicate)] *)
Definition getmembers (o : pyobj) (predicate : pyobj -> bool)
  : list (string * pyobj) :=
  filter (fun kv => predicate (snd kv)) (members o).

(** The same with a predicate that can raise: the first exception ends
    the walk. *)
Fixpoint filter_r (predicate : pyobj -> result bool)
  (l : list (string * pyobj)) : result (list (string * pyobj)) :=
  match l with
  | [] => Ok []
  | kv :: l' =>
      let! b := predicate (snd kv) in
      let! rest := filter_r predicate l' in
      Ok (if b then kv :: rest else rest)
  end.

Definition getmembers_r (o : pyobj) (predicate : pyobj -> result bool)
  : result (list (string * pyobj)) :=
  filter_r predicate (members o).

End inspect.
Import inspect.

(** ** Utilities *)

(** The tree of submodules: a mapping for a package, the module itself for
    a leaf.  A mapping keeps its keys in insertion order. *)
Inductive tree : Type :=
| Leaf (m : pyobj)
| Dict (items : list (string * tree)).

(** [d[k] = v] *)
Fixpoint dict_set {V : Type} (k : string) (v : V) (d : list (string * V))
  : list (string * V) :=
  match d with
  | [] => [(k, v)]
  | (k', v') :: d' =>
      if String.eqb k' k then (k', v) :: d' else (k', v') :: dict_set k v d'
  end.

(** [x in s] for a collection of names *)
Definition name_in (x : string) (s : list string) : bool :=
  existsb (String.eqb x) s.

(** [set(l) if l else {}]: the collection is only iterated or asked for
    membership, so it is kept as the list of its elements. *)
Definition set_or_empty {A : Type} (l : option (list A)) : list A :=
  match l with
  | Some (x :: l') => x :: l'
  | _ => []
  end.

(** Truthiness of a collection *)
Definition truthy {A : Type} (l : list A) : bool :=
  match l with [] => false | _ => true end.

Section build_tree.

Variable get_children : pyobj -> result (list pyobj).
Variable make_key : pyobj -> string.
Variable ignore_if : pyobj -> bool.

(** [_build_tree(root, get_children, make_key, ignore_if)]; [depth] is the
    number of nested calls the interpreter allows before RecursionError. *)
Fixpoint _build_tree (depth : nat) (root : pyobj) : result tree :=
  match depth with
  | 0 => Raise RecursionError
  | S depth' =>
      let! children := get_children root in
      if negb (truthy children) then Ok (Leaf root)
      else
        let! result :=
          fold_left
            (fun acc item =>
               let! result := acc in
               if ignore_if item then Ok result
               else
                 let! sub := _build_tree depth' item in
                 Ok (dict_set (make_key item) sub result))
            children (Ok []) in
        Ok (Dict result)
  end.

End build_tree.

(** [seq[0]] *)
Definition item0 (l : list string) : result string :=
  match l with
  | [] => Raise IndexError
  | x :: _ => Ok x
  end.

Definition is_submodule (child parent : pyobj) : result bool :=
  match __path__ parent with
  | None => Ok false
  | Some parent_path =>
      match __path__ child with
      | Some child_path =>
          let! parentpath := item0 parent_path in
          let! childpath := item0 child_path in
          Ok (startswith childpath parentpath)
      | None =>
          match __file__ child with
          | Some childpath =>
              let! parentpath := item0 parent_path in
              Ok (startswith childpath parentpath)
          | None => Ok false
          end
      end
  end.

Definition is_subfunction (obj parent : pyobj) : bool :=
  if isclass parent then
    (isfunction obj || ismethod obj)
    && String.eqb (__module__ obj) (__module__ parent)
  else if ismodule parent then
    (isfunction obj || ismethod obj)
    && String.eqb (__module__ obj) (__name__ parent)
  else false.

Definition is_subclass (obj parent : pyobj) : bool :=
  if isclass parent then
    isclass obj && String.eqb (__module__ obj) (__module__ parent)
  else if ismodule parent then
    isclass obj && String.eqb (__module__ obj) (__name__ parent)
  else false.

Definition is_testable (obj x : pyobj) : bool :=
  is_subfunction x obj || is_subclass x obj.

Definition get_testables (obj : pyobj) (ignore : option (list string))
  : list pyobj :=
  let ignore := set_or_empty ignore in
  let testables := getmembers obj (is_testable obj) in
  map snd (filter (fun kv => negb (name_in (fst kv) ignore)) testables).

Definition get_submodules (module : pyobj) (ignore : list string)
  : result (list pyobj) :=
  let! members := getmembers_r module (fun x => is_submodule x module) in
  Ok (map snd
        (filter (fun x => negb (name_in (__name__ (snd x)) ignore)) members)).

Definition get_submodule_tree (depth : nat) (root : pyobj)
  (ignore : option (list string)) : result tree :=
  let ignore := set_or_empty ignore in
  let get_children := fun x => get_submodules x ignore in
  let ignore_if := fun x => name_in (__name__ x) ignore in
  let make_key := fun x => __name__ x in
  _build_tree get_children make_key ignore_if depth root.

Definition indent (text : string) (n spaces_ : nat) : string :=
  textwrap_indent text (spaces (n * spaces_)).

Definition get_function_test_name (func : pyobj) : string :=
  "test_" ++ __name__ func.

Definition get_class_test_name (cls : pyobj) : string :=
  "Test" ++ __name__ cls.

(** The local [name] of [exists_test]: assigned in three branches of the
    [if], left unbound otherwise. *)
Definition expected_name (obj : pyobj) : option string :=
  if isclass obj then Some (get_class_test_name obj)
  else if isfunction obj then Some (get_function_test_name obj)
  else if ismethod obj then Some (get_function_test_name obj)
  else None.

(** The loop of [exists_test]; reading the unbound [name] raises. *)
Fixpoint scan_context (name : option string) (context : list pyobj)
  : result (option pyobj) :=
  match context with
  | [] => Ok None
  | item :: context' =>
      match name with
      | None => Raise UnboundLocalError
      | Some name' =>
          if String.eqb (__name__ item) name' then Ok (Some item)
          else scan_context name context'
      end
  end.

(** [exists_test(obj, context)]: the matching item, or [None] for [False]. *)
Definition exists_test (obj : pyobj) (context : list pyobj)
  : result (option pyobj) :=
  scan_context (expected_name obj) context.

(** ** Stub formatting *)

Definition format_function (function : pyobj) (is_method : bool) : string :=
  let name := get_function_test_name function in
  let self := if is_method then "self" else "" in
  "@pytest.mark.skip" ++ nl
  ++ "def " ++ name ++ "(" ++ self ++ "):" ++ nl
  ++ "    pass" ++ nl.

(** One turn of the loop of [format_class] over a testable member:
    [rec m exists] stands for the nested call
    [format_class(m, exists=exists)]. *)
Definition format_class_member
  (rec : pyobj -> option (list pyobj) -> result string)
  (cls : pyobj) (n : nat) (exists_ : list pyobj)
  (body : string) (member : pyobj) : result string :=
  let! after_function :=
    if is_subfunction member cls then
      let! found := exists_test member exists_ in
      match found with
      | Some _ => Ok None
      | None => Ok (Some (body ++ indent (format_function member true) n 4))
      end
    else Ok (Some body) in
  match after_function with
  | None => Ok body
  | Some body =>
      if is_subclass member cls then
        let exists_in_subcls := get_testables member (Some ["__init__"]) in
        let exists_in_subcls :=
          if negb (truthy exists_in_subcls) then [member]
          else exists_in_subcls in
        let! nested := rec member (Some exists_in_subcls) in
        Ok (body ++ indent nested n 4)
      else Ok body
  end.

(** [format_class(cls, n, exists)].  The loop runs over
    [get_testables(cls, ["__init__"])]; it is written here as one pass
    over the members with the extractor's two tests in line, which is what
    makes the nested call structural.  [format_class_unfold] below gives
    the equation in the source's own shape.  The recursion ends because
    the objects of this development are finite trees; what is proved of
    [format_class] is proved of classes whose nesting is finite. *)
Fixpoint format_class (cls : pyobj) (n : nat) (exists_ : option (list pyobj))
  {struct cls} : result string :=
  let name := get_class_test_name cls in
  let exists_ := set_or_empty exists_ in
  let body :=
    if truthy exists_ then ""
    else "@pytest.mark.skip" ++ nl
         ++ "class " ++ name ++ ":" ++ nl
         ++ "    '''" ++ nl
         ++ "    '''" ++ nl in
  (fix loop (ms : list (string * pyobj)) (body : string) {struct ms}
     : result string :=
     match ms with
     | [] => Ok body
     | (k, member) :: ms' =>
         if is_testable cls member && negb (name_in k ["__init__"]) then
           let! body' :=
             format_class_member (fun m e => format_class m 1 e)
                                 cls n exists_ body member in
           loop ms' body'
         else loop ms' body
     end) (members cls) body.

(** The loop of [format_class] over a list of testables. *)
Definition format_class_loop (cls : pyobj) (n : nat) (exists_ : list pyobj)
  (testables : list pyobj) (body : string) : result string :=
  fold_left
    (fun acc member =>
       let! body := acc in
       format_class_member (fun m e => format_class m 1 e)
                           cls n exists_ body member)
    testables (Ok body).

(** ** The world: file system, working directory, standard output *)

Inductive node : Type :=
| File (content : string)
| Directory.

(** Files and directories are found under their absolute location, the
    list of path components below the root. *)
Record world : Type := World {
  cwd : list string;
  fs : list string -> option node;
  stdout : string
}.

Fixpoint path_eqb (a b : list string) : bool :=
  match a, b with
  | [], [] => true
  | x :: a', y :: b' => String.eqb x y && path_eqb a' b'
  | _, _ => false
  end.

Definition fs_set (p : list string) (x : node) (w : world) : world :=
  World (cwd w) (fun q => if path_eqb p q then Some x else fs w q) (stdout w).

(** The root directory always exists. *)
Definition lookup (w : world) (p : list string) : option node :=
  match p with
  | [] => Some Directory
  | _ => fs w p
  end.

(** A statement either returns or raises; in both cases the world it
    leaves behind is kept. *)
Definition M (A : Type) : Type := world -> result A * world.

Definition ret {A} (a : A) : M A := fun w => (Ok a, w).

Definition bind {A B} (m : M A) (k : A -> M B) : M B :=
  fun w =>
    match m w with
    | (Ok a, w') => k a w'
    | (Raise e, w') => (Raise e, w')
    end.

Definition lift {A} (r : result A) : M A := fun w => (r, w).

Notation "x <- c1 ;; c2" := (bind c1 (fun x => c2))
  (at level 61, c1 at next level, right associativity).
Notation "c1 ;; c2" := (bind c1 (fun _ => c2))
  (at level 61, right associativity).

(** [for x in l: body(x)] *)
Fixpoint for_each {A} (l : list A) (body : A -> M unit) : M unit :=
  match l with
  | [] => ret tt
  | x :: l' => body x ;; for_each l' body
  end.

(** *** pathlib *)

Module pathlib.

Record Path : Type := mkPath { absolute : bool; parts : list string }.

Definition parts_of (s : string) : list string :=
  filter (fun c => nonempty c && negb (String.eqb c "."))
         (split_on "/" s).

(** [Path(s)] *)
Definition of_string (s : string) : Path :=
  mkPath (String.prefix "/" s) (parts_of s).

(** [p / s]: an absolute right operand replaces the left one. *)
Definition div (p : Path) (s : string) : Path :=
  if String.prefix "/" s then of_string s
  else mkPath (absolute p) (parts p ++ parts_of s)%list.

(** [p.parent] *)
Definition parent (p : Path) : Path :=
  mkPath (absolute p) (removelast (parts p)).

Fixpoint rfind_from (c : ascii) (s : string) (i : nat) (found : option nat)
  : option nat :=
  match s with
  | EmptyString => found
  | String a s' =>
      rfind_from c s' (S i) (if Ascii.eqb a c then Some i else found)
  end.

(** [p.stem]: the last component without its suffix. *)
Definition stem (p : Path) : string :=
  let name := last (parts p) "" in
  match rfind_from "." name 0 None with
  | Some i =>
      if ((0 <? i) && (i <? String.length name - 1))%nat
      then String.substring 0 i name
      else name
  | None => name
  end.

(** Where the operating system finds [p] from the working directory. *)
Definition resolve (w : world) (p : Path) : list string :=
  if absolute p then parts p else (cwd w ++ parts p)%list.

(** The ancestors of a location, itself included, shortest first. *)
Fixpoint prefixes (p : list string) : list (list string) :=
  match p with
  | [] => []
  | x :: p' => [x] :: map (cons x) (prefixes p')
  end.

Definition is_file (w : world) (p : list string) : bool :=
  match lookup w p with Some (File _) => true | _ => false end.

Definition is_dir (w : world) (p : list string) : bool :=
  match lookup w p with Some Directory => true | _ => false end.

(** [p.mkdir(exist_ok=True, parents=True)] *)
Definition mkdir (p : Path) : M unit :=
  fun w =>
    let ps := prefixes (resolve w p) in
    if existsb (is_file w) ps then (Raise OSError, w)
    else (Ok tt, fold_left (fun w' q => fs_set q Directory w') ps w).

(** [p.exists()] *)
Definition exists_ (p : Path) : M bool :=
  fun w =>
    (Ok (match lookup w (resolve w p) with Some _ => true | None => false end),
     w).

End pathlib.
Import pathlib.

(** [os.chdir(p)] *)
Definition chdir (p : Path) : M unit :=
  fun w =>
    let q := resolve w p in
    if is_dir w q then (Ok tt, World q (fs w) (stdout w))
    else (Raise OSError, w).

(** [open(p, "a")]: the file is created empty when it is not there; the
    handle is the location of the file. *)
Definition open_append (p : Path) : M (list string) :=
  fun w =>
    let q := resolve w p in
    match lookup w q with
    | Some (File _) => (Ok q, w)
    | Some Directory => (Raise OSError, w)
    | None =>
        if is_dir w (removelast q) then (Ok q, fs_set q (File "") w)
        else (Raise OSError, w)
    end.

(** [f.write(s)] on a handle opened for appending *)
Definition write (f : list string) (s : string) : M unit :=
  fun w =>
    match fs w f with
    | Some (File c) => (Ok tt, fs_set f (File (c ++ s)) w)
    | _ => (Raise ValueError, w)
    end.

(** [f.writelines(lines)] *)
Definition writelines (f : list string) (lines : list string) : M unit :=
  for_each lines (write f).

(** [print(s)] *)
Definition print (s : string) : M unit :=
  fun w => (Ok tt, World (cwd w) (fs w) (stdout w ++ s ++ nl)).

(** ** Main *)

Section Pipeline.

(** What executing the file of a module yields in a given world: the
    namespace, or the exception the execution ends with.  The interpreter
    and the files it reads are outside this program. *)
Variable loader : world -> string -> result pyobj.

(** The nesting of calls the interpreter allows. *)
Variable recursion_limit : nat.

(** [importlib.import_module(name)]: an absolute dotted name is resolved
    component by component; an empty name, a relative name given without
    a package and a name with an empty component are refused before any
    file is executed. *)
Definition import_module (name : string) : M pyobj :=
  fun w =>
    (if negb (nonempty name) then Raise ValueError
     else if String.prefix "." name then Raise TypeError
     else if name_in "" (split_on "." name) then Raise ModuleNotFoundError
     else loader w name,
     w).

(** The two lines a new test file starts with. *)
Definition import_header (name : string) (submod : pyobj) : list string :=
  let items := join "," (map __name__ (get_testables submod None)) in
  let import_name :=
    if nonempty items then "from " ++ name ++ " import " ++ items ++ nl
    else "import " ++ name ++ nl in
  let import_pytest := "import pytest" ++ nl in
  [import_name; import_pytest].

(** [filename], [fullpath] and [testmod] of the leaf called [name]. *)
Definition test_file_name (name : string) : string :=
  "test_" ++ last_item (split_on "." name) ++ ".py".

Definition test_file_path (base : Path) (name : string) : Path :=
  div (div base (join "/" (slice_1_to_last (split_on "." name))))
      (test_file_name name).

Definition test_module_name (base : Path) (name : string) : string :=
  (stem base ++ ".") ++ join "." (slice_1_to_last (split_on "." name))
  ++ ("." ++ drop_last3 (test_file_name name)).

(** The [else] branch of the loop of [_help_setup_files]: one leaf. *)
Definition setup_leaf (base : Path) (name : string) (submod : pyobj)
  : M (Path * pyobj * string) :=
  let filename := test_file_name name in
  let fullpath := test_file_path base name in
  mkdir (parent fullpath) ;;
  chdir (parent base) ;;
  let testmod := test_module_name base name in
  present <- exists_ fullpath ;;
  (if negb present then
     f <- open_append fullpath ;;
     writelines f (import_header name submod)
   else ret tt) ;;
  ret (fullpath, submod, testmod).

(** [_help_setup_files(base, modules)]: a module that is not a mapping is
    first wrapped as the mapping of its name to itself. *)
Fixpoint _help_setup_files (base : Path) (modules : tree) {struct modules}
  : M (list (Path * pyobj * string)) :=
  match modules with
  | Leaf m =>
      r <- setup_leaf base (__name__ m) m ;;
      ret [r]
  | Dict items =>
      (fix loop (items : list (string * tree))
           (result : list (Path * pyobj * string)) {struct items}
         : M (list (Path * pyobj * string)) :=
         match items with
         | [] => ret result
         | (name, submod) :: items' =>
             match submod with
             | Dict _ =>
                 let subpath :=
                   div base (join "/" (slice_from1 (split_on "." name))) in
                 mkdir subpath ;;
                 sub <- _help_setup_files base submod ;;
                 loop items' (result ++ sub)%list
             | Leaf m =>
                 r <- setup_leaf base name m ;;
                 loop items' (result ++ [r])%list
             end
         end) items []
  end.

Definition setup_files (path : string) (modules : tree)
  : M (list (Path * pyobj * string)) :=
  let base := of_string path in
  mkdir base ;;
  _help_setup_files base modules.

(** The text [generate_tests] writes for a class. *)
Definition class_body (obj : pyobj) (exists_ members_ : list pyobj)
  : result string :=
  let! test_obj := exists_test obj exists_ in
  match test_obj with
  | Some test_obj =>
      let exists_in_cls := get_testables test_obj None in
      let! existing_items :=
        fold_right
          (fun i acc =>
             let! x := exists_test i exists_in_cls in
             let! xs := acc in
             Ok (x :: xs))
          (Ok []) members_ in
      let existing_items :=
        filter (fun x => match x with Some _ => true | None => false end)
               existing_items in
      let exists_in_cls :=
        if negb (truthy exists_in_cls) then [obj] else exists_in_cls in
      format_class obj 1 (Some exists_in_cls)
  | None => format_class obj 1 None
  end.

(** One turn of the inner loop of [generate_tests]. *)
Definition generate_member (f : list string) (exists_ members_ : list pyobj)
  (obj : pyobj) : M unit :=
  if isfunction obj then
    found <- lift (exists_test obj exists_) ;;
    match found with
    | Some _ => ret tt
    | None => write f (format_function obj (ismethod obj) ++ nl)
    end
  else if isclass obj then
    body <- lift (class_body obj exists_ members_) ;;
    write f (body ++ nl)
  else ret tt.

Definition generate_tests (mods : list (Path * pyobj * string)) : M unit :=
  for_each mods
    (fun entry =>
       let '(path, mod_, testmod) := entry in
       test_mod <- import_module testmod ;;
       let exists_ := get_testables test_mod None in
       let members_ := get_testables mod_ None in
       f <- open_append path ;;
       for_each members_ (generate_member f exists_ members_)).

(** *** The command line *)

Definition esc : string := String (ascii_of_nat 27) "".
Definition Fore_WHITE : string := esc ++ "[37m".
Definition Fore_BLUE : string := esc ++ "[34m".
Definition Fore_RED : string := esc ++ "[31m".
Definition Style_BRIGHT : string := esc ++ "[1m".
Definition Style_RESET_ALL : string := esc ++ "[0m".

Definition usage : M unit :=
  print (Fore_WHITE ++ Style_BRIGHT
         ++ nl ++ "TestGen: Generate unit tests for a python project" ++ nl
         ++ Style_RESET_ALL) ;;
  print (Fore_WHITE ++ "  >>> ./testgen " ++ Fore_BLUE ++ "<module> "
         ++ Fore_RED ++ "<output> ").

(** The script body; [argv] is [sys.argv]. *)
Definition main (argv : list string) : M unit :=
  if negb (length argv =? 3)%nat then usage
  else
    mod_ <- import_module (nth 1 argv "") ;;
    modules <- lift (get_submodule_tree recursion_limit mod_ None) ;;
    mods <- setup_files (nth 2 argv "") modules ;;
    generate_tests mods.

End Pipeline.

(** ** Concrete programs to run the generator on *)

Module Scenario.

Definition mk_function (name module : string) : pyobj :=
  PyObj KFunction name module None None [].
Definition mk_class (name module : string) (ms : list (string * pyobj))
  : pyobj :=
  PyObj KClass name module None None ms.
Definition mk_module (name file : string) (ms : list (string * pyobj))
  : pyobj :=
  PyObj KModule name "" None (Some file) ms.
Definition mk_package (name path : string) (ms : list (string * pyobj))
  : pyobj :=
  PyObj KModule name "" (Some [path]) (Some (path ++ "/__init__.py")) ms.
(** A value that is neither function, class nor module (a string, say). *)
Definition mk_value (name : string) : pyobj :=
  PyObj KOther name "" None None [].

(** The project directory [/proj], nothing in it yet, and the command
    line [testgen root tests] run from there. *)
Definition proj : world :=
  World ["proj"]
        (fun p => if path_eqb p ["proj"] then Some Directory else None)
        "".
Definition argv : list string := ["testgen"; "root"; "tests"].

(** *** A module [root.py] with functions [a], [b] and a class [C] with
    one method [m] *)

Definition abc_C : pyobj :=
  mk_class "C" "root" [("m", mk_function "m" "root")].
Definition abc_root : pyobj :=
  mk_module "root" "/proj/root.py"
    [("C", abc_C);
     ("__name__", mk_value "str");
     ("a", mk_function "a" "root");
     ("b", mk_function "b" "root")].
Definition abc_test_file : list string := ["proj"; "tests"; "test_root.py"].

(** *** A package [root/pkg/sub.py] whose class [C] has a method [B] and a
    nested class [D] with a method [m] *)

Definition nested_D : pyobj :=
  mk_class "D" "root.pkg.sub" [("m", mk_function "m" "root.pkg.sub")].
Definition nested_C : pyobj :=
  mk_class "C" "root.pkg.sub"
    [("B", mk_function "B" "root.pkg.sub"); ("D", nested_D)].
Definition nested_sub : pyobj :=
  mk_module "root.pkg.sub" "/proj/root/pkg/sub.py" [("C", nested_C)].
Definition nested_pkg : pyobj :=
  mk_package "root.pkg" "/proj/root/pkg" [("sub", nested_sub)].
Definition nested_root : pyobj :=
  mk_package "root" "/proj/root" [("pkg", nested_pkg)].
Definition nested_test_file : list string :=
  ["proj"; "tests"; "pkg"; "test_sub.py"].

(** The test file as the first run leaves it. *)
Definition nested_header : string :=
"from root.pkg.sub import C
import pytest
".
Definition nested_first_run : string :=
"from root.pkg.sub import C
import pytest
@pytest.mark.skip
class TestC:
    '''
    '''
    @pytest.mark.skip
    def test_B(self):
        pass
        @pytest.mark.skip
        def test_m(self):
            pass

".

(** What executing that file yields.  With the header only, the
    namespace holds the imported class.  After the first run it also
    holds [TestC], whose only attribute of its own is [test_B]: the second
    [def] sits in the body of [test_B]. *)
Definition nested_TestC : pyobj :=
  mk_class "TestC" "tests.pkg.test_sub"
    [("test_B", mk_function "test_B" "tests.pkg.test_sub")].
Definition pytest_module : pyobj :=
  mk_package "pytest" "/usr/lib/python3/site-packages/pytest" [].
Definition nested_tests_fresh : pyobj :=
  mk_module "tests.pkg.test_sub" "/proj/tests/pkg/test_sub.py"
    [("C", nested_C); ("pytest", pytest_module)].
Definition nested_tests_reloaded : pyobj :=
  mk_module "tests.pkg.test_sub" "/proj/tests/pkg/test_sub.py"
    [("C", nested_C); ("TestC", nested_TestC); ("pytest", pytest_module)].

Definition nested_loader (w : world) (name : string) : result pyobj :=
  if String.eqb name "root" then Ok nested_root
  else if String.eqb name "tests.pkg.test_sub" then
    match fs w nested_test_file with
    | Some (File text) =>
        if String.eqb text nested_header then Ok nested_tests_fresh
        else if String.eqb text nested_first_run then Ok nested_tests_reloaded
        else Raise SyntaxError
    | _ => Raise ModuleNotFoundError
    end
  else Raise ModuleNotFoundError.

(** A complete hand-written test class for [C]: [test_B], and a nested
    [TestD] with [test_m]. *)
Definition nested_TestD : pyobj :=
  mk_class "TestD" "tests.pkg.test_sub"
    [("test_m", mk_function "test_m" "tests.pkg.test_sub")].
Definition nested_TestC_complete : pyobj :=
  mk_class "TestC" "tests.pkg.test_sub"
    [("TestD", nested_TestD);
     ("test_B", mk_function "test_B" "tests.pkg.test_sub")].
Definition nested_stub_m : string :=
"        @pytest.mark.skip
        def test_m(self):
            pass
".

(** *** The same functions and class in a leaf [root/pkg/sub.py] *)

Definition deep_C : pyobj :=
  mk_class "C" "root.pkg.sub" [("m", mk_function "m" "root.pkg.sub")].
Definition deep_sub : pyobj :=
  mk_module "root.pkg.sub" "/proj/root/pkg/sub.py"
    [("C", deep_C);
     ("a", mk_function "a" "root.pkg.sub");
     ("b", mk_function "b" "root.pkg.sub")].
Definition deep_root : pyobj :=
  mk_package "root" "/proj/root"
    [("pkg", mk_package "root.pkg" "/proj/root/pkg" [("sub", deep_sub)])].
Definition deep_header : string :=
"from root.pkg.sub import C,a,b
import pytest
".
Definition deep_first_run : string :=
"from root.pkg.sub import C,a,b
import pytest
@pytest.mark.skip
class TestC:
    '''
    '''
    @pytest.mark.skip
    def test_m(self):
        pass

@pytest.mark.skip
def test_a():
    pass

@pytest.mark.skip
def test_b():
    pass

".
Definition deep_tests_fresh : pyobj :=
  mk_module "tests.pkg.test_sub" "/proj/tests/pkg/test_sub.py"
    [("C", deep_C);
     ("a", mk_function "a" "root.pkg.sub");
     ("b", mk_function "b" "root.pkg.sub");
     ("pytest", pytest_module)].
Definition deep_tests_reloaded : pyobj :=
  mk_module "tests.pkg.test_sub" "/proj/tests/pkg/test_sub.py"
    [("C", deep_C);
     ("TestC",
      mk_class "TestC" "tests.pkg.test_sub"
        [("test_m", mk_function "test_m" "tests.pkg.test_sub")]);
     ("a", mk_function "a" "root.pkg.sub");
     ("b", mk_function "b" "root.pkg.sub");
     ("pytest", pytest_module);
     ("test_a", mk_function "test_a" "tests.pkg.test_sub");
     ("test_b", mk_function "test_b" "tests.pkg.test_sub")].
Definition deep_loader (w : world) (name : string) : result pyobj :=
  if String.eqb name "root" then Ok deep_root
  else if String.eqb name "tests.pkg.test_sub" then
    match fs w nested_test_file with
    | Some (File text) =>
        if String.eqb text deep_header then Ok deep_tests_fresh
        else if String.eqb text deep_first_run then Ok deep_tests_reloaded
        else Raise SyntaxError
    | _ => Raise ModuleNotFoundError
    end
  else Raise ModuleNotFoundError.

(** *** A class [C] with methods [m] and [n], and a test module that
    already has [TestC] with [test_m] *)

Definition cov_C : pyobj :=
  mk_class "C" "root.pkg.sub"
    [("__init__", mk_function "__init__" "root.pkg.sub");
     ("m", mk_function "m" "root.pkg.sub");
     ("n", mk_function "n" "root.pkg.sub")].
Definition cov_sub : pyobj :=
  mk_module "root.pkg.sub" "/proj/root/pkg/sub.py" [("C", cov_C)].
Definition cov_TestC : pyobj :=
  mk_class "TestC" "tests.pkg.test_sub"
    [("test_m", mk_function "test_m" "tests.pkg.test_sub")].
Definition cov_tests : pyobj :=
  mk_module "tests.pkg.test_sub" "/proj/tests/pkg/test_sub.py"
    [("C", cov_C); ("TestC", cov_TestC); ("pytest", pytest_module)].
Definition cov_stub_n : string :=
"    @pytest.mark.skip
    def test_n(self):
        pass

".

(** *** A module where [g = f] binds a function a second time *)

Definition alias_f : pyobj := mk_function "f" "root.pkg.sub".
Definition alias_sub : pyobj :=
  mk_module "root.pkg.sub" "/proj/root/pkg/sub.py"
    [("f", alias_f); ("g", alias_f)].

(** *** A package [/proj/foo] that imports its neighbours *)

Definition foo_package : pyobj :=
  mk_package "foo" "/proj/foo" [].
Definition foobar_module : pyobj :=
  mk_module "foobar" "/proj/foobar.py" [].
Definition foo_child : pyobj :=
  mk_module "foo.child" "/proj/foo/child.py" [].

(** *** A class with an initializer *)

Definition init_class : pyobj :=
  mk_class "Point" "geometry"
    [("__init__", mk_function "__init__" "geometry");
     ("norm", mk_function "norm" "geometry")].
(** The same with [reset = __init__] in the class body. *)
Definition init_alias_class : pyobj :=
  mk_class "Point" "geometry"
    [("__init__", mk_function "__init__" "geometry");
     ("norm", mk_function "norm" "geometry");
     ("reset", mk_function "__init__" "geometry")].

End Scenario.

(** ** What a run may do to the files *)

(** Every file keeps its content. *)
Definition files_kept (w w' : world) : Prop :=
  forall p c, fs w p = Some (File c) -> fs w' p = Some (File c).

(** Every file keeps its content as the beginning of what it holds. *)
Definition files_extended (w w' : world) : Prop :=
  forall p c, fs w p = Some (File c) ->
              exists more, fs w' p = Some (File (c ++ more)).

(** Every file either was there with the same content or is one that
    [fresh] describes. *)
Definition files_new (fresh : list string -> string -> Prop)
  (w w' : world) : Prop :=
  forall p c, fs w' p = Some (File c) ->
              fs w p = Some (File c) \/ fresh p c.

(** A statement respects a relation between worlds when the world it
    leaves, returning or raising, is related to the one it started in. *)
Definition respects {A : Type} (R : world -> world -> Prop) (m : M A)
  : Prop :=
  forall w, R w (snd (m w)).

(** The leaves of a module tree under the names [_help_setup_files] meets
    them by. *)
Fixpoint leaves (modules : tree) : list (string * pyobj) :=
  match modules with
  | Leaf m => [(__name__ m, m)]
  | Dict items =>
      (fix walk (items : list (string * tree)) : list (string * pyobj) :=
         match items with
         | [] => []
         | (name, submod) :: items' =>
             match submod with
             | Dict _ => (leaves submod ++ walk items')%list
             | Leaf m => (name, m) :: walk items'
             end
         end) items
  end.

(** The content of a test file right after its creation. *)
Definition header_text (name : string) (submod : pyobj) : string :=
  String.concat "" (import_header name submod).

(** What the materializer may do: keep every file, and add files that
    [fresh] describes. *)
Definition materialized (fresh : list string -> string -> Prop)
  (w w' : world) : Prop :=
  files_kept w w' /\ files_new fresh w w'.

(** A location and a content that the leaves [L] account for: the header
    of one of them, found (when the output directory is absolute) at that
    leaf's test file. *)
Definition fresh_header (base : Path) (L : list (string * pyobj))
  (p : list string) (c : string) : Prop :=
  exists name submod,
    In (name, submod) L
    /\ c = header_text name submod
    /\ (absolute base = true -> p = parts (test_file_path base name)).

(** ** The containment the specification asks of submodule discovery

    Following the specification's words: a candidate is a submodule of a
    namespace only if its storage location is nested under the
    namespace's own, that is, its sequence of path components properly
    extends the namespace's. *)

Fixpoint proper_extension (parent child : list string) : bool :=
  match parent, child with
  | [], _ :: _ => true
  | x :: parent', y :: child' => String.eqb x y && proper_extension parent' child'
  | _, _ => false
  end.

Definition spec_nested_under (childpath parentpath : string) : bool :=
  proper_extension (parts_of parentpath) (parts_of childpath).

(** ** Vocabulary for the properties of the tree and of names *)

(** Every mapping of a tree, at any depth, satisfies [Q]. *)
Inductive each_dict (Q : list (string * tree) -> Prop) : tree -> Prop :=
| each_dict_leaf : forall m, each_dict Q (Leaf m)
| each_dict_node : forall items,
    Q items ->
    (forall k sub, In (k, sub) items -> each_dict Q sub) ->
    each_dict Q (Dict items).

(** What holds of a mapping the tree builder makes: distinct keys, and
    every entry stands for an item that was not ignored, under the key
    made of it; a leaf entry holds that very item. *)
Definition built (make_key : pyobj -> string) (ignore_if : pyobj -> bool)
  (items : list (string * tree)) : Prop :=
  NoDup (map fst items)
  /\ forall k sub, In (k, sub) items ->
       exists item, make_key item = k /\ ignore_if item = false
                    /\ forall m, sub = Leaf m -> m = item.

(** Between two worlds only the file at [q] differs, which now holds
    [c]. *)
Definition only_file_changed (q : list string) (c : string)
  (w w' : world) : Prop :=
  cwd w' = cwd w
  /\ stdout w' = stdout w
  /\ fs w' q = Some (File c)
  /\ forall p, p <> q -> fs w' p = fs w p.

(** [obj] needs no stub given the loaded [tests]: it is a function that
    has a test of its name, or a bound method (the driver writes nothing
    for one), or a class without nested classes whose test class is found
    and has a test for each of its methods. *)
Definition covered (tests : list pyobj) (obj : pyobj) : Prop :=
  (isfunction obj = true
   /\ exists t, In t tests /\ __name__ t = "test_" ++ __name__ obj)
  \/ ismethod obj = true
  \/ (isclass obj = true
      /\ exists test_class,
           find (fun item => String.eqb (__name__ item)
                                        ("Test" ++ __name__ obj)) tests
           = Some test_class
           /\ forall m, In m (get_testables obj (Some ["__init__"])) ->
                is_subfunction m obj = true
                /\ exists t, In t (get_testables test_class None)
                             /\ __name__ t = "test_" ++ __name__ m).

(** Whatever exists keeps existing, and a directory stays a directory. *)
Definition nodes_kept (w w' : world) : Prop :=
  forall p, (lookup w p <> None -> lookup w' p <> None)
            /\ (lookup w p = Some Directory -> lookup w' p = Some Directory).

(** The character [c] occurs in [s]. *)
Fixpoint has_char (c : ascii) (s : string) : bool :=
  match s with
  | EmptyString => false
  | String a s' => Ascii.eqb a c || has_char c s'
  end.

(** Some character of [s] ends a line for [str.splitlines]. *)
Fixpoint has_linebreak (s : string) : bool :=
  match s with
  | EmptyString => false
  | String a s' => is_linebreak a || has_linebreak s'
  end.

(** The entry a leaf contributes to the result of [_help_setup_files]. *)
Definition leaf_entry (base : Path) (leaf : string * pyobj)
  : Path * pyobj * string :=
  (test_file_path base (fst leaf), snd leaf, test_module_name base (fst leaf)).

(** ** Vocabulary for the header of a new test file *)

(** The directories the walk of [_help_setup_files] makes, in its order:
    one for each package entry and the parent of each leaf's test file. *)
Fixpoint made_dirs (base : Path) (modules : tree) : list Path :=
  match modules with
  | Leaf m => [parent (test_file_path base (__name__ m))]
  | Dict items =>
      (fix walk (items : list (string * tree)) : list Path :=
         match items with
         | [] => []
         | (name, submod) :: items' =>
             match submod with
             | Dict _ =>
                 (div base (join "/" (slice_from1 (split_on "." name)))
                  :: made_dirs base submod ++ walk items')%list
             | Leaf m => parent (test_file_path base name) :: walk items'
             end
         end) items
  end.

(** An output directory from which [os.chdir(base.parent)] does not move
    the place relative paths are resolved from: an absolute one, or a
    relative one of a single component, whose parent is [.]. *)
Definition steady (base : Path) : Prop :=
  absolute base = true \/ removelast (parts base) = [].

(** What steps of the materializer for leaves among [L] and directories
    among [D] make of a world [w]: files are kept, relative paths are
    resolved from the same place, a file that was not there holds the
    header of a leaf and sits at that leaf's test file, and a directory
    that was not there is one of [D] or an ancestor of one. *)
Definition laid_out (base : Path) (L : list (string * pyobj))
  (D : list Path) (w w' : world) : Prop :=
  files_kept w w'
  /\ (absolute base = false -> cwd w' = cwd w)
  /\ (forall p c, fs w' p = Some (File c) ->
        fs w p = Some (File c)
        \/ exists name submod,
             In (name, submod) L
             /\ c = header_text name submod
             /\ p = resolve w (test_file_path base name))
  /\ (forall p, lookup w' p = Some Directory ->
        lookup w p = Some Directory
        \/ exists d, In d D /\ In p (prefixes (resolve w d))).

(** The header the source writes, line by line: the names are the
    [__name__]s of the testable bindings of the leaf in attribute-name
    order; the first line imports them from the leaf, or imports the leaf
    itself when there is none; the second line imports pytest; no name is
    repeated when every testable attribute is bound under its own
    [__name__]. *)
Definition header_described (name : string) (submod : pyobj) (c : string)
  : Prop :=
  let names := map __name__ (get_testables submod None) in
  names
  = map (fun kv => __name__ (snd kv))
        (filter (fun kv => is_testable submod (snd kv)) (members submod))
  /\ c = (if nonempty (join "," names)
          then "from " ++ name ++ " import " ++ join "," names ++ nl
          else "import " ++ name ++ nl)
         ++ "import pytest" ++ nl
  /\ (names = [] ->
      c = ("import " ++ name ++ nl) ++ "import pytest" ++ nl)
  /\ (NoDup (map fst (members submod)) ->
      (forall k v, In (k, v) (members submod) ->
                   is_testable submod v = true -> __name__ v = k) ->
      NoDup names).

(** * Properties *)

(** ** Existing-test matcher *)

Lemma scan_context_find (name : string) (context : list pyobj) :
  scan_context (Some name) context
  = Ok (find (fun item => String.eqb (__name__ item) name) context).
Proof.
  induction context as [|item context IH]; simpl.
  - reflexivity.
  - destruct (String.eqb (__name__ item) name); [reflexivity | exact IH].
Qed.

Lemma scan_context_unbound (item : pyobj) (context : list pyobj) :
  scan_context None (item :: context) = Raise UnboundLocalError.
Proof. reflexivity. Qed.

Lemma expected_name_bound (obj : pyobj) :
  (isclass obj || isfunction obj || ismethod obj) = true ->
  expected_name obj
  = Some (if isclass obj then "Test" ++ __name__ obj
          else "test_" ++ __name__ obj).
Proof.
  unfold expected_name, get_class_test_name, get_function_test_name.
  destruct (isclass obj), (isfunction obj), (ismethod obj);
    simpl; intros H; try reflexivity; discriminate H.
Qed.

Lemma expected_name_unbound (obj : pyobj) :
  (isclass obj || isfunction obj || ismethod obj) = false ->
  expected_name obj = None.
Proof.
  unfold expected_name.
  destruct (isclass obj), (isfunction obj), (ismethod obj);
    simpl; intros H; try reflexivity; discriminate H.
Qed.

Lemma find_first_match {A} (p : A -> bool) (before after : list A) (x : A) :
  (forall y, In y before -> p y = false) -> p x = true ->
  find p (before ++ x :: after) = Some x.
Proof.
  intros Hbefore Hx.
  induction before as [|y before IH]; simpl.
  - now rewrite Hx.
  - rewrite (Hbefore y (or_introl eq_refl)).
    apply IH. intros z Hz. apply Hbefore. now right.
Qed.

(** C10, as the claim words it, fails: handed a module (neither class,
    function nor method) and no candidates, [exists_test] leaves [name]
    unbound and still returns the negative result, because the loop that
    would read [name] never runs. *)
Lemma exists_test_empty_context_counterexample :
  expected_name Scenario.foo_package = None
  /\ exists_test Scenario.foo_package [] = Ok None.
Proof. split; reflexivity. Qed.

(** C10 (amended): for a class, a function or a method, [exists_test]
    computes [Test<Name>] or [test_<name>] and returns the first candidate
    of exactly that name, whatever follows it, or the negative result when
    there is none; it never raises.  For any other argument [name] stays
    unbound: the call raises as soon as there is one candidate to compare
    with, and returns the negative result on an empty collection. *)
Theorem exists_test_precondition (obj : pyobj) :
  ((isclass obj || isfunction obj || ismethod obj) = true ->
   let name :=
     if isclass obj then "Test" ++ __name__ obj else "test_" ++ __name__ obj in
   expected_name obj = Some name
   /\ (forall context,
         exists_test obj context
         = Ok (find (fun item => String.eqb (__name__ item) name) context))
   /\ (forall before item after,
         (forall y, In y before -> __name__ y <> name) ->
         __name__ item = name ->
         exists_test obj (before ++ item :: after) = Ok (Some item))
   /\ (forall context,
         (forall y, In y context -> __name__ y <> name) ->
         exists_test obj context = Ok None))
  /\ ((isclass obj || isfunction obj || ismethod obj) = false ->
      expected_name obj = None
      /\ exists_test obj [] = Ok None
      /\ forall item context,
           exists_test obj (item :: context) = Raise UnboundLocalError).
Proof.
  split.
  - intros Hkind name.
    pose proof (expected_name_bound obj Hkind) as Hname.
    fold name in Hname.
    assert (Hfind : forall context,
              exists_test obj context
              = Ok (find (fun item => String.eqb (__name__ item) name) context)).
    { intros context. unfold exists_test. rewrite Hname.
      apply scan_context_find. }
    split; [exact Hname|]. split; [exact Hfind|]. split.
    + intros before item after Hbefore Hitem.
      rewrite Hfind. f_equal. apply find_first_match.
      * intros y Hy. apply String.eqb_neq. now apply Hbefore.
      * now apply String.eqb_eq.
    + intros context Hnone. rewrite Hfind. f_equal.
      induction context as [|y context IH]; simpl; [reflexivity|].
      assert (Hy : String.eqb (__name__ y) name = false).
      { apply String.eqb_neq. apply Hnone. now left. }
      rewrite Hy. apply IH. intros z Hz. apply Hnone. now right.
  - intros Hkind.
    pose proof (expected_name_unbound obj Hkind) as Hname.
    split; [exact Hname|]. split.
    + reflexivity.
    + intros item context. unfold exists_test. rewrite Hname. reflexivity.
Qed.

Lemma exists_test_precondition_witness :
  exists_test Scenario.cov_C [Scenario.cov_C; Scenario.cov_TestC]
  = Ok (Some Scenario.cov_TestC)
  /\ exists_test Scenario.foo_package [Scenario.cov_TestC]
     = Raise UnboundLocalError.
Proof.
  split.
  - destruct (exists_test_precondition Scenario.cov_C) as [Hpre _].
    destruct (Hpre eq_refl) as (_ & Hfind & _).
    rewrite Hfind. reflexivity.
  - destruct (exists_test_precondition Scenario.foo_package) as [_ Hother].
    destruct (Hother eq_refl) as (_ & _ & Hraise).
    apply Hraise.
Defined.

(** ** Submodule test *)

(** Between a package and a module or package, [is_submodule] is the
    string-prefix test on the two locations. *)
Lemma is_submodule_prefix (child parent : pyobj) (parentpath childpath : string)
  (rest : list string) :
  __path__ parent = Some (parentpath :: rest) ->
  (exists more, __path__ child = Some (childpath :: more))
  \/ (__path__ child = None /\ __file__ child = Some childpath) ->
  is_submodule child parent = Ok (String.prefix parentpath childpath).
Proof.
  intros Hparent [[more Hchild] | [Hnopath Hfile]]; unfold is_submodule.
  - rewrite Hparent, Hchild. reflexivity.
  - rewrite Hparent, Hnopath, Hfile. reflexivity.
Qed.

(** C6: the code accepts what the claim excludes.  The package at
    [/proj/foo] is handed the module [/proj/foobar.py], which lies beside
    it, and then itself: both locations merely start with the characters
    of [/proj/foo], neither is nested under it, and [is_submodule] says
    yes to both.  A module that really lies inside is accepted too. *)
Theorem is_submodule_accepts_sibling_and_self :
  is_submodule Scenario.foobar_module Scenario.foo_package = Ok true
  /\ spec_nested_under "/proj/foobar.py" "/proj/foo" = false
  /\ is_submodule Scenario.foo_package Scenario.foo_package = Ok true
  /\ spec_nested_under "/proj/foo" "/proj/foo" = false
  /\ is_submodule Scenario.foo_child Scenario.foo_package = Ok true
  /\ spec_nested_under "/proj/foo/child.py" "/proj/foo" = true.
Proof. repeat split; reflexivity. Qed.

(** ** Testable extractor *)

Lemma name_in_spec (x : string) (s : list string) :
  name_in x s = true <-> In x s.
Proof.
  unfold name_in. rewrite existsb_exists. split.
  - intros (y & Hy & Heq). apply String.eqb_eq in Heq. now subst.
  - intros H. exists x. split; [exact H | apply String.eqb_refl].
Qed.

Lemma set_or_empty_In {A} (l : list A) (x : A) :
  In x (set_or_empty (Some l)) <-> In x l.
Proof. destruct l; simpl; tauto. Qed.

Lemma get_testables_In (obj : pyobj) (ignore : option (list string))
  (v : pyobj) :
  In v (get_testables obj ignore) <->
  exists k, In (k, v) (members obj)
            /\ is_testable obj v = true
            /\ name_in k (set_or_empty ignore) = false.
Proof.
  unfold get_testables, getmembers. rewrite in_map_iff. split.
  - intros ([k v'] & Hv & Hin). simpl in Hv. subst v'.
    apply filter_In in Hin. destruct Hin as [Hin Hk].
    apply filter_In in Hin. destruct Hin as [Hin Ht]. simpl in *.
    exists k. repeat split; try assumption.
    now apply negb_true_iff.
  - intros (k & Hin & Ht & Hk). exists (k, v). split; [reflexivity|].
    apply filter_In. split.
    + apply filter_In. now split.
    + simpl. now rewrite Hk.
Qed.

Lemma filter_keep_all {A} (l : list A) : filter (fun _ => true) l = l.
Proof. induction l as [|x l IH]; simpl; [reflexivity | now rewrite IH]. Qed.

(** C7, as the claim words it, fails: asked without an ignore collection,
    the extractor returns the initializer of a class that defines one. *)
Lemma get_testables_default_counterexample :
  exists v, In v (get_testables Scenario.init_class None)
            /\ __name__ v = "__init__".
Proof.
  exists (Scenario.mk_function "__init__" "geometry").
  split; [left; reflexivity | reflexivity].
Qed.

(** C7 (amended): the extractor excludes by name only what the caller
    lists.  When the caller's collection contains [__init__], as in every
    call [format_class] makes, each returned entity is an attribute bound
    under a name other than [__init__], and where attributes are bound
    under their own [__name__] no returned entity is named [__init__].
    Without a collection nothing is excluded by name. *)
Theorem get_testables_ignore_init (obj : pyobj) (ignore : list string) :
  In "__init__" ignore ->
  (forall v, In v (get_testables obj (Some ignore)) ->
     exists k, In (k, v) (members obj) /\ k <> "__init__"
               /\ is_testable obj v = true)
  /\ ((forall k v, In (k, v) (members obj) -> __name__ v = k) ->
      forall v, In v (get_testables obj (Some ignore)) ->
                __name__ v <> "__init__")
  /\ get_testables obj None = map snd (getmembers obj (is_testable obj)).
Proof.
  intros Hinit.
  assert (Hkey : forall v, In v (get_testables obj (Some ignore)) ->
            exists k, In (k, v) (members obj) /\ k <> "__init__"
                      /\ is_testable obj v = true).
  { intros v Hv. apply get_testables_In in Hv.
    destruct Hv as (k & Hin & Ht & Hk). exists k.
    repeat split; try assumption.
    intros ->. 
    assert (Hyes : name_in "__init__" (set_or_empty (Some ignore)) = true).
    { apply name_in_spec. now apply set_or_empty_In. }
    rewrite Hyes in Hk. discriminate Hk. }
  split; [exact Hkey|]. split.
  - intros Hown v Hv Hname.
    destruct (Hkey v Hv) as (k & Hin & Hk & _).
    apply Hk. rewrite <- (Hown k v Hin). exact Hname.
  - unfold get_testables. simpl.
    f_equal. apply filter_keep_all.
Qed.

Lemma get_testables_ignore_init_witness :
  In "__init__" ["__init__"]
  /\ Forall (fun v => __name__ v <> "__init__")
            (get_testables Scenario.init_class (Some ["__init__"])).
Proof.
  assert (Hinit : In "__init__" ["__init__"]) by (left; reflexivity).
  split; [exact Hinit|].
  destruct (get_testables_ignore_init Scenario.init_class ["__init__"] Hinit)
    as (_ & Hown & _).
  apply Forall_forall. apply Hown. intros k v Hin. simpl in Hin.
  destruct Hin as [H | [H | []]]; inversion H; reflexivity.
Defined.

(** ** Stub formatter *)

Lemma fold_left_raise {A B} (F : B -> A -> result B) (l : list A) (e : exn) :
  fold_left (fun acc x => let! b := acc in F b x) l (Raise e) = Raise e.
Proof. induction l as [|x l IH]; simpl; [reflexivity | exact IH]. Qed.

Lemma format_class_unfold (cls : pyobj) (n : nat) (ex : option (list pyobj)) :
  format_class cls n ex
  = format_class_loop cls n (set_or_empty ex)
      (get_testables cls (Some ["__init__"]))
      (if truthy (set_or_empty ex) then ""
       else "@pytest.mark.skip" ++ nl
            ++ "class " ++ get_class_test_name cls ++ ":" ++ nl
            ++ "    '''" ++ nl
            ++ "    '''" ++ nl).
Proof.
  unfold format_class_loop, get_testables, getmembers.
  destruct cls as [k nm md pth fl ms].
  cbn [format_class members].
  set (cls := PyObj k nm md pth fl ms).
  generalize (if truthy (set_or_empty ex) then ""
       else "@pytest.mark.skip" ++ nl
            ++ "class " ++ get_class_test_name cls ++ ":" ++ nl
            ++ "    '''" ++ nl
            ++ "    '''" ++ nl) as body.
  clearbody cls.
  induction ms as [|[key member] ms IH]; intros body.
  - reflexivity.
  - cbn [filter snd].
    destruct (is_testable cls member) eqn:Ht; cbn [andb]; [|apply IH].
    cbn [filter fst set_or_empty].
    destruct (negb (name_in key ["__init__"])) eqn:Hk; [|apply IH].
    cbn [map fold_left snd rbind].
    destruct (format_class_member _ cls n (set_or_empty ex) body member)
      as [body'|e]; cbn [rbind].
    + apply IH.
    + symmetry. apply fold_left_raise.
Qed.

Lemma is_subfunction_kind (obj parent : pyobj) :
  is_subfunction obj parent = true ->
  (isclass obj || isfunction obj || ismethod obj) = true.
Proof.
  unfold is_subfunction.
  destruct (isclass parent), (ismodule parent), (isclass obj),
    (isfunction obj), (ismethod obj); simpl; intros H;
    try reflexivity; discriminate H.
Qed.

Lemma is_subfunction_not_class (obj parent : pyobj) :
  is_subfunction obj parent = true -> isclass obj = false.
Proof.
  unfold is_subfunction, isclass, isfunction, ismethod, ismodule.
  destruct (kind parent), (kind obj); simpl; intros H;
    try reflexivity; discriminate H.
Qed.

Lemma exists_test_returns (obj : pyobj) (context : list pyobj) :
  (isclass obj || isfunction obj || ismethod obj) = true ->
  exists found, exists_test obj context = Ok found.
Proof.
  intros Hkind. unfold exists_test.
  rewrite (expected_name_bound obj Hkind), scan_context_find.
  eexists. reflexivity.
Qed.

(** The suppression set handed to the nested call is computed from the
    nested source class alone: what tests exist plays no part in it. *)
Lemma nested_call_ignores_existing_tests
  (rec : pyobj -> option (list pyobj) -> result string)
  (cls : pyobj) (n : nat) (ex ex' : list pyobj) (body : string)
  (member : pyobj) :
  is_subfunction member cls = false ->
  format_class_member rec cls n ex body member
  = format_class_member rec cls n ex' body member.
Proof.
  intros Hf. unfold format_class_member. rewrite Hf. reflexivity.
Qed.

(** C4: the code does not do what the claim says.  For the class [C] with
    method [B] and nested class [D] with method [m], and no test written
    yet, the stub of [C] carries the stub of [m] two levels deep but no
    declaration of [TestD]: the nested call is handed the members of [D]
    itself, never an empty collection.  And when [TestC] is already
    complete, with [test_B] and a nested [TestD] holding [test_m], the stub
    of [m] is emitted again. *)
Theorem format_class_nested_class_divergence :
  get_testables Scenario.nested_D (Some ["__init__"])
  = [Scenario.mk_function "m" "root.pkg.sub"]
  /\ format_class Scenario.nested_C 1 None
     = Ok
"@pytest.mark.skip
class TestC:
    '''
    '''
    @pytest.mark.skip
    def test_B(self):
        pass
        @pytest.mark.skip
        def test_m(self):
            pass
"
  /\ get_testables Scenario.nested_TestC_complete None
     = [Scenario.nested_TestD;
        Scenario.mk_function "test_B" "tests.pkg.test_sub"]
  /\ format_class Scenario.nested_C 1
       (Some (get_testables Scenario.nested_TestC_complete None))
     = Ok Scenario.nested_stub_m.
Proof. repeat split; reflexivity. Qed.

(** ** The command line *)

(** C9: with any number of arguments other than two ([sys.argv] of a
    length other than three) the program prints the two lines of the
    usage banner and ends normally; nothing is imported, the file system
    and the working directory are what they were. *)
Theorem wrong_argument_count_prints_usage
  (loader : world -> string -> result pyobj) (recursion_limit : nat)
  (argv : list string) (w : world) :
  length argv <> 3 ->
  let w' := snd (main loader recursion_limit argv w) in
  fst (main loader recursion_limit argv w) = Ok tt
  /\ fs w' = fs w
  /\ cwd w' = cwd w
  /\ stdout w'
     = (stdout w
        ++ (Fore_WHITE ++ Style_BRIGHT ++ nl
            ++ "TestGen: Generate unit tests for a python project" ++ nl
            ++ Style_RESET_ALL) ++ nl)
       ++ (Fore_WHITE ++ "  >>> ./testgen " ++ Fore_BLUE ++ "<module> "
           ++ Fore_RED ++ "<output> ") ++ nl.
Proof.
  intros Hlen. unfold main.
  apply Nat.eqb_neq in Hlen. rewrite Hlen. cbn [negb].
  repeat split; reflexivity.
Qed.

Lemma wrong_argument_count_prints_usage_witness :
  fst (main Scenario.nested_loader 100 ["testgen"; "root"] Scenario.proj)
  = Ok tt
  /\ fs (snd (main Scenario.nested_loader 100 ["testgen"; "root"]
                Scenario.proj))
     = fs Scenario.proj.
Proof.
  destruct (wrong_argument_count_prints_usage Scenario.nested_loader 100
              ["testgen"; "root"] Scenario.proj) as (Hok & Hfs & _).
  - simpl. lia.
  - split; [exact Hok | exact Hfs].
Defined.

(** ** What the statements do to the files *)

Lemma path_eqb_eq (a b : list string) : path_eqb a b = true <-> a = b.
Proof.
  revert b. induction a as [|x a IH]; intros [|y b]; simpl;
    try (split; [discriminate | discriminate]); try tauto.
  rewrite andb_true_iff, String.eqb_eq, IH.
  split; [intros [-> ->]; reflexivity | intros H; inversion H; auto].
Qed.

Lemma fs_set_fs (q : list string) (x : node) (w : world) (p : list string) :
  fs (fs_set q x w) p = if path_eqb q p then Some x else fs w p.
Proof. reflexivity. Qed.

Lemma append_empty_r (s : string) : s ++ "" = s.
Proof. induction s as [|a s IH]; simpl; [reflexivity | now rewrite IH]. Qed.

Lemma append_assoc (a b c : string) : (a ++ b) ++ c = a ++ (b ++ c).
Proof. induction a as [|x a IH]; simpl; [reflexivity | now rewrite IH]. Qed.

Lemma files_kept_refl (w : world) : files_kept w w.
Proof. intros p c H. exact H. Qed.

Lemma files_kept_trans (w1 w2 w3 : world) :
  files_kept w1 w2 -> files_kept w2 w3 -> files_kept w1 w3.
Proof. intros H12 H23 p c H. apply H23, H12, H. Qed.

Lemma files_extended_refl (w : world) : files_extended w w.
Proof. intros p c H. exists "". now rewrite append_empty_r. Qed.

Lemma files_extended_trans (w1 w2 w3 : world) :
  files_extended w1 w2 -> files_extended w2 w3 -> files_extended w1 w3.
Proof.
  intros H12 H23 p c H.
  destruct (H12 p c H) as [s1 H1]. destruct (H23 p _ H1) as [s2 H2].
  exists (s1 ++ s2). now rewrite <- append_assoc.
Qed.

Lemma files_kept_extended (w w' : world) :
  files_kept w w' -> files_extended w w'.
Proof.
  intros Hk p c H. exists "". rewrite append_empty_r. apply Hk, H.
Qed.

Lemma files_new_refl (fresh : list string -> string -> Prop) (w : world) :
  files_new fresh w w.
Proof. intros p c H. now left. Qed.

Lemma files_new_trans (fresh : list string -> string -> Prop)
  (w1 w2 w3 : world) :
  files_new fresh w1 w2 -> files_new fresh w2 w3 -> files_new fresh w1 w3.
Proof.
  intros H12 H23 p c H.
  destruct (H23 p c H) as [H2 | Hf]; [exact (H12 p c H2) | now right].
Qed.

Section Respects.

Variable R : world -> world -> Prop.
Hypothesis R_refl : forall w, R w w.
Hypothesis R_trans : forall w1 w2 w3, R w1 w2 -> R w2 w3 -> R w1 w3.

Lemma respects_ret {A} (a : A) : respects R (ret a).
Proof. intros w. apply R_refl. Qed.

Lemma respects_lift {A} (r : result A) : respects R (lift r).
Proof. intros w. apply R_refl. Qed.

Lemma respects_bind {A B} (m : M A) (k : A -> M B) :
  respects R m -> (forall a, respects R (k a)) -> respects R (bind m k).
Proof.
  intros Hm Hk w. unfold bind.
  specialize (Hm w). destruct (m w) as [[a|e] w']; simpl in Hm.
  - apply (R_trans _ _ _ Hm). apply Hk.
  - exact Hm.
Qed.

Lemma respects_for_each {A} (l : list A) (body : A -> M unit) :
  (forall x, respects R (body x)) -> respects R (for_each l body).
Proof.
  intros Hbody. induction l as [|x l IH]; simpl.
  - apply respects_ret.
  - apply respects_bind; [apply Hbody | intros _; exact IH].
Qed.

End Respects.

Lemma respects_weaken {A} (R R' : world -> world -> Prop) (m : M A) :
  (forall w w', R w w' -> R' w w') -> respects R m -> respects R' m.
Proof. intros Himp Hm w. apply Himp, Hm. Qed.

Lemma prefixes_nonempty (p q : list string) : In q (prefixes p) -> q <> [].
Proof.
  destruct p as [|x p]; simpl; [tauto|].
  intros [<- | Hin]; [discriminate|].
  apply in_map_iff in Hin. destruct Hin as (r & <- & _). discriminate.
Qed.

Lemma fold_fs_set_directory (ps : list (list string)) (w : world)
  (p : list string) :
  fs (fold_left (fun w' q => fs_set q Directory w') ps w) p
  = if existsb (fun q => path_eqb q p) ps then Some Directory else fs w p.
Proof.
  revert w. induction ps as [|q ps IH]; intros w; simpl; [reflexivity|].
  rewrite IH, fs_set_fs.
  destruct (path_eqb q p), (existsb (fun q0 => path_eqb q0 p) ps);
    reflexivity.
Qed.

Lemma mkdir_files (d : Path) (w : world) (p : list string) (c : string) :
  fs (snd (mkdir d w)) p = Some (File c) <-> fs w p = Some (File c).
Proof.
  unfold mkdir.
  destruct (existsb (is_file w) (prefixes (resolve w d))) eqn:Hfile; simpl;
    [tauto|].
  rewrite fold_fs_set_directory.
  destruct (existsb (fun q => path_eqb q p) (prefixes (resolve w d)))
    eqn:Hin; [|tauto].
  split; [discriminate|]. intros Hp. exfalso.
  apply existsb_exists in Hin. destruct Hin as (q & Hq & Heq).
  apply path_eqb_eq in Heq. subst q.
  assert (Hno : is_file w p = false).
  { destruct (is_file w p) eqn:Hf; [|reflexivity].
    assert (Hyes : existsb (is_file w) (prefixes (resolve w d)) = true).
    { apply existsb_exists. exists p. now split. }
    rewrite Hyes in Hfile. discriminate Hfile. }
  unfold is_file, lookup in Hno.
  destruct p as [|x p]; [now apply (prefixes_nonempty _ _ Hq)|].
  rewrite Hp in Hno. discriminate Hno.
Qed.

Lemma chdir_fs (d : Path) (w : world) : fs (snd (chdir d w)) = fs w.
Proof. unfold chdir. destruct (is_dir w (resolve w d)); reflexivity. Qed.

Lemma import_module_world (loader : world -> string -> result pyobj)
  (name : string) (w : world) :
  snd (import_module loader name w) = w.
Proof. reflexivity. Qed.

(** Opening for appending changes no file; it may add an empty one. *)
Lemma open_append_kept (d : Path) : respects files_kept (open_append d).
Proof.
  intros w p c Hp. unfold open_append.
  destruct (lookup w (resolve w d)) as [[text|]|] eqn:Hl; cbn [snd]; try exact Hp.
  destruct (is_dir w (removelast (resolve w d))); cbn [snd]; [|exact Hp].
  rewrite fs_set_fs.
  destruct (path_eqb (resolve w d) p) eqn:Heq; [|exact Hp].
  apply path_eqb_eq in Heq. subst p. exfalso.
  unfold lookup in Hl. destruct (resolve w d); [discriminate Hl|].
  rewrite Hp in Hl. discriminate Hl.
Qed.

Lemma open_append_handle (d : Path) (w : world) (f : list string) :
  fst (open_append d w) = Ok f ->
  f = resolve w d
  /\ exists c, fs (snd (open_append d w)) f = Some (File c).
Proof.
  unfold open_append.
  destruct (lookup w (resolve w d)) as [[text|]|] eqn:Hl; cbn [fst snd].
  - intros H. inversion H; subst f. split; [reflexivity|].
    exists text. unfold lookup in Hl.
    destruct (resolve w d); [discriminate Hl | exact Hl].
  - discriminate.
  - destruct (is_dir w (removelast (resolve w d))); cbn [fst snd];
    [|discriminate].
    intros H. inversion H; subst f. split; [reflexivity|].
    exists "". rewrite fs_set_fs.
    assert (Hrefl : path_eqb (resolve w d) (resolve w d) = true)
      by now apply path_eqb_eq.
    now rewrite Hrefl.
Qed.

(** Writing to a handle appends to that file and touches no other. *)
Lemma write_extended (f : list string) (s : string) :
  respects files_extended (write f s).
Proof.
  intros w p c Hp. unfold write.
  destruct (fs w f) as [[text|]|] eqn:Hf; cbn [snd];
    try (exists ""; now rewrite append_empty_r).
  rewrite fs_set_fs.
  destruct (path_eqb f p) eqn:Heq.
  - apply path_eqb_eq in Heq. subst p.
    rewrite Hp in Hf. inversion Hf; subst text. now exists s.
  - exists "". now rewrite append_empty_r.
Qed.

Lemma print_fs (s : string) (w : world) : fs (snd (print s w)) = fs w.
Proof. reflexivity. Qed.

(** *** The generation driver only appends *)

Section Driver.

Variable loader : world -> string -> result pyobj.

Lemma generate_member_extended (f : list string) (ex ms : list pyobj)
  (obj : pyobj) :
  respects files_extended (generate_member f ex ms obj).
Proof.
  unfold generate_member.
  destruct (isfunction obj); [|destruct (isclass obj)].
  - apply (respects_bind _ files_extended_trans).
    + apply respects_lift. exact files_extended_refl.
    + intros [found|].
      * apply respects_ret. exact files_extended_refl.
      * apply write_extended.
  - apply (respects_bind _ files_extended_trans).
    + apply respects_lift. exact files_extended_refl.
    + intros body. apply write_extended.
  - apply respects_ret. exact files_extended_refl.
Qed.

Lemma generate_tests_extended (mods : list (Path * pyobj * string)) :
  respects files_extended (generate_tests loader mods).
Proof.
  unfold generate_tests.
  apply (respects_for_each _ files_extended_refl files_extended_trans).
  intros [[path mod_] testmod].
  apply (respects_bind _ files_extended_trans).
  - intros w. rewrite import_module_world. apply files_extended_refl.
  - intros test_mod.
    apply (respects_bind _ files_extended_trans).
    + apply (respects_weaken files_kept); [exact files_kept_extended|].
      apply open_append_kept.
    + intros f.
      apply (respects_for_each _ files_extended_refl files_extended_trans).
      intros obj. apply generate_member_extended.
Qed.

End Driver.

(** *** The materializer creates files and changes none *)

Lemma path_eqb_refl (p : list string) : path_eqb p p = true.
Proof. now apply path_eqb_eq. Qed.

Lemma writelines_two_new (q : list string) (l1 l2 : string) (w : world) :
  fs w q = Some (File "") ->
  writelines q [l1; l2] w = (Ok tt, fs_set q (File (l1 ++ l2)) (fs_set q (File l1) w)).
Proof.
  intros Hq. unfold writelines, for_each, bind, write, ret.
  rewrite Hq. rewrite fs_set_fs, path_eqb_refl. reflexivity.
Qed.

(** The guarded creation of [setup_leaf]: nothing happens to a location
    that exists; an absent one becomes a file holding the two lines. *)
Lemma create_if_absent {A} (fp : Path) (l1 l2 : string) (x : A) (w : world) :
  let w' :=
    snd ((present <- exists_ fp ;;
          (if negb present then
             f <- open_append fp ;; writelines f [l1; l2]
           else ret tt) ;;
          ret x) w) in
  files_kept w w'
  /\ files_new (fun p c => c = l1 ++ l2 /\ p = resolve w fp) w w'.
Proof.
  unfold bind at 1. unfold exists_. cbn [fst snd].
  destruct (lookup w (resolve w fp)) as [y|] eqn:Hl; cbn [negb].
  - split; [apply files_kept_refl | apply files_new_refl].
  - unfold bind, open_append. rewrite Hl.
    destruct (is_dir w (removelast (resolve w fp))).
    + rewrite writelines_two_new
        by (rewrite fs_set_fs, path_eqb_refl; reflexivity).
      cbn [snd ret].
      assert (Hnone : fs w (resolve w fp) = None).
      { unfold lookup in Hl.
        destruct (resolve w fp); [discriminate Hl | exact Hl]. }
      split.
      * intros p c Hp. rewrite !fs_set_fs.
        destruct (path_eqb (resolve w fp) p) eqn:Heq; [|exact Hp].
        apply path_eqb_eq in Heq. subst p. rewrite Hp in Hnone.
        discriminate Hnone.
      * intros p c Hp. rewrite !fs_set_fs in Hp.
        destruct (path_eqb (resolve w fp) p) eqn:Heq.
        -- right. apply path_eqb_eq in Heq. inversion Hp. now split.
        -- now left.
    + split; [apply files_kept_refl | apply files_new_refl].
Qed.

Lemma materialized_refl (fresh : list string -> string -> Prop) (w : world) :
  materialized fresh w w.
Proof. split; [apply files_kept_refl | apply files_new_refl]. Qed.

Lemma materialized_trans (fresh : list string -> string -> Prop)
  (w1 w2 w3 : world) :
  materialized fresh w1 w2 -> materialized fresh w2 w3 ->
  materialized fresh w1 w3.
Proof.
  intros [Hk12 Hn12] [Hk23 Hn23]. split.
  - exact (files_kept_trans _ _ _ Hk12 Hk23).
  - exact (files_new_trans _ _ _ _ Hn12 Hn23).
Qed.

Lemma mkdir_materialized (fresh : list string -> string -> Prop) (d : Path) :
  respects (materialized fresh) (mkdir d).
Proof.
  intros w. split.
  - intros p c Hp. now apply mkdir_files.
  - intros p c Hp. left. now apply mkdir_files in Hp.
Qed.

Lemma chdir_materialized (fresh : list string -> string -> Prop) (d : Path) :
  respects (materialized fresh) (chdir d).
Proof.
  intros w. unfold materialized, files_kept, files_new.
  rewrite chdir_fs. split; [auto | intros p c Hp; now left].
Qed.

Lemma div_absolute (p : Path) (s : string) :
  absolute p = true -> absolute (div p s) = true.
Proof.
  intros Hp. unfold div.
  destruct (String.prefix "/" s) eqn:Hs; simpl; [exact Hs | exact Hp].
Qed.

Lemma header_text_lines (name : string) (submod : pyobj) :
  exists l1 l2,
    import_header name submod = [l1; l2] /\ header_text name submod = l1 ++ l2.
Proof.
  unfold header_text, import_header. eexists. eexists.
  split; reflexivity.
Qed.

Lemma setup_leaf_materialized (base : Path) (L : list (string * pyobj))
  (name : string) (submod : pyobj) :
  In (name, submod) L ->
  respects (materialized (fresh_header base L)) (setup_leaf base name submod).
Proof.
  intros HL. unfold setup_leaf.
  apply (respects_bind _ (materialized_trans _));
    [apply mkdir_materialized | intros _].
  apply (respects_bind _ (materialized_trans _));
    [apply chdir_materialized | intros _].
  destruct (header_text_lines name submod) as (l1 & l2 & Hlines & Htext).
  rewrite Hlines. intros w.
  destruct (create_if_absent (test_file_path base name) l1 l2
              (test_file_path base name, submod, test_module_name base name) w)
    as [Hkept Hnew].
  split; [exact Hkept|].
  intros p c Hp. destruct (Hnew p c Hp) as [Hold | [Hc Hwhere]];
    [now left | right].
  exists name, submod. split; [exact HL|]. split; [congruence|].
  intros Habs. subst p. unfold resolve.
  assert (Ha : absolute (test_file_path base name) = true).
  { unfold test_file_path. now apply div_absolute, div_absolute. }
  now rewrite Ha.
Qed.

(** Induction over a module tree and its subtrees. *)
Lemma tree_items_ind (P : tree -> Prop)
  (leaf : forall m, P (Leaf m))
  (dict : forall items,
      (forall name submod, In (name, submod) items -> P submod) ->
      P (Dict items)) :
  forall t, P t.
Proof.
  fix IH 1. intros [m | items]; [apply leaf|]. apply dict.
  induction items as [|[name' sub'] items IHitems]; intros name submod Hin.
  - destruct Hin.
  - destruct Hin as [Heq | Hin].
    + assert (Hsub : P sub') by apply IH.
      inversion Heq; subst. exact Hsub.
    + exact (IHitems name submod Hin).
Qed.

Lemma help_setup_files_materialized (base : Path)
  (L : list (string * pyobj)) (modules : tree) :
  incl (leaves modules) L ->
  respects (materialized (fresh_header base L))
           (_help_setup_files base modules).
Proof.
  induction modules as [m | items IH] using tree_items_ind; intros HL.
  - cbn [_help_setup_files].
    apply (respects_bind _ (materialized_trans _)).
    + apply setup_leaf_materialized. apply HL. now left.
    + intros r. apply respects_ret. exact (materialized_refl _).
  - cbn [_help_setup_files]. cbn [leaves] in HL.
    match goal with
    | |- respects ?R (?loop items []) =>
        enough (Hloop : forall result, respects R (loop items result))
          by apply Hloop
    end.
    induction items as [|[name submod] items IHitems]; intros result.
    + apply respects_ret. exact (materialized_refl _).
    + assert (Hitems : forall n s, In (n, s) items ->
                incl (leaves s) L ->
                respects (materialized (fresh_header base L))
                         (_help_setup_files base s)).
      { intros n s Hin. apply (IH n s). now right. }
      assert (Hwalk : incl (leaves (Dict items)) L).
      { intros x Hx. apply HL. cbn [leaves] in Hx.
        destruct submod; [now right | apply in_or_app; now right]. }
      specialize (IHitems Hitems Hwalk).
      destruct submod as [m | sub].
      * apply (respects_bind _ (materialized_trans _)).
        -- apply setup_leaf_materialized. apply HL. now left.
        -- intros r. apply IHitems.
      * apply (respects_bind _ (materialized_trans _));
          [apply mkdir_materialized | intros _].
        apply (respects_bind _ (materialized_trans _)).
        -- apply (IH name (Dict sub)); [now left|].
           intros x Hx. apply HL. apply in_or_app. now left.
        -- intros r. apply IHitems.
Qed.

Lemma setup_files_materialized (path : string) (modules : tree) :
  respects (materialized (fresh_header (of_string path) (leaves modules)))
           (setup_files path modules).
Proof.
  unfold setup_files.
  apply (respects_bind _ (materialized_trans _));
    [apply mkdir_materialized | intros _].
  apply help_setup_files_materialized. apply incl_refl.
Qed.

Lemma usage_fs (w : world) : fs (snd (usage w)) = fs w.
Proof. reflexivity. Qed.

Lemma main_extended (loader : world -> string -> result pyobj)
  (recursion_limit : nat) (argv : list string) :
  respects files_extended (main loader recursion_limit argv).
Proof.
  unfold main. destruct (negb (length argv =? 3)%nat).
  - intros w p c Hp. rewrite usage_fs. exists "".
    now rewrite append_empty_r.
  - apply (respects_bind _ files_extended_trans).
    { intros w. rewrite import_module_world. apply files_extended_refl. }
    intros mod_. apply (respects_bind _ files_extended_trans).
    { apply respects_lift. exact files_extended_refl. }
    intros modules. apply (respects_bind _ files_extended_trans).
    { intros w. apply files_kept_extended.
      apply (setup_files_materialized (nth 2 argv "") modules w). }
    intros mods. apply generate_tests_extended.
Qed.

(** C8: files are append-only.  Whatever file exists, with whatever
    content, the materializer leaves it exactly as it is, and after the
    generation driver, or a whole run of the program on any command line,
    it still exists and its old content is the beginning of what it
    holds: nothing is removed, truncated or rewritten, whether the run
    ends normally or by an exception. *)
Theorem append_only_persistence
  (loader : world -> string -> result pyobj) (recursion_limit : nat)
  (w : world) (p : list string) (c : string) :
  fs w p = Some (File c) ->
  (forall path modules,
     fs (snd (setup_files path modules w)) p = Some (File c))
  /\ (forall mods,
        exists more,
          fs (snd (generate_tests loader mods w)) p = Some (File (c ++ more)))
  /\ (forall argv,
        exists more,
          fs (snd (main loader recursion_limit argv w)) p
          = Some (File (c ++ more))).
Proof.
  intros Hp. repeat split.
  - intros path modules.
    destruct (setup_files_materialized path modules w) as [Hkept _].
    exact (Hkept p c Hp).
  - intros mods. exact (generate_tests_extended loader mods w p c Hp).
  - intros argv. exact (main_extended loader recursion_limit argv w p c Hp).
Qed.

Lemma append_only_persistence_witness :
  fs (fs_set Scenario.nested_test_file (File Scenario.nested_header)
             Scenario.proj)
     Scenario.nested_test_file
  = Some (File Scenario.nested_header)
  /\ fs (snd (setup_files "tests"
                 (Dict [("root.pkg",
                         Dict [("root.pkg.sub", Leaf Scenario.nested_sub)])])
                 (fs_set Scenario.nested_test_file
                         (File Scenario.nested_header) Scenario.proj)))
        Scenario.nested_test_file
     = Some (File Scenario.nested_header).
Proof.
  assert (Hfile :
    fs (fs_set Scenario.nested_test_file (File Scenario.nested_header)
               Scenario.proj)
       Scenario.nested_test_file
    = Some (File Scenario.nested_header)) by reflexivity.
  split; [exact Hfile|].
  destruct (append_only_persistence Scenario.nested_loader 100 _ _ _ Hfile)
    as (Hsetup & _ & _).
  apply Hsetup.
Defined.

(** ** Import header *)

Lemma map_fst_filter_NoDup {A B} (f : A * B -> bool) (l : list (A * B)) :
  NoDup (map fst l) -> NoDup (map fst (filter f l)).
Proof.
  induction l as [|x l IH]; simpl; intros Hnd; [constructor|].
  inversion Hnd as [|y ys Hnotin Hrest]; subst.
  destruct (f x); simpl; [|now apply IH].
  constructor; [|now apply IH].
  intros Hin. apply Hnotin.
  apply in_map_iff in Hin. destruct Hin as (z & Hz & Hzin).
  apply filter_In in Hzin. apply in_map_iff. exists z. tauto.
Qed.

Lemma get_testables_all (obj : pyobj) :
  get_testables obj None
  = map snd (filter (fun kv => is_testable obj (snd kv)) (members obj)).
Proof.
  unfold get_testables, getmembers. simpl. now rewrite filter_keep_all.
Qed.

(** Where every testable attribute is bound under its own [__name__], and
    attribute names are distinct as those of [dir] are, the imported names
    are distinct. *)
Lemma header_names_distinct (submod : pyobj) :
  NoDup (map fst (members submod)) ->
  (forall k v, In (k, v) (members submod) ->
               is_testable submod v = true -> __name__ v = k) ->
  NoDup (map __name__ (get_testables submod None)).
Proof.
  intros Hkeys Hown. rewrite get_testables_all, map_map.
  rewrite (map_ext_in _ fst).
  - now apply map_fst_filter_NoDup.
  - intros [k v] Hin. apply filter_In in Hin. destruct Hin as [Hin Ht].
    simpl in *. now apply Hown.
Qed.

(** C5, as the claim words it, fails: the header lists the [__name__] of
    each testable binding, so a function bound a second time by [g = f]
    is imported twice under the name [f]. *)
Lemma import_header_alias_counterexample :
  fs Scenario.proj Scenario.nested_test_file = None
  /\ fs (snd (setup_files "tests" (Leaf Scenario.alias_sub) Scenario.proj))
        Scenario.nested_test_file
     = Some (File
"from root.pkg.sub import f,f
import pytest
")
  /\ ~ NoDup (map __name__ (get_testables Scenario.alias_sub None)).
Proof.
  split; [reflexivity|]. split; [reflexivity|].
  intros Hnd. inversion Hnd as [|x l Hnotin _]; subst.
  apply Hnotin. left. reflexivity.
Qed.

(** ** Generation driver *)

Lemma lookup_file (w : world) (q : list string) (c : string) :
  lookup w q = Some (File c) -> fs w q = Some (File c).
Proof. destruct q; simpl; [discriminate | auto]. Qed.

(** A name without empty components is handed to the loader. *)
Lemma import_module_resolvable (loader : world -> string -> result pyobj)
  (name : string) (w : world) :
  nonempty name = true ->
  String.prefix "." name = false ->
  name_in "" (split_on "." name) = false ->
  import_module loader name w = (loader w name, w).
Proof.
  intros H1 H2 H3. unfold import_module. now rewrite H1, H2, H3.
Qed.

Lemma find_present {A} (p : A -> bool) (l : list A) :
  (exists x, In x l /\ p x = true) -> exists y, find p l = Some y.
Proof.
  intros (x & Hin & Hp). destruct (find p l) as [y|] eqn:Hfind.
  - now exists y.
  - rewrite (find_none p l Hfind x Hin) in Hp. discriminate Hp.
Qed.


(** A method that has its test is skipped; one that has none gets its
    stub, indented. *)
Lemma format_class_member_skipped
  (rec : pyobj -> option (list pyobj) -> result string)
  (cls : pyobj) (n : nat) (ex : list pyobj) (body : string)
  (member found : pyobj) :
  is_subfunction member cls = true ->
  exists_test member ex = Ok (Some found) ->
  format_class_member rec cls n ex body member = Ok body.
Proof.
  intros Hf Hfound. unfold format_class_member. now rewrite Hf, Hfound.
Qed.

Lemma format_class_member_emitted
  (rec : pyobj -> option (list pyobj) -> result string)
  (cls : pyobj) (n : nat) (ex : list pyobj) (body : string)
  (member : pyobj) :
  is_subfunction member cls = true ->
  is_subclass member cls = false ->
  exists_test member ex = Ok None ->
  format_class_member rec cls n ex body member
  = Ok (body ++ indent (format_function member true) n 4).
Proof.
  intros Hf Hc Hnone. unfold format_class_member.
  rewrite Hf, Hnone. cbn [rbind]. now rewrite Hc.
Qed.

Lemma is_subclass_kind (obj parent : pyobj) :
  is_subclass obj parent = true ->
  (isclass obj || isfunction obj || ismethod obj) = true.
Proof.
  unfold is_subclass.
  destruct (isclass parent), (ismodule parent), (isclass obj); simpl;
    intros H; try reflexivity; discriminate H.
Qed.

(** The extractor returns functions, methods and classes only. *)
Lemma get_testables_kind (obj : pyobj) (ignore : option (list string))
  (v : pyobj) :
  In v (get_testables obj ignore) ->
  (isclass v || isfunction v || ismethod v) = true.
Proof.
  intros Hv. apply get_testables_In in Hv.
  destruct Hv as (k & _ & Ht & _). unfold is_testable in Ht.
  apply orb_true_iff in Ht. destruct Ht as [Hf | Hc].
  - exact (is_subfunction_kind _ _ Hf).
  - exact (is_subclass_kind _ _ Hc).
Qed.

Lemma is_subfunction_not_subclass (obj parent : pyobj) :
  is_subfunction obj parent = true -> is_subclass obj parent = false.
Proof.
  unfold is_subfunction, is_subclass, isclass, isfunction, ismethod, ismodule.
  destruct (kind parent), (kind obj); simpl; intros H;
    try reflexivity; discriminate H.
Qed.

(** The look-ups the driver makes before formatting a class return. *)
Lemma existing_items_return (context members_ : list pyobj) :
  (forall i, In i members_ ->
             (isclass i || isfunction i || ismethod i) = true) ->
  exists items,
    fold_right
      (fun i acc =>
         let! x := exists_test i context in
         let! xs := acc in
         Ok (x :: xs))
      (Ok []) members_
    = Ok items.
Proof.
  induction members_ as [|i members_ IH]; intros Hkind; simpl.
  - eexists. reflexivity.
  - destruct (exists_test_returns i context (Hkind i (or_introl eq_refl)))
      as [x Hx].
    destruct IH as [xs Hxs]; [intros j Hj; apply Hkind; now right|].
    rewrite Hx, Hxs. eexists. reflexivity.
Qed.




(** ** Whole runs *)

Lemma In_tl_In {A} (x : A) (l : list A) : In x (tl l) -> In x l.
Proof. destruct l; simpl; [tauto | now right]. Qed.

Lemma split_on_double_separator (c : ascii) (a b : string) :
  In "" (tl (split_on c (a ++ String c (String c b)))).
Proof.
  induction a as [|x a IH]; simpl.
  - rewrite !Ascii.eqb_refl. simpl. now left.
  - destruct (Ascii.eqb x c); simpl.
    + destruct (split_on c (a ++ String c (String c b))); simpl in *;
        [destruct IH | now right].
    + destruct (split_on c (a ++ String c (String c b))); simpl in *;
        [destruct IH | exact IH].
Qed.

(** The name built for the test module of a leaf that has no package
    between the root and itself has an empty component: importing it
    raises whatever the loader would find. *)
Lemma leaf_below_root_not_importable
  (loader : world -> string -> result pyobj) (base : Path) (name : string)
  (w : world) :
  slice_1_to_last (split_on "." name) = [] ->
  exists e,
    import_module loader (test_module_name base name) w = (Raise e, w).
Proof.
  intros Hflat. unfold import_module, test_module_name. rewrite Hflat.
  cbn [join String.concat].
  set (rest := drop_last3 (test_file_name name)).
  destruct (negb (nonempty ((stem base ++ ".") ++ "" ++ "." ++ rest)));
    [eexists; reflexivity|].
  destruct (String.prefix "." ((stem base ++ ".") ++ "" ++ "." ++ rest));
    [eexists; reflexivity|].
  assert (Hempty :
    name_in "" (split_on "." ((stem base ++ ".") ++ "" ++ "." ++ rest)) = true).
  { apply name_in_spec. apply In_tl_In.
    rewrite append_assoc. apply split_on_double_separator. }
  rewrite Hempty. eexists; reflexivity.
Qed.

(** One package deeper the same module is served in full: the first run
    writes the stub class [TestC] with [test_m] and the stubs [test_a] and
    [test_b]; the second run finds them all and appends one empty line,
    the line end the driver writes after the (empty) text for a class. *)
Lemma runs_on_leaf_inside_package :
  let run1 := main Scenario.deep_loader 100 Scenario.argv Scenario.proj in
  let run2 := main Scenario.deep_loader 100 Scenario.argv (snd run1) in
  fst run1 = Ok tt
  /\ fs (snd run1) Scenario.nested_test_file
     = Some (File Scenario.deep_first_run)
  /\ fst run2 = Ok tt
  /\ fs (snd run2) Scenario.nested_test_file
     = Some (File (Scenario.deep_first_run ++ nl)).
Proof. repeat split; vm_compute; reflexivity. Qed.

(** C2: the code does not reach what the claim promises.  The root is the
    single module [root.py] with the functions [a] and [b] and the class
    [C] with the method [m]; there is no test file.  The run
    [testgen root tests] creates [tests/test_root.py] with the import
    header, then asks for the module [tests..test_root], a name with an
    empty component, and ends with ModuleNotFoundError, whatever the
    loader would find for any other name: the file holds the header and
    no stub. *)
Theorem first_run_on_root_module_stops_at_import
  (loader : world -> string -> result pyobj) :
  let run :=
    main (fun w name =>
            if String.eqb name "root" then Ok Scenario.abc_root
            else loader w name)
         100 Scenario.argv Scenario.proj in
  get_submodule_tree 100 Scenario.abc_root None = Ok (Leaf Scenario.abc_root)
  /\ test_module_name (of_string "tests") "root" = "tests..test_root"
  /\ fst run = Raise ModuleNotFoundError
  /\ fs (snd run) Scenario.abc_test_file
     = Some (File
"from root import C,a,b
import pytest
")
  /\ contains "test_a" "from root import C,a,b
import pytest
" = false.
Proof. repeat split; reflexivity. Qed.

(** C1: the code is not idempotent.  The leaf [root.pkg.sub] has a class
    [C] with a method [B] and a nested class [D] with a method [m].  The
    first run [testgen root tests] creates the test file and writes the
    stubs; executed again, that file yields [TestC] with [test_B].  The
    second run finds [TestC] and [test_B], and appends the stub of
    [test_m] once more. *)
Theorem second_run_repeats_nested_stub :
  let run1 := main Scenario.nested_loader 100 Scenario.argv Scenario.proj in
  let run2 := main Scenario.nested_loader 100 Scenario.argv (snd run1) in
  fst run1 = Ok tt
  /\ fs (snd run1) Scenario.nested_test_file
     = Some (File Scenario.nested_first_run)
  /\ fst run2 = Ok tt
  /\ fs (snd run2) Scenario.nested_test_file
     = Some (File (Scenario.nested_first_run
                   ++ Scenario.nested_stub_m ++ nl))
  /\ contains "def test_m" (Scenario.nested_stub_m ++ nl) = true.
Proof. repeat split; vm_compute; reflexivity. Qed.

(** * Further properties *)

(** ** Tree builder *)

Lemma filter_r_none (predicate : pyobj -> result bool)
  (l : list (string * pyobj)) :
  (forall kv, In kv l -> predicate (snd kv) = Ok false) ->
  filter_r predicate l = Ok [].
Proof.
  induction l as [|kv l IH]; intros Hall; simpl; [reflexivity|].
  rewrite (Hall kv (or_introl eq_refl)). cbn [rbind].
  rewrite IH; [reflexivity|]. intros x Hx. apply Hall. now right.
Qed.

Lemma filter_r_In (predicate : pyobj -> result bool)
  (l r : list (string * pyobj)) :
  filter_r predicate l = Ok r ->
  forall kv, In kv r <-> In kv l /\ predicate (snd kv) = Ok true.
Proof.
  revert r. induction l as [|x l IH]; intros r Hr kv; simpl in Hr.
  - inversion Hr; subst. simpl. tauto.
  - destruct (predicate (snd x)) as [b|e] eqn:Hx; [|discriminate Hr].
    cbn [rbind] in Hr.
    destruct (filter_r predicate l) as [rest|e]; [|discriminate Hr].
    cbn [rbind] in Hr. inversion Hr; subst r. clear Hr.
    specialize (IH rest eq_refl kv). simpl.
    destruct b; simpl; rewrite ?IH; split.
    + intros [<- | [Hin Hp]]; [now split; [left|] | split; [now right | exact Hp]].
    + intros [[<- | Hin] Hp]; [now left | right; now split].
    + intros [Hin Hp]. split; [now right | exact Hp].
    + intros [[<- | Hin] Hp]; [rewrite Hx in Hp; discriminate Hp | now split].
Qed.

(** X1: a module that is not a package is a leaf of the tree, whatever
    its attributes are and whatever is ignored: without [__path__] on the
    parent [is_submodule] says no to every candidate. *)
Theorem plain_module_is_leaf (m : pyobj) (ignore : option (list string))
  (depth : nat) :
  __path__ m = None ->
  get_submodule_tree (S depth) m ignore = Ok (Leaf m).
Proof.
  intros Hpath. unfold get_submodule_tree. cbn [_build_tree].
  unfold get_submodules, getmembers_r.
  rewrite filter_r_none; [reflexivity|].
  intros kv _. unfold is_submodule. now rewrite Hpath.
Qed.

Lemma plain_module_is_leaf_witness :
  __path__ Scenario.abc_root = None
  /\ get_submodule_tree 1 Scenario.abc_root (Some ["root.other"])
     = Ok (Leaf Scenario.abc_root).
Proof.
  split; [reflexivity|].
  apply plain_module_is_leaf. reflexivity.
Defined.

Lemma get_submodules_In (module : pyobj) (ignore : list string)
  (children : list pyobj) :
  get_submodules module ignore = Ok children ->
  forall x, In x children <->
            exists k, In (k, x) (members module)
                      /\ is_submodule x module = Ok true
                      /\ name_in (__name__ x) ignore = false.
Proof.
  unfold get_submodules, getmembers_r. intros H x.
  destruct (filter_r (fun x0 => is_submodule x0 module) (members module))
    as [accepted|e] eqn:Hacc; [|discriminate H].
  cbn [rbind] in H. inversion H; subst children. clear H.
  rewrite in_map_iff. split.
  - intros ([k y] & Hy & Hin). simpl in Hy. subst y.
    apply filter_In in Hin. destruct Hin as [Hin Hign].
    apply (filter_r_In _ _ _ Hacc) in Hin. destruct Hin as [Hin Hsub].
    exists k. simpl in *. repeat split; try assumption.
    now apply negb_true_iff.
  - intros (k & Hin & Hsub & Hign). exists (k, x). split; [reflexivity|].
    apply filter_In. split.
    + apply (filter_r_In _ _ _ Hacc). now split.
    + simpl. now rewrite Hign.
Qed.

(** X2: a package whose accepted submodules are all ignored is a leaf
    too, so it gets a test file of its own: the ignored modules are
    dropped before the builder looks whether there are children. *)
Theorem package_with_all_submodules_ignored_is_leaf
  (root : pyobj) (ignore : option (list string)) (depth : nat)
  (children : list pyobj) :
  get_submodules root [] = Ok children ->
  (forall x, In x children ->
             name_in (__name__ x) (set_or_empty ignore) = true) ->
  get_submodule_tree (S depth) root ignore = Ok (Leaf root).
Proof.
  intros Hchildren Hignored. unfold get_submodule_tree. cbn [_build_tree].
  assert (Hnone : get_submodules root (set_or_empty ignore) = Ok []).
  { unfold get_submodules, getmembers_r in *.
    destruct (filter_r (fun x => is_submodule x root) (members root))
      as [accepted|e]; [|discriminate Hchildren].
    cbn [rbind] in *. inversion Hchildren; subst children. clear Hchildren.
    f_equal.
    assert (Hall : forall kv, In kv accepted ->
              name_in (__name__ (snd kv)) (set_or_empty ignore) = true).
    { intros kv Hkv. apply Hignored. apply in_map_iff. exists kv.
      split; [reflexivity|]. apply filter_In. now split. }
    clear Hignored. induction accepted as [|kv accepted IH]; [reflexivity|].
    simpl. rewrite (Hall kv (or_introl eq_refl)). simpl.
    apply IH. intros x Hx. apply Hall. now right. }
  rewrite Hnone. reflexivity.
Qed.

Lemma package_with_all_submodules_ignored_is_leaf_witness :
  get_submodules Scenario.nested_pkg [] = Ok [Scenario.nested_sub]
  /\ get_submodule_tree 1 Scenario.nested_pkg (Some ["root.pkg.sub"])
     = Ok (Leaf Scenario.nested_pkg).
Proof.
  assert (Hchildren :
    get_submodules Scenario.nested_pkg [] = Ok [Scenario.nested_sub])
    by reflexivity.
  split; [exact Hchildren|].
  apply (package_with_all_submodules_ignored_is_leaf _ _ _ _ Hchildren).
  intros x [<- | []]. reflexivity.
Defined.

Lemma dict_set_In {V} (k : string) (v : V) (d : list (string * V))
  (k' : string) (v' : V) :
  In (k', v') (dict_set k v d) -> (k' = k /\ v' = v) \/ In (k', v') d.
Proof.
  induction d as [|[k0 v0] d IH]; simpl.
  - intros [H | []]. inversion H. now left.
  - destruct (String.eqb k0 k) eqn:Heq; simpl.
    + apply String.eqb_eq in Heq. subst k0.
      intros [H | H]; [inversion H; now left | right; now right].
    + intros [H | H]; [right; now left|].
      destruct (IH H) as [Hnew | Hold]; [now left | right; now right].
Qed.

Lemma dict_set_keys {V} (k : string) (v : V) (d : list (string * V))
  (k' : string) :
  In k' (map fst (dict_set k v d)) <-> k' = k \/ In k' (map fst d).
Proof.
  induction d as [|[k0 v0] d IH]; simpl.
  - intuition.
  - destruct (String.eqb k0 k) eqn:Heq; simpl.
    + apply String.eqb_eq in Heq. subst k0. intuition.
    + rewrite IH. intuition.
Qed.

Lemma dict_set_NoDup {V} (k : string) (v : V) (d : list (string * V)) :
  NoDup (map fst d) -> NoDup (map fst (dict_set k v d)).
Proof.
  induction d as [|[k0 v0] d IH]; simpl; intros Hnd.
  - constructor; [intros [] | constructor].
  - inversion Hnd as [|x l Hnotin Hrest]; subst.
    destruct (String.eqb k0 k) eqn:Heq; simpl.
    + now constructor.
    + constructor; [|now apply IH].
      rewrite dict_set_keys. intros [-> | Hin]; [|now apply Hnotin].
      rewrite String.eqb_refl in Heq. discriminate Heq.
Qed.

Lemma each_dict_weaken (Q Q' : list (string * tree) -> Prop) (t : tree) :
  (forall items, Q items -> Q' items) -> each_dict Q t -> each_dict Q' t.
Proof.
  intros Himp Ht. induction Ht as [m | items HQ Hsub IH].
  - constructor.
  - constructor; [now apply Himp | exact IH].
Qed.

Section BuildTree.

Variable get_children : pyobj -> result (list pyobj).
Variable make_key : pyobj -> string.
Variable ignore_if : pyobj -> bool.

Lemma build_tree_leaf_shape (depth : nat) (item m : pyobj) :
  _build_tree get_children make_key ignore_if depth item = Ok (Leaf m) ->
  m = item.
Proof.
  destruct depth as [|depth]; simpl; [discriminate|].
  destruct (get_children item) as [children|e]; [|discriminate].
  cbn [rbind]. destruct (negb (truthy children)).
  - intros H. now inversion H.
  - match goal with
    | |- rbind ?r _ = _ -> _ => destruct r; cbn [rbind]; discriminate
    end.
Qed.

Lemma build_tree_built (depth : nat) :
  forall root t,
    _build_tree get_children make_key ignore_if depth root = Ok t ->
    each_dict (built make_key ignore_if) t.
Proof.
  induction depth as [|depth IH]; intros root t; simpl; [discriminate|].
  destruct (get_children root) as [children|e]; [|discriminate].
  cbn [rbind]. destruct (negb (truthy children)).
  { intros H. inversion H. constructor. }
  match goal with
  | |- rbind (fold_left ?F children (Ok [])) _ = _ -> _ =>
      assert (Hfold : forall acc result,
                fold_left F children (Ok acc) = Ok result ->
                (built make_key ignore_if acc /\ forall k sub, In (k, sub) acc ->
                                            each_dict (built make_key ignore_if) sub) ->
                built make_key ignore_if result /\ forall k sub, In (k, sub) result ->
                                              each_dict (built make_key ignore_if) sub);
      [|destruct (fold_left F children (Ok [])) as [result|e] eqn:Hres;
        cbn [rbind]; [|discriminate]]
  end.
  - clear root t. induction children as [|item children IHc];
      intros acc result; simpl.
    + intros H Hacc. inversion H; subst. exact Hacc.
    + destruct (ignore_if item) eqn:Hign; [apply IHc|].
      destruct (_build_tree get_children make_key ignore_if depth item)
        as [sub|e] eqn:Hsub; cbn [rbind].
      * intros Hrest [[Hnd Hent] Hsubs]. apply (IHc _ _ Hrest). split; [split|].
        -- now apply dict_set_NoDup.
        -- intros k s Hin. apply dict_set_In in Hin.
           destruct Hin as [[-> ->] | Hin]; [|now apply Hent].
           exists item. repeat split; try assumption.
           intros m ->. exact (build_tree_leaf_shape _ _ _ Hsub).
        -- intros k s Hin. apply dict_set_In in Hin.
           destruct Hin as [[-> ->] | Hin]; [|now apply (Hsubs k)].
           exact (IH _ _ Hsub).
      * rewrite fold_left_raise. discriminate.
  - intros H. inversion H; subst t.
    destruct (Hfold [] result Hres) as [Hbuilt Hsubs].
    + split; [split; [constructor | intros k sub []] | intros k sub []].
    + constructor; assumption.
Qed.

(** The keys of a mapping are exactly the keys made of the children that
    are not ignored. *)
Lemma build_tree_keys (depth : nat) (root : pyobj)
  (items : list (string * tree)) (children : list pyobj) :
  _build_tree get_children make_key ignore_if (S depth) root
  = Ok (Dict items) ->
  get_children root = Ok children ->
  forall k, In k (map fst items) <->
            exists item, In item children /\ ignore_if item = false
                         /\ make_key item = k.
Proof.
  simpl. intros H Hch. rewrite Hch in H. cbn [rbind] in H.
  destruct (negb (truthy children)); [discriminate H|].
  match type of H with
  | rbind (fold_left ?F children (Ok [])) _ = _ =>
      assert (Hfold : forall acc result,
                fold_left F children (Ok acc) = Ok result ->
                forall k, In k (map fst result) <->
                          In k (map fst acc)
                          \/ exists item, In item children
                                          /\ ignore_if item = false
                                          /\ make_key item = k);
      [|destruct (fold_left F children (Ok [])) as [result|e] eqn:Hres;
        cbn [rbind] in H; [|discriminate H]]
  end.
  - clear H Hch. induction children as [|x children IHc];
      intros acc result; simpl.
    + intros H k. inversion H; subst. split; [now left|].
      intros [Hk | (item & [] & _)]. exact Hk.
    + destruct (ignore_if x) eqn:Hign.
      * intros Hrest k. rewrite (IHc _ _ Hrest k). split.
        -- intros [Hk | (item & Hin & Hitem & Hkey)]; [now left|].
           right. exists item. split; [now right | now split].
        -- intros [Hk | (item & [<- | Hin] & Hitem & Hkey)];
             [now left | congruence |].
           right. exists item. now repeat split.
      * destruct (_build_tree get_children make_key ignore_if depth x)
          as [sub|e]; cbn [rbind].
        -- intros Hrest k. rewrite (IHc _ _ Hrest k), dict_set_keys. split.
           ++ intros [[-> | Hk] | (item & Hin & Hitem & Hkey)].
              ** right. exists x. split; [now left | now split].
              ** now left.
              ** right. exists item. split; [now right | now split].
           ++ intros [Hk | (item & [<- | Hin] & Hitem & Hkey)].
              ** left. now right.
              ** left. left. now symmetry.
              ** right. exists item. now repeat split.
        -- rewrite fold_left_raise. discriminate.
  - inversion H; subst items. intros k.
    rewrite (Hfold [] result Hres k). simpl. tauto.
Qed.

(** Where the children handed to the builder are never ignored, no
    mapping of the tree is empty. *)
Lemma build_tree_nonempty (depth : nat) :
  (forall root children, get_children root = Ok children ->
     forall x, In x children -> ignore_if x = false) ->
  forall root t,
    _build_tree get_children make_key ignore_if depth root = Ok t ->
    each_dict (fun items => items <> []) t.
Proof.
  intros Hpre. induction depth as [|depth IH]; intros root t; simpl;
    [discriminate|].
  destruct (get_children root) as [children|e] eqn:Hch; [|discriminate].
  cbn [rbind]. destruct children as [|x children]; simpl.
  { intros H. inversion H. constructor. }
  assert (Hx : ignore_if x = false)
    by (apply (Hpre root _ Hch); now left).
  rewrite Hx.
  destruct (_build_tree get_children make_key ignore_if depth x)
    as [sub|e] eqn:Hsub; cbn [rbind];
    [|rewrite fold_left_raise; discriminate].
  match goal with
  | |- rbind (fold_left ?F children (Ok ?acc0)) _ = _ -> _ =>
      assert (Hfold : forall rest acc result,
                fold_left F rest (Ok acc) = Ok result ->
                (acc <> [] /\ forall k s, In (k, s) acc ->
                     each_dict (fun items => items <> []) s) ->
                result <> [] /\ forall k s, In (k, s) result ->
                     each_dict (fun items => items <> []) s);
      [|destruct (fold_left F children (Ok acc0)) as [result|e] eqn:Hres;
        cbn [rbind]; [|discriminate]]
  end.
  - intros rest. induction rest as [|y rest IHr];
      intros acc result; simpl.
    + intros H Hacc. inversion H; subst. exact Hacc.
    + destruct (ignore_if y); [apply IHr|].
      destruct (_build_tree get_children make_key ignore_if depth y)
        as [suby|e] eqn:Hsuby; cbn [rbind];
        [|rewrite fold_left_raise; discriminate].
      intros Hrest [Hne Hsubs]. apply (IHr _ _ Hrest). split.
      * destruct acc as [|[k0 v0] acc]; simpl; [discriminate|].
        destruct (String.eqb k0 (make_key y)); discriminate.
      * intros k s Hin. apply dict_set_In in Hin.
        destruct Hin as [[-> ->] | Hin]; [|now apply (Hsubs k)].
        exact (IH _ _ Hsuby).
  - intros H. inversion H; subst t.
    destruct (Hfold children _ result Hres) as [Hne Hsubs].
    + split; [discriminate|]. intros k s [Heq | []].
      inversion Heq; subst. exact (IH _ _ Hsub).
    + constructor; assumption.
Qed.

End BuildTree.

Lemma each_dict_and (Q Q' : list (string * tree) -> Prop) (t : tree) :
  each_dict Q t -> each_dict Q' t ->
  each_dict (fun items => Q items /\ Q' items) t.
Proof.
  intros Ht. induction Ht as [m | items HQ Hsub IH]; intros Ht'.
  - constructor.
  - inversion Ht' as [|items' HQ' Hsub']; subst.
    constructor; [now split|]. intros k sub Hin.
    apply (IH k sub Hin). exact (Hsub' k sub Hin).
Qed.

(** X3: in the tree of submodules no mapping is empty, the keys of a
    mapping are distinct, no key is an ignored name, and a leaf sits
    under its own [__name__]. *)
Theorem submodule_tree_entries (depth : nat) (root : pyobj)
  (ignore : option (list string)) (t : tree) :
  get_submodule_tree depth root ignore = Ok t ->
  each_dict
    (fun items =>
       items <> []
       /\ NoDup (map fst items)
       /\ forall k sub, In (k, sub) items ->
            name_in k (set_or_empty ignore) = false
            /\ forall m, sub = Leaf m -> __name__ m = k)
    t.
Proof.
  unfold get_submodule_tree. intros Ht.
  pose proof (build_tree_built _ _ _ _ _ _ Ht) as Hbuilt.
  assert (Hne : each_dict (fun items => items <> []) t).
  { refine (build_tree_nonempty _ _ _ depth _ root t Ht).
    intros r children Hch x Hx.
    apply (get_submodules_In _ _ _ Hch) in Hx.
    now destruct Hx as (k & _ & _ & Hign). }
  apply (each_dict_weaken _ _ _ (fun items H => H)) in Hne.
  apply (each_dict_weaken
           (fun items => items <> []
                         /\ built (fun x => __name__ x)
                                  (fun x => name_in (__name__ x)
                                                    (set_or_empty ignore))
                                  items)).
  - intros items [Hnonempty [Hnd Hent]]. split; [exact Hnonempty|].
    split; [exact Hnd|]. intros k sub Hin.
    destruct (Hent k sub Hin) as (item & <- & Hign & Hleaf).
    split; [exact Hign|]. intros m Hm. now rewrite (Hleaf m Hm).
  - now apply each_dict_and.
Qed.

Lemma submodule_tree_entries_witness :
  each_dict
    (fun items =>
       items <> []
       /\ NoDup (map fst items)
       /\ forall k sub, In (k, sub) items ->
            name_in k (set_or_empty (Some ["root.other"])) = false
            /\ forall m, sub = Leaf m -> __name__ m = k)
    (Dict [("root.pkg", Dict [("root.pkg.sub", Leaf Scenario.nested_sub)])]).
Proof.
  apply (submodule_tree_entries 3 Scenario.nested_root (Some ["root.other"])).
  reflexivity.
Defined.

(** X4: the entries of a package are exactly its attributes that
    [is_submodule] accepts and whose [__name__] is not ignored, each under
    its [__name__]: none is dropped and nothing else gets in. *)
Theorem package_entries_are_its_submodules (depth : nat) (root : pyobj)
  (ignore : option (list string)) (items : list (string * tree)) :
  get_submodule_tree (S depth) root ignore = Ok (Dict items) ->
  forall name,
    In name (map fst items) <->
    exists k x, In (k, x) (members root)
                /\ is_submodule x root = Ok true
                /\ name_in (__name__ x) (set_or_empty ignore) = false
                /\ __name__ x = name.
Proof.
  unfold get_submodule_tree. intros Ht name.
  destruct (get_submodules root (set_or_empty ignore)) as [children|e]
    eqn:Hch.
  - rewrite (build_tree_keys _ _ _ _ _ _ _ Ht Hch name). split.
    + intros (x & Hin & Hign & Hname).
      apply (get_submodules_In _ _ _ Hch) in Hin.
      destruct Hin as (k & Hin & Hsub & _). exists k, x. now repeat split.
    + intros (k & x & Hin & Hsub & Hign & Hname). exists x.
      split; [|now split].
      apply (get_submodules_In _ _ _ Hch). exists k. now repeat split.
  - simpl in Ht. rewrite Hch in Ht. discriminate Ht.
Qed.

Lemma package_entries_are_its_submodules_witness :
  In "root.pkg" (map fst [("root.pkg",
                           Dict [("root.pkg.sub", Leaf Scenario.nested_sub)])])
  <-> exists k x, In (k, x) (members Scenario.nested_root)
                  /\ is_submodule x Scenario.nested_root = Ok true
                  /\ name_in (__name__ x) (set_or_empty None) = false
                  /\ __name__ x = "root.pkg".
Proof.
  apply (package_entries_are_its_submodules 2 Scenario.nested_root None).
  reflexivity.
Defined.

(** ** Submodule test, extractor, names *)

Lemma prefix_app (p s : string) : String.prefix p (p ++ s) = true.
Proof.
  induction p as [|a p IH]; simpl.
  - now destruct s.
  - destruct (ascii_dec a a) as [_ | Hne]; [exact IH | now elim Hne].
Qed.

(** X5: what lies inside a package is accepted: a module whose file, or
    a package whose directory, is the package's directory followed by
    anything passes [is_submodule]. *)
Theorem is_submodule_accepts_nested (child parent : pyobj)
  (parentpath suffix : string) (rest : list string) :
  __path__ parent = Some (parentpath :: rest) ->
  (exists more, __path__ child = Some ((parentpath ++ suffix) :: more))
  \/ (__path__ child = None /\ __file__ child = Some (parentpath ++ suffix)) ->
  is_submodule child parent = Ok true.
Proof.
  intros Hparent Hchild.
  rewrite (is_submodule_prefix child parent parentpath
             (parentpath ++ suffix) rest Hparent Hchild).
  now rewrite prefix_app.
Qed.

Lemma is_submodule_accepts_nested_witness :
  __path__ Scenario.nested_root = Some ["/proj/root"]
  /\ is_submodule Scenario.nested_sub Scenario.nested_root = Ok true.
Proof.
  assert (Hparent : __path__ Scenario.nested_root = Some ["/proj/root"])
    by reflexivity.
  split; [exact Hparent|].
  apply (is_submodule_accepts_nested _ _ "/proj/root" "/pkg/sub.py" []
           Hparent).
  right. split; reflexivity.
Defined.

(** X6: an empty [__path__] list makes [is_submodule] raise IndexError,
    on the parent's side for every candidate that has a [__path__] or a
    [__file__], on the candidate's side when the parent's list is not
    empty; a candidate with neither attribute is refused without any
    list being read. *)
Theorem is_submodule_empty_path (child parent : pyobj) :
  (__path__ parent = Some [] ->
   (__path__ child <> None \/ __file__ child <> None) ->
   is_submodule child parent = Raise IndexError)
  /\ (forall p rest, __path__ parent = Some (p :: rest) ->
        __path__ child = Some [] ->
        is_submodule child parent = Raise IndexError)
  /\ (__path__ child = None -> __file__ child = None ->
      is_submodule child parent = Ok false).
Proof.
  unfold is_submodule. repeat split.
  - intros Hparent Hchild. rewrite Hparent.
    destruct (__path__ child) as [cp|]; [reflexivity|].
    destruct (__file__ child); [reflexivity|].
    destruct Hchild as [H | H]; now elim H.
  - intros p rest Hparent Hchild. now rewrite Hparent, Hchild.
  - intros Hpath Hfile. rewrite Hpath, Hfile. now destruct (__path__ parent).
Qed.

Lemma is_submodule_empty_path_witness :
  is_submodule Scenario.foobar_module
    (PyObj KModule "ns" "" (Some []) None [])
  = Raise IndexError
  /\ is_submodule (Scenario.mk_value "str") Scenario.foo_package = Ok false.
Proof.
  split.
  - destruct (is_submodule_empty_path Scenario.foobar_module
                (PyObj KModule "ns" "" (Some []) None [])) as (Hraise & _).
    apply Hraise; [reflexivity | right; discriminate].
  - destruct (is_submodule_empty_path (Scenario.mk_value "str")
                Scenario.foo_package) as (_ & _ & Hno).
    apply Hno; reflexivity.
Defined.

(** X7: the extractor returns only functions, methods and classes that
    say they were defined in the namespace: their [__module__] is the
    name of the module asked, or the [__module__] of the class asked.
    Asked about anything that is neither module nor class it returns
    nothing. *)
Theorem get_testables_defined_here (obj : pyobj)
  (ignore : option (list string)) :
  (forall v, In v (get_testables obj ignore) ->
     (isclass v || isfunction v || ismethod v) = true
     /\ __module__ v = (if isclass obj then __module__ obj else __name__ obj))
  /\ (isclass obj = false -> ismodule obj = false ->
      get_testables obj ignore = []).
Proof.
  split.
  - intros v Hv. split; [exact (get_testables_kind obj ignore v Hv)|].
    apply get_testables_In in Hv. destruct Hv as (k & _ & Ht & _).
    unfold is_testable, is_subfunction, is_subclass in Ht.
    destruct (isclass obj).
    + apply orb_true_iff in Ht.
      destruct Ht as [Ht | Ht]; apply andb_true_iff in Ht;
        destruct Ht as [_ Heq]; now apply String.eqb_eq.
    + destruct (ismodule obj); [|discriminate Ht].
      apply orb_true_iff in Ht.
      destruct Ht as [Ht | Ht]; apply andb_true_iff in Ht;
        destruct Ht as [_ Heq]; now apply String.eqb_eq.
  - intros Hc Hm. unfold get_testables, getmembers.
    assert (Hnone : forall l : list (string * pyobj),
              filter (fun kv => is_testable obj (snd kv)) l = []).
    { induction l as [|kv l IH]; simpl; [reflexivity|].
      unfold is_testable at 1, is_subfunction, is_subclass.
      now rewrite Hc, Hm. }
    now rewrite Hnone.
Qed.

Lemma get_testables_defined_here_witness :
  Forall (fun v => __module__ v = "tests.pkg.test_sub")
         (get_testables Scenario.nested_tests_reloaded None).
Proof.
  apply Forall_forall. intros v Hv.
  destruct (get_testables_defined_here Scenario.nested_tests_reloaded None)
    as [Hhere _].
  destruct (Hhere v Hv) as [_ Hmod]. exact Hmod.
Defined.

(** X8: the naming convention keeps tests apart: two functions share a
    test name only if they share their name, the same for two classes,
    and the test name of a class is never the test name of a function. *)
Theorem test_names_keep_apart (a b : pyobj) :
  (get_function_test_name a = get_function_test_name b ->
   __name__ a = __name__ b)
  /\ (get_class_test_name a = get_class_test_name b ->
      __name__ a = __name__ b)
  /\ get_class_test_name a <> get_function_test_name b.
Proof.
  unfold get_function_test_name, get_class_test_name. repeat split.
  - intros H. now inversion H.
  - intros H. now inversion H.
  - intros H. discriminate H.
Qed.

Lemma test_names_keep_apart_witness :
  get_class_test_name Scenario.cov_C <> get_function_test_name Scenario.cov_C.
Proof.
  destruct (test_names_keep_apart Scenario.cov_C Scenario.cov_C)
    as (_ & _ & Hapart).
  exact Hapart.
Defined.

(** ** Indentation *)

Lemma concat_cons (x : string) (xs : list string) :
  String.concat "" (x :: xs) = x ++ String.concat "" xs.
Proof.
  destruct xs as [|y ys]; simpl; [now rewrite append_empty_r | reflexivity].
Qed.

Lemma append_char (cur : string) (a : ascii) (s : string) :
  (cur ++ String a "") ++ s = cur ++ String a s.
Proof. now rewrite append_assoc. Qed.

Lemma concat_splitlines_from (s cur : string) :
  String.concat "" (splitlines_from cur s) = cur ++ s.
Proof.
  assert (Hlen : forall n s, String.length s <= n -> forall cur,
            String.concat "" (splitlines_from cur s) = cur ++ s).
  { clear. induction n as [|n IH]; intros [|a s'] Hn cur;
      try (simpl in Hn; lia);
      try (simpl; destruct cur; simpl;
           [reflexivity | now rewrite append_empty_r]).
    cbn [splitlines_from]. simpl in Hn.
    destruct (Ascii.eqb a (ascii_of_nat 13)).
    - destruct s' as [|b s''].
      + simpl. reflexivity.
      + destruct (Ascii.eqb b (ascii_of_nat 10)).
        * rewrite concat_cons, IH by (simpl in Hn; lia).
          rewrite append_assoc. reflexivity.
        * rewrite concat_cons, IH by lia. apply append_char.
    - destruct (is_linebreak a).
      + rewrite concat_cons, IH by lia. apply append_char.
      + rewrite IH by lia. apply append_char. }
  exact (Hlen (String.length s) s (le_n _) cur).
Qed.

(** X9: indenting by nothing changes nothing: with a depth of zero, or
    with zero spaces per level, [indent] returns the text as it is,
    whatever line ends it has. *)
Theorem indent_by_nothing (text : string) (k : nat) :
  indent text 0 k = text /\ indent text k 0 = text.
Proof.
  assert (Hid : textwrap_indent text "" = text).
  { unfold textwrap_indent, splitlines_keepends.
    rewrite (map_ext _ (fun line => line)).
    - rewrite map_id. apply concat_splitlines_from.
    - intros line. now destruct (strip_nonempty line). }
  unfold indent. split; [exact Hid|].
  now rewrite Nat.mul_0_r.
Qed.

Lemma is_linebreak_not_cr (a : ascii) :
  is_linebreak a = false -> Ascii.eqb a (ascii_of_nat 13) = false.
Proof.
  intros H. destruct (Ascii.eqb_spec a (ascii_of_nat 13)) as [-> | _];
    [discriminate H | reflexivity].
Qed.

Lemma has_linebreak_app (a b : string) :
  has_linebreak (a ++ b) = has_linebreak a || has_linebreak b.
Proof.
  induction a as [|x a IH]; simpl; [reflexivity|].
  now rewrite IH, orb_assoc.
Qed.

(** A line without line-break characters, then a line feed: the line
    splitter cuts right after the line feed. *)
Lemma splitlines_from_line (l rest cur : string) :
  has_linebreak l = false ->
  splitlines_from cur (l ++ nl ++ rest)
  = (cur ++ l ++ nl) :: splitlines_from "" rest.
Proof.
  revert cur. induction l as [|a l IH]; intros cur Hl.
  - reflexivity.
  - simpl in Hl. apply orb_false_iff in Hl. destruct Hl as [Ha Hl].
    cbn [append splitlines_from].
    rewrite (is_linebreak_not_cr a Ha), Ha, (IH _ Hl).
    now rewrite append_char.
Qed.

(** X10: the stub of a function whose name has no line-break character
    is three lines, and [indent] puts the same run of spaces, four per
    level, in front of each of them. *)
Theorem indent_function_stub (f : pyobj) (is_method : bool) (n : nat) :
  has_linebreak (__name__ f) = false ->
  indent (format_function f is_method) n 4
  = (spaces (n * 4) ++ "@pytest.mark.skip" ++ nl)
    ++ (spaces (n * 4) ++ "def test_" ++ __name__ f ++ "("
        ++ (if is_method then "self" else "") ++ "):" ++ nl)
    ++ (spaces (n * 4) ++ "    pass" ++ nl).
Proof.
  intros Hname.
  set (def_line := "def test_" ++ __name__ f ++ "("
                   ++ (if is_method then "self" else "") ++ "):").
  assert (Hdef : has_linebreak def_line = false).
  { unfold def_line. rewrite !has_linebreak_app, Hname.
    now destruct is_method. }
  assert (Htext : format_function f is_method
                  = "@pytest.mark.skip" ++ nl ++ def_line ++ nl
                    ++ "    pass" ++ nl ++ "").
  { unfold format_function, get_function_test_name, def_line.
    rewrite !append_assoc. reflexivity. }
  unfold indent, textwrap_indent, splitlines_keepends. rewrite Htext.
  rewrite (splitlines_from_line "@pytest.mark.skip") by reflexivity.
  rewrite (splitlines_from_line def_line) by exact Hdef.
  rewrite (splitlines_from_line "    pass") by reflexivity.
  cbn [splitlines_from nonempty map].
  assert (Hstrip : strip_nonempty ("" ++ def_line ++ nl) = true)
    by reflexivity.
  rewrite Hstrip.
  change (strip_nonempty ("" ++ "@pytest.mark.skip" ++ nl)) with true.
  change (strip_nonempty ("" ++ "    pass" ++ nl)) with true.
  cbn iota. rewrite !concat_cons. cbn [String.concat].
  rewrite append_empty_r. unfold def_line.
  rewrite !append_assoc. reflexivity.
Qed.

Lemma indent_function_stub_witness :
  has_linebreak "n" = false
  /\ indent (format_function (Scenario.mk_function "n" "root.pkg.sub") true)
            1 4 ++ nl
     = Scenario.cov_stub_n.
Proof.
  assert (Hname : has_linebreak "n" = false) by reflexivity.
  split; [exact Hname|].
  rewrite (indent_function_stub (Scenario.mk_function "n" "root.pkg.sub")
             true 1 Hname).
  reflexivity.
Defined.

(** ** Stub formatter, in general *)

Lemma format_class_member_appends
  (rec : pyobj -> option (list pyobj) -> result string)
  (cls : pyobj) (n : nat) (ex : list pyobj) (body : string) (member : pyobj)
  (s : string) :
  format_class_member rec cls n ex body member = Ok s ->
  exists rest, s = body ++ rest.
Proof.
  unfold format_class_member.
  assert (Hself : exists rest, body = body ++ rest)
    by (exists ""; now rewrite append_empty_r).
  assert (Hsecond : forall body' rest',
            body' = body ++ rest' ->
            (if is_subclass member cls
             then let exists_in_subcls :=
                    get_testables member (Some ["__init__"]) in
                  let exists_in_subcls0 :=
                    if negb (truthy exists_in_subcls) then [member]
                    else exists_in_subcls in
                  let! nested := rec member (Some exists_in_subcls0) in
                  Ok (body' ++ indent nested n 4)
             else Ok body') = Ok s ->
            exists rest, s = body ++ rest).
  { intros body' rest' -> H. destruct (is_subclass member cls).
    - cbn zeta in H.
      match type of H with
      | rbind ?r _ = _ => destruct r as [nested|e]; [|discriminate H]
      end.
      cbn [rbind] in H. inversion H.
      exists (rest' ++ indent nested n 4). now rewrite append_assoc.
    - inversion H. now exists rest'. }
  destruct (is_subfunction member cls).
  - destruct (exists_test member ex) as [[found|]|e]; cbn [rbind].
    + intros H. inversion H; subst. exact Hself.
    + apply (Hsecond _ (indent (format_function member true) n 4) eq_refl).
    + discriminate.
  - cbn [rbind]. apply (Hsecond body ""). now rewrite append_empty_r.
Qed.

Lemma format_class_loop_appends (cls : pyobj) (n : nat) (ex : list pyobj)
  (testables : list pyobj) :
  forall body s,
    format_class_loop cls n ex testables body = Ok s ->
    exists rest, s = body ++ rest.
Proof.
  unfold format_class_loop.
  induction testables as [|member testables IH]; intros body s; simpl.
  - intros H. inversion H. exists "". now rewrite append_empty_r.
  - destruct (format_class_member (fun m e => format_class m 1 e)
                cls n ex body member) as [body'|e] eqn:Hm.
    + intros H. destruct (IH _ _ H) as [rest Hrest].
      destruct (format_class_member_appends _ _ _ _ _ _ _ Hm) as [r1 Hr1].
      exists (r1 ++ rest). subst. now rewrite append_assoc.
    + rewrite fold_left_raise. discriminate.
Qed.

(** X11: whenever [format_class], asked without existing tests, returns
    a text, the text begins with the skipped declaration of the test class
    and its empty docstring: the loop only appends to it.  An empty
    collection of existing tests is the same as none. *)
Theorem format_class_begins_with_declaration (cls : pyobj) (n : nat)
  (s : string) :
  format_class cls n None = Ok s ->
  (exists rest,
     s = ("@pytest.mark.skip" ++ nl
          ++ "class Test" ++ __name__ cls ++ ":" ++ nl
          ++ "    '''" ++ nl
          ++ "    '''" ++ nl) ++ rest)
  /\ format_class cls n (Some []) = Ok s.
Proof.
  intros Hs. split.
  - rewrite format_class_unfold in Hs.
    destruct (format_class_loop_appends _ _ _ _ _ _ Hs) as [rest Hrest].
    exists rest. rewrite Hrest. reflexivity.
  - rewrite <- Hs. now rewrite !format_class_unfold.
Qed.

Lemma format_class_begins_with_declaration_witness :
  String.prefix
    ("@pytest.mark.skip" ++ nl
     ++ "class TestC:" ++ nl
     ++ "    '''" ++ nl
     ++ "    '''" ++ nl)
    (match format_class Scenario.nested_C 1 None with
     | Ok s => s
     | Raise _ => ""
     end)
  = true.
Proof.
  destruct (format_class_begins_with_declaration Scenario.nested_C 1
              (match format_class Scenario.nested_C 1 None with
               | Ok s => s
               | Raise _ => ""
               end) eq_refl) as [[rest Hrest] _].
  rewrite Hrest. apply prefix_app.
Defined.

Lemma find_existsb {A} (p : A -> bool) (l : list A) :
  existsb p l = match find p l with Some _ => true | None => false end.
Proof.
  induction l as [|x l IH]; simpl; [reflexivity|].
  destruct (p x); [reflexivity | exact IH].
Qed.

Lemma exists_test_of_subfunction (member cls : pyobj) (ex : list pyobj) :
  is_subfunction member cls = true ->
  exists_test member ex
  = Ok (find (fun item => String.eqb (__name__ item)
                                     ("test_" ++ __name__ member)) ex).
Proof.
  intros Hf. unfold exists_test.
  rewrite (expected_name_bound member (is_subfunction_kind _ _ Hf)).
  rewrite (is_subfunction_not_class member cls Hf).
  apply scan_context_find.
Qed.

(** The text [format_class] makes for a class whose testable members,
    the initializer aside, are all functions. *)
Lemma format_class_of_methods (cls : pyobj) (n : nat)
  (ex : option (list pyobj)) :
  (forall m, In m (get_testables cls (Some ["__init__"])) ->
             is_subfunction m cls = true) ->
  format_class cls n ex
  = Ok ((if truthy (set_or_empty ex) then ""
         else "@pytest.mark.skip" ++ nl
              ++ "class " ++ get_class_test_name cls ++ ":" ++ nl
              ++ "    '''" ++ nl
              ++ "    '''" ++ nl)
        ++ String.concat ""
             (map (fun m => indent (format_function m true) n 4)
                  (filter
                     (fun m =>
                        negb (existsb
                                (fun item =>
                                   String.eqb (__name__ item)
                                              ("test_" ++ __name__ m))
                                (set_or_empty ex)))
                     (get_testables cls (Some ["__init__"]))))).
Proof.
  intros Hflat. rewrite format_class_unfold.
  generalize (if truthy (set_or_empty ex) then ""
       else "@pytest.mark.skip" ++ nl
            ++ "class " ++ get_class_test_name cls ++ ":" ++ nl
            ++ "    '''" ++ nl
            ++ "    '''" ++ nl) as body.
  revert Hflat.
  generalize (get_testables cls (Some ["__init__"])) as testables.
  unfold format_class_loop.
  induction testables as [|m testables IH]; intros Hflat body.
  - simpl. now rewrite append_empty_r.
  - cbn [fold_left rbind filter map].
    pose proof (Hflat m (or_introl eq_refl)) as Hm.
    pose proof (exists_test_of_subfunction m cls (set_or_empty ex) Hm)
      as Htest.
    rewrite find_existsb.
    destruct (find (fun item => String.eqb (__name__ item)
                                           ("test_" ++ __name__ m))
                   (set_or_empty ex)) as [found|] eqn:Hfind.
    + rewrite (format_class_member_skipped _ _ _ _ _ _ found Hm Htest).
      cbn [negb]. apply IH. intros x Hx. apply Hflat. now right.
    + rewrite (format_class_member_emitted _ _ _ _ _ _ Hm
                 (is_subfunction_not_subclass _ _ Hm) Htest).
      cbn [negb map]. rewrite concat_cons, <- append_assoc.
      apply IH. intros x Hx. apply Hflat. now right.
Qed.

(** X12: for a class without nested classes the text is exactly: the
    declaration when no test exists at all, then the indented stubs of
    the methods that have no test of their name, in the extractor's
    order; the methods that have one are left out. *)
Theorem format_class_flat (cls : pyobj) (n : nat)
  (ex : option (list pyobj)) :
  (forall m, In m (get_testables cls (Some ["__init__"])) ->
             is_subfunction m cls = true) ->
  format_class cls n ex
  = Ok ((if truthy (set_or_empty ex) then ""
         else "@pytest.mark.skip" ++ nl
              ++ "class " ++ get_class_test_name cls ++ ":" ++ nl
              ++ "    '''" ++ nl
              ++ "    '''" ++ nl)
        ++ String.concat ""
             (map (fun m => indent (format_function m true) n 4)
                  (filter
                     (fun m =>
                        negb (existsb
                                (fun item =>
                                   String.eqb (__name__ item)
                                              ("test_" ++ __name__ m))
                                (set_or_empty ex)))
                     (get_testables cls (Some ["__init__"]))))).
Proof. exact (format_class_of_methods cls n ex). Qed.

Lemma format_class_flat_witness :
  format_class Scenario.cov_C 1
    (Some (get_testables Scenario.cov_TestC None))
  = Ok (indent (format_function (Scenario.mk_function "n" "root.pkg.sub")
                                true) 1 4).
Proof.
  rewrite format_class_flat.
  - reflexivity.
  - intros m Hm. simpl in Hm. destruct Hm as [<- | [<- | []]]; reflexivity.
Defined.

(** ** Generation driver, in general *)

Lemma path_eqb_neq (p q : list string) : p <> q -> path_eqb p q = false.
Proof.
  intros Hne. destruct (path_eqb p q) eqn:Heq; [|reflexivity].
  apply path_eqb_eq in Heq. contradiction.
Qed.

Lemma only_file_changed_same (q : list string) (c : string) (w : world) :
  fs w q = Some (File c) -> only_file_changed q c w w.
Proof. intros H. repeat split; auto. Qed.

Lemma only_file_changed_write (q : list string) (c text : string) (w : world) :
  fs w q = Some (File c) ->
  write q text w = (Ok tt, fs_set q (File (c ++ text)) w)
  /\ only_file_changed q (c ++ text) w (fs_set q (File (c ++ text)) w).
Proof.
  intros H. unfold write. rewrite H. split; [reflexivity|].
  repeat split.
  - rewrite fs_set_fs. now rewrite path_eqb_refl.
  - intros p Hp. rewrite fs_set_fs. rewrite path_eqb_neq; auto.
Qed.

Lemma only_file_changed_trans (q : list string) (c1 c2 : string)
  (w w1 w2 : world) :
  only_file_changed q c1 w w1 -> only_file_changed q c2 w1 w2 ->
  only_file_changed q c2 w w2.
Proof.
  intros (Hc1 & Hs1 & _ & Ho1) (Hc2 & Hs2 & Hf2 & Ho2).
  repeat split; try congruence.
  intros p Hp. rewrite (Ho2 p Hp). now apply Ho1.
Qed.

Lemma isfunction_kind (obj : pyobj) :
  isfunction obj = true ->
  (isclass obj || isfunction obj || ismethod obj) = true
  /\ isclass obj = false.
Proof.
  unfold isfunction, isclass, ismethod.
  destruct (kind obj); simpl; intros H; try discriminate H; now split.
Qed.

Lemma class_body_returns (obj : pyobj) (ex ms : list pyobj) :
  isclass obj = true ->
  (forall i, In i ms -> (isclass i || isfunction i || ismethod i) = true) ->
  (forall m, In m (get_testables obj (Some ["__init__"])) ->
             is_subfunction m obj = true) ->
  exists body, class_body obj ex ms = Ok body.
Proof.
  intros Hcls Hms Hflat. unfold class_body.
  destruct (exists_test_returns obj ex) as [found Hfound];
    [now rewrite Hcls|].
  rewrite Hfound. cbn [rbind]. destruct found as [test_obj|].
  - destruct (existing_items_return (get_testables test_obj None) ms Hms)
      as [items Hitems].
    rewrite Hitems. cbn [rbind].
    rewrite format_class_of_methods by exact Hflat. eexists. reflexivity.
  - rewrite format_class_of_methods by exact Hflat. eexists. reflexivity.
Qed.

(** One turn of the driver's loop on an open file, for a function or for
    a class without nested classes, cannot fail: it leaves the world as
    it is or appends to that file. *)
Lemma generate_member_appends (q : list string) (ex ms : list pyobj)
  (obj : pyobj) (c : string) (w : world) :
  fs w q = Some (File c) ->
  (forall i, In i ms -> (isclass i || isfunction i || ismethod i) = true) ->
  (isclass obj = true ->
   forall m, In m (get_testables obj (Some ["__init__"])) ->
             is_subfunction m obj = true) ->
  exists more w',
    generate_member q ex ms obj w = (Ok tt, w')
    /\ only_file_changed q (c ++ more) w w'.
Proof.
  intros Hq Hms Hflat. unfold generate_member.
  destruct (isfunction obj) eqn:Hfun.
  - destruct (isfunction_kind obj Hfun) as [Hkind _].
    destruct (exists_test_returns obj ex Hkind) as [found Hfound].
    unfold bind, lift. rewrite Hfound. destruct found as [t|].
    + exists "", w. split; [reflexivity|]. rewrite append_empty_r.
      now apply only_file_changed_same.
    + destruct (only_file_changed_write q c
                  (format_function obj (ismethod obj) ++ nl) w Hq)
        as [Hw Hrel].
      eexists. eexists. split; [exact Hw | exact Hrel].
  - destruct (isclass obj) eqn:Hcls.
    + destruct (class_body_returns obj ex ms Hcls Hms (Hflat eq_refl))
        as [body Hbody].
      unfold bind, lift. rewrite Hbody.
      destruct (only_file_changed_write q c (body ++ nl) w Hq) as [Hw Hrel].
      eexists. eexists. split; [exact Hw | exact Hrel].
    + exists "", w. split; [reflexivity|]. rewrite append_empty_r.
      now apply only_file_changed_same.
Qed.

Lemma generate_members_append (q : list string) (ex ms objs : list pyobj) :
  (forall i, In i ms -> (isclass i || isfunction i || ismethod i) = true) ->
  (forall obj, In obj objs -> isclass obj = true ->
   forall m, In m (get_testables obj (Some ["__init__"])) ->
             is_subfunction m obj = true) ->
  forall c w,
    fs w q = Some (File c) ->
    exists more w',
      for_each objs (generate_member q ex ms) w = (Ok tt, w')
      /\ only_file_changed q (c ++ more) w w'.
Proof.
  intros Hms. induction objs as [|obj objs IH]; intros Hflat c w Hq.
  - exists "", w. split; [reflexivity|]. rewrite append_empty_r.
    now apply only_file_changed_same.
  - destruct (generate_member_appends q ex ms obj c w Hq Hms
                (Hflat obj (or_introl eq_refl)))
      as (m1 & w1 & Hstep & Hrel1).
    destruct (IH (fun o Ho => Hflat o (or_intror Ho)) (c ++ m1) w1)
      as (m2 & w2 & Hrest & Hrel2).
    { now destruct Hrel1 as (_ & _ & Hf & _). }
    exists (m1 ++ m2), w2. split.
    + cbn [for_each]. unfold bind. now rewrite Hstep.
    + rewrite <- append_assoc.
      exact (only_file_changed_trans _ _ _ _ _ _ Hrel1 Hrel2).
Qed.

(** X13: once the test module of a leaf is imported and its test file is
    there, the driver cannot fail on a leaf none of whose classes has a
    nested class (every testable member of a class, the initializer
    aside, is a function): it returns, the file keeps its content and may
    have grown, and nothing else in the world has changed: no other file,
    no directory, not the working directory, not the output. *)
Theorem driver_succeeds_without_nested_classes
  (loader : world -> string -> result pyobj) (w : world) (path : Path)
  (old testmod : string) (src tests : pyobj) :
  lookup w (resolve w path) = Some (File old) ->
  import_module loader testmod w = (Ok tests, w) ->
  (forall cls, In cls (get_testables src None) -> isclass cls = true ->
   forall m, In m (get_testables cls (Some ["__init__"])) ->
             is_subfunction m cls = true) ->
  exists more w',
    generate_tests loader [(path, src, testmod)] w = (Ok tt, w')
    /\ only_file_changed (resolve w path) (old ++ more) w w'.
Proof.
  intros Hold Himport Hflat.
  destruct (generate_members_append (resolve w path)
              (get_testables tests None) (get_testables src None)
              (get_testables src None)
              (fun i Hi => get_testables_kind src None i Hi)
              Hflat old w (lookup_file _ _ _ Hold))
    as (more & w' & Hrun & Hrel).
  exists more, w'. split; [|exact Hrel].
  unfold generate_tests. cbn [for_each].
  unfold bind at 1. unfold bind at 1. rewrite Himport.
  unfold bind at 1. unfold open_append. rewrite Hold.
  rewrite Hrun. reflexivity.
Qed.

Lemma driver_succeeds_without_nested_classes_witness :
  lookup (fs_set Scenario.nested_test_file (File "import pytest")
                 Scenario.proj)
         Scenario.nested_test_file
  = Some (File "import pytest")
  /\ fst (generate_tests (fun _ _ => Ok Scenario.cov_tests)
            [(of_string "/proj/tests/pkg/test_sub.py", Scenario.cov_sub,
              "tests.pkg.test_sub")]
            (fs_set Scenario.nested_test_file (File "import pytest")
                    Scenario.proj))
     = Ok tt.
Proof.
  assert (Hfile :
    lookup (fs_set Scenario.nested_test_file (File "import pytest")
                   Scenario.proj)
           (resolve (fs_set Scenario.nested_test_file (File "import pytest")
                            Scenario.proj)
                    (of_string "/proj/tests/pkg/test_sub.py"))
    = Some (File "import pytest")) by reflexivity.
  split; [exact Hfile|].
  destruct (driver_succeeds_without_nested_classes
              (fun _ _ => Ok Scenario.cov_tests) _
              (of_string "/proj/tests/pkg/test_sub.py") "import pytest"
              "tests.pkg.test_sub" Scenario.cov_sub
              Scenario.cov_tests Hfile eq_refl)
    as (more & w' & Hrun & _).
  - intros cls Hcls _ m Hm. simpl in Hcls. destruct Hcls as [<- | []].
    simpl in Hm. destruct Hm as [<- | [<- | []]]; reflexivity.
  - now rewrite Hrun.
Defined.

Lemma filter_nothing {A} (f : A -> bool) (l : list A) :
  (forall x, In x l -> f x = false) -> filter f l = [].
Proof.
  induction l as [|x l IH]; intros H; simpl; [reflexivity|].
  rewrite (H x (or_introl eq_refl)). apply IH.
  intros y Hy. apply H. now right.
Qed.

Lemma exists_test_of_class (obj : pyobj) (ex : list pyobj) :
  isclass obj = true ->
  exists_test obj ex
  = Ok (find (fun item => String.eqb (__name__ item)
                                     ("Test" ++ __name__ obj)) ex).
Proof.
  intros Hcls. unfold exists_test.
  rewrite (expected_name_bound obj) by now rewrite Hcls.
  rewrite Hcls. apply scan_context_find.
Qed.

Lemma ismethod_kind (obj : pyobj) :
  ismethod obj = true -> isfunction obj = false /\ isclass obj = false.
Proof.
  unfold isfunction, isclass, ismethod.
  destruct (kind obj); simpl; intros H; try discriminate H; now split.
Qed.

Lemma isclass_not_function (obj : pyobj) :
  isclass obj = true -> isfunction obj = false.
Proof.
  unfold isfunction, isclass.
  destruct (kind obj); simpl; intros H; try discriminate H; reflexivity.
Qed.

Lemma class_body_covered (obj : pyobj) (ex ms : list pyobj)
  (test_class : pyobj) :
  isclass obj = true ->
  (forall i, In i ms -> (isclass i || isfunction i || ismethod i) = true) ->
  find (fun item => String.eqb (__name__ item) ("Test" ++ __name__ obj)) ex
  = Some test_class ->
  (forall m, In m (get_testables obj (Some ["__init__"])) ->
     is_subfunction m obj = true
     /\ exists t, In t (get_testables test_class None)
                  /\ __name__ t = "test_" ++ __name__ m) ->
  class_body obj ex ms = Ok "".
Proof.
  intros Hcls Hms Hfind Hcov. unfold class_body.
  rewrite (exists_test_of_class obj ex Hcls), Hfind. cbn [rbind].
  destruct (existing_items_return (get_testables test_class None) ms Hms)
    as [items Hitems].
  rewrite Hitems. cbn [rbind].
  rewrite format_class_of_methods by (intros m Hm; now apply Hcov).
  set (existing := get_testables test_class None) in *.
  set (ex' := if negb (truthy existing) then [obj] else existing).
  assert (Hset : set_or_empty (Some ex') = ex')
    by (unfold ex'; destruct existing; reflexivity).
  assert (Htruthy : truthy ex' = true)
    by (unfold ex'; destruct existing; reflexivity).
  rewrite Hset, Htruthy.
  rewrite filter_nothing; [reflexivity|].
  intros m Hm. destruct (Hcov m Hm) as [_ (t & Ht & Hname)].
  assert (Hex : ex' = existing).
  { unfold ex'. destruct existing; [destruct Ht | reflexivity]. }
  rewrite Hex. apply negb_false_iff. apply existsb_exists.
  exists t. split; [exact Ht | now apply String.eqb_eq].
Qed.

Lemma generate_member_covered (q : list string) (ex ms : list pyobj)
  (obj : pyobj) (c : string) (w : world) :
  fs w q = Some (File c) ->
  (forall i, In i ms -> (isclass i || isfunction i || ismethod i) = true) ->
  covered ex obj ->
  exists w',
    generate_member q ex ms obj w = (Ok tt, w')
    /\ only_file_changed q (c ++ (if isclass obj then nl else "")) w w'.
Proof.
  intros Hq Hms [[Hfun (t & Ht & Hname)] | [Hmeth | [Hcls Hclass]]];
    unfold generate_member.
  - destruct (isfunction_kind obj Hfun) as [Hkind Hnc].
    rewrite Hfun, Hnc. unfold bind, lift, exists_test.
    rewrite (expected_name_bound obj Hkind), Hnc, scan_context_find.
    destruct (find_present
                (fun item => String.eqb (__name__ item)
                                        ("test_" ++ __name__ obj)) ex)
      as [y Hy].
    { exists t. split; [exact Ht | now apply String.eqb_eq]. }
    rewrite Hy. exists w. split; [reflexivity|]. rewrite append_empty_r.
    now apply only_file_changed_same.
  - destruct (ismethod_kind obj Hmeth) as [Hnf Hnc]. rewrite Hnf, Hnc.
    exists w. split; [reflexivity|]. rewrite append_empty_r.
    now apply only_file_changed_same.
  - destruct Hclass as (test_class & Hfind & Hcov).
    rewrite (isclass_not_function obj Hcls), Hcls.
    unfold bind, lift.
    rewrite (class_body_covered obj ex ms test_class Hcls Hms Hfind Hcov).
    destruct (only_file_changed_write q c ("" ++ nl) w Hq) as [Hw Hrel].
    eexists. split; [exact Hw | exact Hrel].
Qed.

(** X14: a second run on a module without nested classes repeats no
    stub.  When every function of the leaf has its test and every class
    has its test class with a test for each method, the driver returns
    and appends to the test file one empty line per class and nothing
    else: the line end it writes after the (empty) text of a class. *)
Theorem covered_leaf_gets_only_blank_lines
  (loader : world -> string -> result pyobj) (w : world) (path : Path)
  (old testmod : string) (src tests : pyobj) :
  lookup w (resolve w path) = Some (File old) ->
  import_module loader testmod w = (Ok tests, w) ->
  (forall obj, In obj (get_testables src None) ->
               covered (get_testables tests None) obj) ->
  exists w',
    generate_tests loader [(path, src, testmod)] w = (Ok tt, w')
    /\ only_file_changed (resolve w path)
         (old ++ String.concat ""
                   (repeat nl (length (filter isclass
                                              (get_testables src None)))))
         w w'.
Proof.
  intros Hold Himport Hcov.
  assert (Hloop : forall objs,
            (forall obj, In obj objs ->
                         covered (get_testables tests None) obj) ->
            forall c w0,
              fs w0 (resolve w path) = Some (File c) ->
              exists w',
                for_each objs
                  (generate_member (resolve w path)
                     (get_testables tests None) (get_testables src None)) w0
                = (Ok tt, w')
                /\ only_file_changed (resolve w path)
                     (c ++ String.concat ""
                             (repeat nl (length (filter isclass objs))))
                     w0 w').
  { induction objs as [|obj objs IH]; intros Hall c w0 Hq.
    - exists w0. split; [reflexivity|]. simpl. rewrite append_empty_r.
      now apply only_file_changed_same.
    - destruct (generate_member_covered (resolve w path)
                  (get_testables tests None) (get_testables src None)
                  obj c w0 Hq
                  (fun i Hi => get_testables_kind src None i Hi)
                  (Hall obj (or_introl eq_refl)))
        as (w1 & Hstep & Hrel1).
      destruct (IH (fun o Ho => Hall o (or_intror Ho))
                   (c ++ (if isclass obj then nl else "")) w1)
        as (w2 & Hrest & Hrel2).
      { now destruct Hrel1 as (_ & _ & Hf & _). }
      exists w2. split.
      + cbn [for_each]. unfold bind. now rewrite Hstep.
      + pose proof (only_file_changed_trans _ _ _ _ _ _ Hrel1 Hrel2) as Hrel.
        cbn [filter]. destruct (isclass obj).
        * cbn [length repeat]. rewrite concat_cons, <- append_assoc.
          exact Hrel.
        * rewrite append_empty_r in Hrel. exact Hrel. }
  destruct (Hloop (get_testables src None) Hcov old w
              (lookup_file _ _ _ Hold)) as (w' & Hrun & Hrel).
  exists w'. split; [|exact Hrel].
  unfold generate_tests. cbn [for_each].
  unfold bind at 1. unfold bind at 1. rewrite Himport.
  unfold bind at 1. unfold open_append. rewrite Hold.
  rewrite Hrun. reflexivity.
Qed.

Lemma covered_leaf_gets_only_blank_lines_witness :
  lookup (fs_set Scenario.nested_test_file (File Scenario.deep_first_run)
                 Scenario.proj)
         Scenario.nested_test_file
  = Some (File Scenario.deep_first_run)
  /\ fst (generate_tests (fun _ _ => Ok Scenario.deep_tests_reloaded)
            [(of_string "/proj/tests/pkg/test_sub.py", Scenario.deep_sub,
              "tests.pkg.test_sub")]
            (fs_set Scenario.nested_test_file (File Scenario.deep_first_run)
                    Scenario.proj))
     = Ok tt.
Proof.
  assert (Hfile :
    lookup (fs_set Scenario.nested_test_file (File Scenario.deep_first_run)
                   Scenario.proj)
           (resolve (fs_set Scenario.nested_test_file
                            (File Scenario.deep_first_run) Scenario.proj)
                    (of_string "/proj/tests/pkg/test_sub.py"))
    = Some (File Scenario.deep_first_run)) by reflexivity.
  split; [exact Hfile|].
  destruct (covered_leaf_gets_only_blank_lines
              (fun _ _ => Ok Scenario.deep_tests_reloaded) _
              (of_string "/proj/tests/pkg/test_sub.py")
              Scenario.deep_first_run "tests.pkg.test_sub"
              Scenario.deep_sub Scenario.deep_tests_reloaded Hfile eq_refl)
    as (w' & Hrun & _).
  - intros obj Hobj. simpl in Hobj.
    destruct Hobj as [<- | [<- | [<- | []]]].
    + right. right. split; [reflexivity|].
      exists (Scenario.mk_class "TestC" "tests.pkg.test_sub"
                [("test_m",
                  Scenario.mk_function "test_m" "tests.pkg.test_sub")]).
      split; [reflexivity|].
      intros m Hm. simpl in Hm. destruct Hm as [<- | []].
      split; [reflexivity|].
      exists (Scenario.mk_function "test_m" "tests.pkg.test_sub").
      split; [left; reflexivity | reflexivity].
    + left. split; [reflexivity|].
      exists (Scenario.mk_function "test_a" "tests.pkg.test_sub").
      split; [right; left; reflexivity | reflexivity].
    + left. split; [reflexivity|].
      exists (Scenario.mk_function "test_b" "tests.pkg.test_sub").
      split; [right; right; left; reflexivity | reflexivity].
  - now rewrite Hrun.
Defined.

(** ** Materializer, in general *)

Lemma bind_ok {A B} (m : M A) (k : A -> M B) (w w' : world) (b : B) :
  bind m k w = (Ok b, w') ->
  exists a w1, m w = (Ok a, w1) /\ k a w1 = (Ok b, w').
Proof.
  unfold bind. destruct (m w) as [[a|e] w1]; [|discriminate].
  intros H. now exists a, w1.
Qed.

Lemma setup_leaf_result (base : Path) (name : string) (submod : pyobj)
  (w w' : world) (r : Path * pyobj * string) :
  setup_leaf base name submod w = (Ok r, w') ->
  r = leaf_entry base (name, submod).
Proof.
  unfold setup_leaf. intros H.
  apply bind_ok in H. destruct H as (_ & w1 & _ & H).
  apply bind_ok in H. destruct H as (_ & w2 & _ & H).
  apply bind_ok in H. destruct H as (present & w3 & _ & H).
  apply bind_ok in H. destruct H as (_ & w4 & _ & H).
  unfold ret in H. now inversion H.
Qed.

Lemma help_setup_files_result (base : Path) (modules : tree) :
  forall w w' r,
    _help_setup_files base modules w = (Ok r, w') ->
    r = map (leaf_entry base) (leaves modules).
Proof.
  induction modules as [m | items IH] using tree_items_ind; intros w w' r.
  - cbn [_help_setup_files leaves map]. intros H.
    apply bind_ok in H. destruct H as (r0 & w1 & Hleaf & H).
    apply setup_leaf_result in Hleaf. unfold ret in H.
    inversion H. now subst.
  - cbn [_help_setup_files leaves].
    match goal with
    | |- ?loop items [] w = _ -> _ =>
        enough (Hloop : forall result w0,
                  loop items result w0 = (Ok r, w') ->
                  r = (result
                       ++ map (leaf_entry base) (leaves (Dict items)))%list)
          by (intros H; exact (Hloop [] w H))
    end.
    revert IH. clear w. induction items as [|[name submod] items IHitems];
      intros IH result w0.
    + intros H. unfold ret in H. inversion H. cbn [leaves map].
      now rewrite app_nil_r.
    + assert (Hitems : forall result' w1,
                _ = (Ok r, w') ->
                r = (result'
                     ++ map (leaf_entry base) (leaves (Dict items)))%list)
        by (apply IHitems; intros n s Hin; apply (IH n s); now right).
      destruct submod as [m | sub].
      * intros H. apply bind_ok in H. destruct H as (r0 & w1 & Hleaf & H).
        apply setup_leaf_result in Hleaf. subst r0.
        apply Hitems in H. rewrite H. cbn [leaves map].
        now rewrite <- app_assoc.
      * intros H. apply bind_ok in H. destruct H as (_ & w1 & _ & H).
        apply bind_ok in H. destruct H as (sub_r & w2 & Hsub & H).
        apply (IH name (Dict sub) (or_introl eq_refl)) in Hsub. subst sub_r.
        apply Hitems in H. rewrite H.
        change (leaves (Dict ((name, Dict sub) :: items)))
          with (leaves (Dict sub) ++ leaves (Dict items))%list.
        now rewrite map_app, app_assoc.
Qed.

(** X15: when the materializer returns, its result has one entry per
    leaf of the tree and none for a package, in the tree's order: the
    path of the leaf's test file, the leaf module, and the name of its
    test module. *)
Theorem setup_files_lists_the_leaves (path : string) (modules : tree)
  (w w' : world) (r : list (Path * pyobj * string)) :
  setup_files path modules w = (Ok r, w') ->
  r = map (fun leaf =>
             (test_file_path (of_string path) (fst leaf), snd leaf,
              test_module_name (of_string path) (fst leaf)))
          (leaves modules).
Proof.
  unfold setup_files. intros H.
  apply bind_ok in H. destruct H as (_ & w1 & _ & H).
  exact (help_setup_files_result _ _ _ _ _ H).
Qed.

Lemma setup_files_lists_the_leaves_witness :
  fst (setup_files "tests"
         (Dict [("root.pkg",
                 Dict [("root.pkg.sub", Leaf Scenario.nested_sub)])])
         Scenario.proj)
  = Ok [(of_string "tests/pkg/test_sub.py", Scenario.nested_sub,
         "tests.pkg.test_sub")].
Proof.
  destruct (setup_files "tests"
              (Dict [("root.pkg",
                      Dict [("root.pkg.sub", Leaf Scenario.nested_sub)])])
              Scenario.proj) as [[r|e] w'] eqn:Hrun.
  - rewrite (setup_files_lists_the_leaves _ _ _ _ _ Hrun). reflexivity.
  - vm_compute in Hrun. discriminate Hrun.
Defined.

(** ** Names of test files and test modules *)

Lemma has_char_app (c : ascii) (a b : string) :
  has_char c (a ++ b) = has_char c a || has_char c b.
Proof.
  induction a as [|x a IH]; simpl; [reflexivity|].
  now rewrite IH, orb_assoc.
Qed.

Lemma split_on_no_separator (c : ascii) (s : string) :
  has_char c s = false -> split_on c s = [s].
Proof.
  induction s as [|a s IH]; simpl; [reflexivity|].
  intros H. apply orb_false_iff in H. destruct H as [Ha Hs].
  now rewrite Ha, (IH Hs).
Qed.

Lemma split_on_app_separator (c : ascii) (a b : string) :
  has_char c a = false ->
  split_on c (a ++ String c b) = a :: split_on c b.
Proof.
  induction a as [|x a IH]; simpl.
  - intros _. now rewrite Ascii.eqb_refl.
  - intros H. apply orb_false_iff in H. destruct H as [Hx Ha].
    now rewrite Hx, (IH Ha).
Qed.

(** Joining components that do not hold the separator, then splitting,
    gives the components back. *)
Lemma split_on_join (c : ascii) (x : string) (comps : list string) :
  Forall (fun s => has_char c s = false) (x :: comps) ->
  split_on c (join (String c "") (x :: comps)) = x :: comps.
Proof.
  revert x. induction comps as [|y comps IH]; intros x Hall.
  - simpl. apply split_on_no_separator. now inversion Hall.
  - inversion Hall as [|? ? Hx Hrest]; subst.
    change (join (String c "") (x :: y :: comps))
      with (x ++ String c (join (String c "") (y :: comps))).
    rewrite (split_on_app_separator c x _ Hx). f_equal. now apply IH.
Qed.

Lemma substring_prefix (a b : string) :
  String.substring 0 (String.length a) (a ++ b) = a.
Proof.
  induction a as [|x a IH]; simpl.
  - now destruct b.
  - now rewrite IH.
Qed.

Lemma length_app (a b : string) :
  String.length (a ++ b) = String.length a + String.length b.
Proof. induction a as [|x a IH]; simpl; [reflexivity | now rewrite IH]. Qed.

Lemma drop_last3_py (a : string) : drop_last3 (a ++ ".py") = a.
Proof.
  unfold drop_last3. rewrite length_app. simpl String.length.
  replace (String.length a + 3 - 3) with (String.length a) by lia.
  apply substring_prefix.
Qed.

Lemma parts_of_join (pkgs : list string) :
  Forall (fun s => has_char "/" s = false /\ s <> "" /\ s <> ".") pkgs ->
  String.prefix "/" (join "/" pkgs) = false
  /\ parts_of (join "/" pkgs) = pkgs.
Proof.
  intros Hall. destruct pkgs as [|x pkgs]; [split; reflexivity|].
  split.
  - inversion Hall as [|? ? (Hx & Hne & _) _]; subst.
    destruct x as [|a x]; [now elim Hne|].
    simpl in Hx. apply orb_false_iff in Hx. destruct Hx as [Ha _].
    apply Ascii.eqb_neq in Ha.
    assert (Hfirst : forall rest,
              String.prefix "/" (String a rest) = false).
    { intros rest. cbn [String.prefix].
      destruct (ascii_dec "/" a) as [Heq | _]; [|reflexivity].
      now elim Ha. }
    destruct pkgs; [apply Hfirst|].
    unfold join. cbn [String.concat append]. apply Hfirst.
  - unfold parts_of. rewrite split_on_join.
    + clear -Hall. induction Hall as [|s l (_ & Hne & Hdot) _ IH];
        [reflexivity|].
      simpl. rewrite IH.
      assert (Hs : nonempty s = true) by (destruct s; [now elim Hne | reflexivity]).
      assert (Hd : String.eqb s "." = false) by now apply String.eqb_neq.
      now rewrite Hs, Hd.
    + eapply Forall_impl; [|exact Hall]. now intros s (Hs & _).
Qed.

(** X16: for a leaf whose dotted name has the components
    [root.p1...pk.leaf] (no component holds a dot or a slash, the
    package components are not empty), the test file is
    [base/p1/.../pk/test_leaf.py] and the test module is named
    [stem.p1...pk.test_leaf], where [stem] is the last component of the
    output directory without its suffix.  With no package component the
    module name has two dots in a row. *)
Theorem leaf_test_file_and_module_name (base : Path) (root leaf : string)
  (pkgs : list string) :
  has_char "." root = false ->
  has_char "." leaf = false -> has_char "/" leaf = false ->
  Forall (fun s => has_char "." s = false /\ has_char "/" s = false
                   /\ s <> "") pkgs ->
  let name := join "." (root :: pkgs ++ [leaf]) in
  test_file_name name = "test_" ++ leaf ++ ".py"
  /\ test_file_path base name
     = mkPath (absolute base)
              (parts base ++ pkgs ++ ["test_" ++ leaf ++ ".py"])
  /\ test_module_name base name
     = (stem base ++ ".") ++ join "." pkgs ++ ".test_" ++ leaf.
Proof.
  intros Hroot Hleaf Hslash Hpkgs name.
  assert (Hsplit : split_on "." name = root :: pkgs ++ [leaf]).
  { unfold name. apply (split_on_join "."). constructor; [exact Hroot|].
    apply Forall_app. split.
    - eapply Forall_impl; [|exact Hpkgs]. now intros s (Hs & _).
    - now constructor. }
  assert (Hlast : last_item (split_on "." name) = leaf).
  { rewrite Hsplit. unfold last_item.
    change (root :: pkgs ++ [leaf])%list with ((root :: pkgs) ++ [leaf])%list.
    apply last_last. }
  assert (Hmid : slice_1_to_last (split_on "." name) = pkgs).
  { rewrite Hsplit. unfold slice_1_to_last. cbn [tl]. apply removelast_last. }
  assert (Hfile : test_file_name name = "test_" ++ leaf ++ ".py").
  { unfold test_file_name. now rewrite Hlast. }
  split; [exact Hfile|]. split.
  - unfold test_file_path. rewrite Hmid, Hfile.
    destruct (parts_of_join pkgs) as [Hprefix Hparts].
    { eapply Forall_impl; [|exact Hpkgs].
      intros s (Hdot & Hsl & Hne). repeat split; try assumption.
      intros ->. discriminate Hdot. }
    unfold div at 2. rewrite Hprefix, Hparts.
    unfold div.
    change (String.prefix "/" ("test_" ++ leaf ++ ".py")) with false.
    cbn [absolute parts]. f_equal. rewrite <- app_assoc. f_equal. f_equal.
    unfold parts_of.
    rewrite split_on_no_separator
      by (change ("test_" ++ leaf ++ ".py")
            with ("test_" ++ (leaf ++ ".py"));
          rewrite !has_char_app, Hslash; reflexivity).
    reflexivity.
  - unfold test_module_name. rewrite Hmid, Hfile.
    assert (Hdrop : drop_last3 ("test_" ++ leaf ++ ".py") = "test_" ++ leaf).
    { rewrite <- (append_assoc "test_" leaf ".py"). apply drop_last3_py. }
    rewrite Hdrop. reflexivity.
Qed.

Lemma leaf_test_file_and_module_name_witness :
  has_char "." "sub" = false
  /\ test_module_name (of_string "out/tests.d") "root.pkg.sub"
     = "tests.pkg.test_sub".
Proof.
  assert (Hsub : has_char "." "sub" = false) by reflexivity.
  split; [exact Hsub|].
  destruct (leaf_test_file_and_module_name (of_string "out/tests.d")
              "root" "sub" ["pkg"] eq_refl Hsub eq_refl)
    as (_ & _ & Hname).
  - repeat constructor. discriminate.
  - exact Hname.
Defined.

Lemma nodes_kept_refl (w : world) : nodes_kept w w.
Proof. intros p. split; auto. Qed.

Lemma nodes_kept_trans (w1 w2 w3 : world) :
  nodes_kept w1 w2 -> nodes_kept w2 w3 -> nodes_kept w1 w3.
Proof.
  intros H12 H23 p. destruct (H12 p) as [Ha Hb], (H23 p) as [Hc Hd].
  split; auto.
Qed.

Lemma nodes_kept_same_fs (w w' : world) : fs w' = fs w -> nodes_kept w w'.
Proof.
  intros Hfs p. unfold lookup. rewrite Hfs. split; auto.
Qed.

Lemma prefixes_self (p : list string) : p <> [] -> In p (prefixes p).
Proof.
  induction p as [|x p IH]; intros Hne; [now elim Hne|].
  simpl. destruct p as [|y p]; [now left|].
  right. apply in_map. apply IH. discriminate.
Qed.

Lemma mkdir_nodes_kept (d : Path) : respects nodes_kept (mkdir d).
Proof.
  intros w. unfold mkdir.
  destruct (existsb (is_file w) (prefixes (resolve w d)));
    [apply nodes_kept_refl|].
  cbn [snd]. intros p. unfold lookup. destruct p as [|x p]; [split; auto|].
  rewrite fold_fs_set_directory.
  destruct (existsb (fun q => path_eqb q (x :: p)) (prefixes (resolve w d)));
    split; auto; discriminate.
Qed.

Lemma mkdir_makes_directory (d : Path) (w w' : world) :
  mkdir d w = (Ok tt, w') -> lookup w' (resolve w d) = Some Directory.
Proof.
  unfold mkdir.
  destruct (existsb (is_file w) (prefixes (resolve w d)));
    [discriminate|].
  intros H. inversion H; subst w'. clear H. unfold lookup.
  destruct (resolve w d) as [|x p] eqn:Hq; [reflexivity|].
  rewrite fold_fs_set_directory.
  assert (Hin : existsb (fun q => path_eqb q (x :: p)) (prefixes (x :: p))
                = true).
  { apply existsb_exists. exists (x :: p).
    split; [apply prefixes_self; discriminate | apply path_eqb_refl]. }
  now rewrite Hin.
Qed.

Lemma chdir_nodes_kept (d : Path) : respects nodes_kept (chdir d).
Proof. intros w. apply nodes_kept_same_fs. apply chdir_fs. Qed.

Lemma fs_set_absent_nodes_kept (q : list string) (x : node) (w : world) :
  lookup w q = None -> nodes_kept w (fs_set q x w).
Proof.
  intros Hq p. unfold lookup in *. destruct p as [|y p]; [split; auto|].
  rewrite fs_set_fs. destruct (path_eqb q (y :: p)) eqn:Heq.
  - apply path_eqb_eq in Heq. subst q. rewrite Hq.
    split; [intros H; now elim H | discriminate].
  - split; auto.
Qed.

Lemma fs_set_file_nodes_kept (q : list string) (c c' : string) (w : world) :
  fs w q = Some (File c) -> nodes_kept w (fs_set q (File c') w).
Proof.
  intros Hq p. unfold lookup. destruct p as [|y p]; [split; auto|].
  rewrite fs_set_fs. destruct (path_eqb q (y :: p)) eqn:Heq.
  - apply path_eqb_eq in Heq. subst q. rewrite Hq.
    split; [discriminate | discriminate].
  - split; auto.
Qed.

Lemma open_append_nodes_kept (d : Path) : respects nodes_kept (open_append d).
Proof.
  intros w. unfold open_append.
  destruct (lookup w (resolve w d)) as [[c|]|] eqn:Hl;
    try apply nodes_kept_refl.
  destruct (is_dir w (removelast (resolve w d))); [|apply nodes_kept_refl].
  now apply fs_set_absent_nodes_kept.
Qed.

Lemma write_nodes_kept (f : list string) (s : string) :
  respects nodes_kept (write f s).
Proof.
  intros w. unfold write.
  destruct (fs w f) as [[c|]|] eqn:Hf; try apply nodes_kept_refl.
  exact (fs_set_file_nodes_kept _ _ _ _ Hf).
Qed.

Lemma setup_leaf_nodes_kept (base : Path) (name : string) (submod : pyobj) :
  respects nodes_kept (setup_leaf base name submod).
Proof.
  unfold setup_leaf.
  apply (respects_bind _ nodes_kept_trans); [apply mkdir_nodes_kept|].
  intros _. apply (respects_bind _ nodes_kept_trans);
    [apply chdir_nodes_kept|].
  intros _. apply (respects_bind _ nodes_kept_trans).
  { intros w. apply nodes_kept_refl. }
  intros present. apply (respects_bind _ nodes_kept_trans).
  - destruct (negb present).
    + apply (respects_bind _ nodes_kept_trans); [apply open_append_nodes_kept|].
      intros f. apply (respects_for_each _ nodes_kept_refl nodes_kept_trans).
      intros line. apply write_nodes_kept.
    + apply respects_ret. exact nodes_kept_refl.
  - intros _. apply respects_ret. exact nodes_kept_refl.
Qed.

(** A relation that [mkdir] and the leaf step respect is respected by
    the whole walk over the tree. *)
Lemma help_setup_files_respects (R : world -> world -> Prop) (base : Path) :
  (forall w, R w w) ->
  (forall w1 w2 w3, R w1 w2 -> R w2 w3 -> R w1 w3) ->
  (forall d, respects R (mkdir d)) ->
  (forall name m, respects R (setup_leaf base name m)) ->
  forall modules, respects R (_help_setup_files base modules).
Proof.
  intros Hrefl Htrans Hmkdir Hleaf modules.
  induction modules as [m | items IH] using tree_items_ind.
  - cbn [_help_setup_files].
    apply (respects_bind _ Htrans); [apply Hleaf|].
    intros r. now apply respects_ret.
  - cbn [_help_setup_files].
    match goal with
    | |- respects R (?loop items []) =>
        enough (Hloop : forall result, respects R (loop items result))
          by apply Hloop
    end.
    induction items as [|[name submod] items IHitems]; intros result.
    + now apply respects_ret.
    + assert (Hitems : forall n s, In (n, s) items ->
                respects R (_help_setup_files base s))
        by (intros n s Hin; apply (IH n s); now right).
      specialize (IHitems Hitems).
      destruct submod as [m | sub].
      * apply (respects_bind _ Htrans); [apply Hleaf|].
        intros r. apply IHitems.
      * apply (respects_bind _ Htrans); [apply Hmkdir|]. intros _.
        apply (respects_bind _ Htrans).
        -- apply (IH name (Dict sub)). now left.
        -- intros r. apply IHitems.
Qed.

Lemma for_each_write_file (f : list string) (lines : list string) :
  forall c w, fs w f = Some (File c) ->
              exists c', fs (snd (for_each lines (write f) w)) f
                         = Some (File c').
Proof.
  intros c w Hf.
  destruct (respects_for_each files_extended files_extended_refl
              files_extended_trans lines (write f)
              (fun line => write_extended f line) w f c Hf) as [more Hmore].
  eexists. exact Hmore.
Qed.

(** After a leaf step that returns, the leaf's test file location
    exists. *)
Lemma setup_leaf_location_exists (base : Path) (name : string)
  (submod : pyobj) (w w' : world) (r : Path * pyobj * string) :
  absolute base = true ->
  setup_leaf base name submod w = (Ok r, w') ->
  lookup w' (parts (test_file_path base name)) <> None.
Proof.
  intros Habs. unfold setup_leaf. intros H.
  assert (Hres : forall w0, resolve w0 (test_file_path base name)
                            = parts (test_file_path base name)).
  { intros w0. unfold resolve.
    assert (Ha : absolute (test_file_path base name) = true)
      by (unfold test_file_path; now apply div_absolute, div_absolute).
    now rewrite Ha. }
  apply bind_ok in H. destruct H as (_ & w1 & _ & H).
  apply bind_ok in H. destruct H as (_ & w2 & _ & H).
  apply bind_ok in H. destruct H as (present & w3 & Hpresent & H).
  apply bind_ok in H. destruct H as (u & w4 & Hblock & H).
  unfold ret in H. inversion H; subst w'. clear H.
  unfold exists_ in Hpresent. rewrite Hres in Hpresent.
  assert (Hp : present
               = match lookup w2 (parts (test_file_path base name)) with
                 | Some _ => true
                 | None => false
                 end
               /\ w3 = w2)
    by (inversion Hpresent; split; reflexivity).
  clear Hpresent. destruct Hp as [Hp ->].
  destruct (lookup w2 (parts (test_file_path base name))) as [x|] eqn:Hl;
    subst present.
  - cbn [negb] in Hblock. cbv beta delta [ret] in Hblock.
    injection Hblock as _ Hw4. rewrite <- Hw4, Hl. discriminate.
  - cbn [negb] in Hblock.
    apply bind_ok in Hblock. destruct Hblock as (f & w5 & Hopen & Hwrite).
    destruct (open_append_handle (test_file_path base name) w2 f) as [Hf [c Hc]];
      [now rewrite Hopen|].
    rewrite Hopen in Hc. cbn [snd] in Hc. rewrite Hres in Hf. subst f.
    destruct (for_each_write_file _ (import_header name submod) c w5 Hc)
      as [c' Hc'].
    unfold writelines in Hwrite. rewrite Hwrite in Hc'. cbn [snd] in Hc'.
    unfold lookup.
    destruct (parts (test_file_path base name)); [discriminate|].
    rewrite Hc'. discriminate.
Qed.

Lemma help_setup_files_locations_exist (base : Path) (modules : tree) :
  absolute base = true ->
  forall w w' r,
    _help_setup_files base modules w = (Ok r, w') ->
    forall leaf, In leaf (leaves modules) ->
      lookup w' (parts (test_file_path base (fst leaf))) <> None.
Proof.
  intros Habs.
  assert (Hkept : forall t, respects nodes_kept (_help_setup_files base t)).
  { apply help_setup_files_respects.
    - exact nodes_kept_refl.
    - exact nodes_kept_trans.
    - apply mkdir_nodes_kept.
    - apply setup_leaf_nodes_kept. }
  induction modules as [m | items IH] using tree_items_ind; intros w w' r.
  - cbn [_help_setup_files leaves]. intros H leaf [<- | []].
    apply bind_ok in H. destruct H as (r0 & w1 & Hleaf & H).
    unfold ret in H. inversion H; subst.
    exact (setup_leaf_location_exists _ _ _ _ _ _ Habs Hleaf).
  - cbn [_help_setup_files].
    match goal with
    | |- ?loop items [] w = _ -> _ =>
        enough (Hloop : forall result w0 r0,
                  loop items result w0 = (Ok r0, w') ->
                  nodes_kept w0 w'
                  /\ forall leaf, In leaf (leaves (Dict items)) ->
                       lookup w' (parts (test_file_path base (fst leaf)))
                       <> None)
          by (intros H; exact (proj2 (Hloop [] w r H)))
    end.
    clear w r. revert IH.
    induction items as [|[name submod] items IHitems];
      intros IH result w0 r0.
    + intros H. unfold ret in H. inversion H; subst.
      split; [apply nodes_kept_refl | intros leaf []].
    + assert (Hitems : forall result' w1 r1,
                _ = (Ok r1, w') ->
                nodes_kept w1 w'
                /\ forall leaf, In leaf (leaves (Dict items)) ->
                     lookup w' (parts (test_file_path base (fst leaf)))
                     <> None)
        by (apply IHitems; intros n s Hin; apply (IH n s); now right).
      destruct submod as [m | sub].
      * intros H. apply bind_ok in H. destruct H as (e0 & w1 & Hleaf & H).
        destruct (Hitems _ _ _ H) as [Hk Hrest]. split.
        -- apply (nodes_kept_trans _ w1); [|exact Hk].
           pose proof (setup_leaf_nodes_kept base name m w0) as Hs.
           now rewrite Hleaf in Hs.
        -- cbn [leaves]. intros leaf [<- | Hin]; [|now apply Hrest].
           apply (proj1 (Hk _)).
           exact (setup_leaf_location_exists _ _ _ _ _ _ Habs Hleaf).
      * intros H. apply bind_ok in H. destruct H as (u & w1 & Hmk & H).
        apply bind_ok in H. destruct H as (sub_r & w2 & Hsub & H).
        destruct (Hitems _ _ _ H) as [Hk Hrest]. split.
        -- apply (nodes_kept_trans _ w1).
           { pose proof (mkdir_nodes_kept
                           (div base (join "/"
                                        (slice_from1 (split_on "." name))))
                           w0) as Hs.
             now rewrite Hmk in Hs. }
           apply (nodes_kept_trans _ w2); [|exact Hk].
           pose proof (Hkept (Dict sub) w1) as Hs. now rewrite Hsub in Hs.
        -- change (leaves (Dict ((name, Dict sub) :: items)))
             with (leaves (Dict sub) ++ leaves (Dict items))%list.
           intros leaf Hin. apply in_app_or in Hin.
           destruct Hin as [Hin | Hin]; [|now apply Hrest].
           apply (proj1 (Hk _)).
           exact (IH name (Dict sub) (or_introl eq_refl) _ _ _ Hsub leaf Hin).
Qed.

(** X17: when the materializer returns for an absolute output directory,
    that directory is there, and so is the test file location of every
    leaf of the tree. *)
Theorem setup_files_makes_the_locations (path : string) (modules : tree)
  (w w' : world) (r : list (Path * pyobj * string)) :
  absolute (of_string path) = true ->
  setup_files path modules w = (Ok r, w') ->
  lookup w' (parts (of_string path)) = Some Directory
  /\ forall name m, In (name, m) (leaves modules) ->
       lookup w' (parts (test_file_path (of_string path) name)) <> None.
Proof.
  intros Habs H. unfold setup_files in H.
  apply bind_ok in H. destruct H as ([] & w1 & Hmk & H).
  split.
  - pose proof (mkdir_makes_directory _ _ _ Hmk) as Hdir.
    unfold resolve in Hdir. rewrite Habs in Hdir.
    assert (Hkept : nodes_kept w1 w').
    { pose proof (help_setup_files_respects nodes_kept (of_string path)
                    nodes_kept_refl nodes_kept_trans mkdir_nodes_kept
                    (setup_leaf_nodes_kept (of_string path)) modules w1)
        as Hs.
      now rewrite H in Hs. }
    exact (proj2 (Hkept _) Hdir).
  - intros name m Hin.
    exact (help_setup_files_locations_exist _ _ Habs _ _ _ H (name, m) Hin).
Qed.

Lemma setup_files_makes_the_locations_witness :
  absolute (of_string "/proj/tests") = true
  /\ lookup (snd (setup_files "/proj/tests"
                    (Dict [("root.pkg",
                            Dict [("root.pkg.sub", Leaf Scenario.nested_sub)])])
                    Scenario.proj))
            ["proj"; "tests"]
     = Some Directory.
Proof.
  split; [reflexivity|].
  destruct (setup_files "/proj/tests"
              (Dict [("root.pkg",
                      Dict [("root.pkg.sub", Leaf Scenario.nested_sub)])])
              Scenario.proj) as [[r|e] w'] eqn:Hrun.
  - destruct (setup_files_makes_the_locations "/proj/tests" _ _ _ _
                eq_refl Hrun) as [Hdir _].
    exact Hdir.
  - vm_compute in Hrun. discriminate Hrun.
Defined.

(** ** Where a run stops *)

(** X18: with two arguments, a root module that cannot be imported, or a
    tree that cannot be built, ends the program with that exception
    before anything is done: no usage banner is printed, no directory or
    file is made, the working directory stays. *)
Theorem main_stops_before_any_change
  (loader : world -> string -> result pyobj) (recursion_limit : nat)
  (argv : list string) (w : world) (e : exn) :
  length argv = 3 ->
  fst (import_module loader (nth 1 argv "") w) = Raise e
  \/ (exists m, fst (import_module loader (nth 1 argv "") w) = Ok m
                /\ get_submodule_tree recursion_limit m None = Raise e) ->
  main loader recursion_limit argv w = (Raise e, w).
Proof.
  intros Hlen Hfail. unfold main. rewrite Hlen. cbn [Nat.eqb negb].
  unfold bind at 1.
  assert (Hw : snd (import_module loader (nth 1 argv "") w) = w)
    by reflexivity.
  destruct (import_module loader (nth 1 argv "") w) as [[m|e0] w0];
    cbn [fst snd] in *; subst w0.
  - destruct Hfail as [Hfail | (m' & Hm & Htree)]; [discriminate Hfail|].
    inversion Hm; subst m'.
    unfold bind, lift. now rewrite Htree.
  - destruct Hfail as [Hfail | (m' & Hm & _)]; [|discriminate Hm].
    now inversion Hfail.
Qed.

Lemma main_stops_before_any_change_witness :
  length ["testgen"; "nowhere"; "tests"] = 3
  /\ main Scenario.nested_loader 100 ["testgen"; "nowhere"; "tests"]
          Scenario.proj
     = (Raise ModuleNotFoundError, Scenario.proj).
Proof.
  split; [reflexivity|].
  apply main_stops_before_any_change; [reflexivity|].
  left. reflexivity.
Defined.

Lemma for_each_app {A} (l1 l2 : list A) (body : A -> M unit) (w : world) :
  for_each (l1 ++ l2) body w
  = match for_each l1 body w with
    | (Ok _, w1) => for_each l2 body w1
    | (Raise e, w1) => (Raise e, w1)
    end.
Proof.
  revert w. induction l1 as [|x l1 IH]; intros w; simpl.
  - reflexivity.
  - unfold bind. destruct (body x w) as [[u|e] w1]; [apply IH | reflexivity].
Qed.

(** X19: the driver does not go past a leaf whose test module cannot be
    imported.  The leaves before it are served; the run then ends with
    the exception of the import, and neither that leaf's file nor any
    leaf after it is touched. *)
Theorem driver_stops_at_failed_import
  (loader : world -> string -> result pyobj)
  (before after : list (Path * pyobj * string))
  (path : Path) (src : pyobj) (testmod : string) (w w1 : world) (e : exn) :
  generate_tests loader before w = (Ok tt, w1) ->
  fst (import_module loader testmod w1) = Raise e ->
  generate_tests loader (before ++ (path, src, testmod) :: after) w
  = (Raise e, w1).
Proof.
  intros Hbefore Himport. unfold generate_tests in *.
  rewrite for_each_app, Hbefore. cbn [for_each].
  unfold bind at 1. unfold bind at 1.
  assert (Hw : snd (import_module loader testmod w1) = w1) by reflexivity.
  destruct (import_module loader testmod w1) as [[m|e0] w2];
    cbn [fst snd] in *; subst w2.
  - discriminate Himport.
  - now inversion Himport.
Qed.

Lemma driver_stops_at_failed_import_witness :
  generate_tests Scenario.nested_loader [] Scenario.proj
  = (Ok tt, Scenario.proj)
  /\ generate_tests Scenario.nested_loader
       ([] ++ [(of_string "tests/test_root.py", Scenario.abc_root,
                "tests..test_root");
               (of_string "tests/pkg/test_sub.py", Scenario.nested_sub,
                "tests.pkg.test_sub")])
       Scenario.proj
     = (Raise ModuleNotFoundError, Scenario.proj).
Proof.
  assert (Hbefore :
    generate_tests Scenario.nested_loader [] Scenario.proj
    = (Ok tt, Scenario.proj)) by reflexivity.
  split; [exact Hbefore|].
  apply (driver_stops_at_failed_import _ _ _ _ _ _ _ _ _ Hbefore).
  reflexivity.
Defined.

(** ** The header of a new test file *)

Lemma header_text_described (name : string) (submod : pyobj) :
  header_described name submod (header_text name submod).
Proof.
  unfold header_described. cbn zeta. split.
  - rewrite get_testables_all, map_map. reflexivity.
  - split; [|split].
    + unfold header_text, import_header. cbn [String.concat].
      destruct (nonempty (join "," (map __name__ (get_testables submod None))));
        reflexivity.
    + intros Hnone. unfold header_text, import_header.
      rewrite Hnone. reflexivity.
    + apply header_names_distinct.
Qed.

Lemma prefixes_length (l p : list string) :
  In p (prefixes l) -> length p <= length l.
Proof.
  revert p. induction l as [|x l IH]; intros p; simpl; [tauto|].
  intros [<- | Hin].
  - simpl. lia.
  - apply in_map_iff in Hin. destruct Hin as (r & <- & Hr).
    simpl. apply IH in Hr. lia.
Qed.

Lemma removelast_shorter {A} (l : list A) :
  l <> [] -> length (removelast l) < length l.
Proof.
  induction l as [|x l IH]; intros Hne; [now elim Hne|].
  destruct l as [|y l]; [simpl; lia|].
  change (removelast (x :: y :: l)) with (x :: removelast (y :: l)).
  cbn [length]. assert (y :: l <> []) by discriminate.
  specialize (IH H). cbn [length] in IH. lia.
Qed.

Lemma split_on_head (c a : ascii) (s : string) :
  Ascii.eqb a c = false ->
  exists h rest, split_on c (String a s) = String a h :: rest.
Proof.
  intros Hac. cbn [split_on]. rewrite Hac.
  destruct (split_on c s) as [|w ws]; eexists; eexists; reflexivity.
Qed.

Lemma test_file_path_parts (base : Path) (name : string) :
  parts (test_file_path base name) <> [].
Proof.
  unfold test_file_path, test_file_name.
  set (mid := div base _). set (l := last_item _).
  unfold div.
  change (String.prefix "/" ("test_" ++ l ++ ".py")) with false.
  cbn [parts]. unfold parts_of.
  destruct (split_on_head "/" "t" ("est_" ++ l ++ ".py") eq_refl)
    as (h & rest & Hsplit).
  change ("test_" ++ l ++ ".py") with (String "t" ("est_" ++ l ++ ".py")).
  rewrite Hsplit. cbn [filter nonempty andb negb String.eqb Ascii.eqb].
  intros Hnil. apply app_eq_nil in Hnil. destruct Hnil as [_ Hnil].
  revert Hnil.
  change (String.eqb (String "t" h) ".") with false.
  discriminate.
Qed.

Lemma fold_fs_set_cwd (ps : list (list string)) (x : node) (w : world) :
  cwd (fold_left (fun w' q => fs_set q x w') ps w) = cwd w.
Proof.
  revert w. induction ps as [|q ps IH]; intros w; simpl; [reflexivity|].
  now rewrite IH.
Qed.

Lemma mkdir_cwd (d : Path) (w : world) : cwd (snd (mkdir d w)) = cwd w.
Proof.
  unfold mkdir. destruct (existsb _ _); cbn [snd]; [reflexivity|].
  apply fold_fs_set_cwd.
Qed.

(** What [mkdir] makes of a location: a directory when it is the new
    directory or an ancestor of it, and what it was otherwise. *)
Lemma mkdir_lookup (d : Path) (w : world) (p : list string) :
  lookup (snd (mkdir d w)) p = lookup w p
  \/ (lookup (snd (mkdir d w)) p = Some Directory
      /\ In p (prefixes (resolve w d))).
Proof.
  unfold mkdir. destruct (existsb (is_file w) _); cbn [snd]; [now left|].
  destruct p as [|x p]; [now left|]. unfold lookup.
  rewrite fold_fs_set_directory.
  destruct (existsb (fun q => path_eqb q (x :: p)) (prefixes (resolve w d)))
    eqn:Hin; [|now left].
  right. split; [reflexivity|].
  apply existsb_exists in Hin. destruct Hin as (q & Hq & Heq).
  apply path_eqb_eq in Heq. now subst q.
Qed.

Lemma resolve_same_cwd (w w' : world) (p : Path) :
  cwd w' = cwd w -> resolve w' p = resolve w p.
Proof. intros H. unfold resolve. now rewrite H. Qed.

Lemma resolve_absolute (w : world) (p : Path) :
  absolute p = true -> resolve w p = parts p.
Proof. intros H. unfold resolve. now rewrite H. Qed.

Lemma test_file_path_relative (base : Path) (name : string) :
  absolute (test_file_path base name) = false -> absolute base = false.
Proof.
  intros H. destruct (absolute base) eqn:Hb; [|reflexivity].
  unfold test_file_path in H.
  rewrite (div_absolute _ _ (div_absolute _ _ Hb)) in H. discriminate H.
Qed.

(** The guarded creation of [setup_leaf], exactly: the world is left as
    it is, or the location was absent and now holds the two lines. *)
Lemma create_block {A} (fp : Path) (l1 l2 : string) (x : A) (w : world) :
  let run :=
    (present <- exists_ fp ;;
     (if negb present then
        f <- open_append fp ;; writelines f [l1; l2]
      else ret tt) ;;
     ret x) w in
  let q := resolve w fp in
  (snd run = w /\ (lookup w q = None -> exists e, fst run = Raise e))
  \/ (lookup w q = None
      /\ run = (Ok x, fs_set q (File (l1 ++ l2))
                        (fs_set q (File l1) (fs_set q (File "") w)))).
Proof.
  cbv zeta. unfold bind, exists_.
  destruct (lookup w (resolve w fp)) as [y|] eqn:Hl;
    cbv beta iota delta [negb fst snd ret].
  - left. split; [reflexivity | discriminate].
  - unfold open_append. rewrite Hl.
    destruct (is_dir w (removelast (resolve w fp)));
      cbv beta iota delta [fst snd].
    + right. split; [reflexivity|].
      rewrite writelines_two_new
        by (rewrite fs_set_fs, path_eqb_refl; reflexivity).
      reflexivity.
    + left. split; [reflexivity|]. intros _. now exists OSError.
Qed.

(** The leaf step, from the state in which the materializer reaches the
    leaf: when it returns and nothing was at the leaf's test file, that
    location now holds the header of this leaf. *)
Lemma setup_leaf_creates (base : Path) (name : string) (submod : pyobj)
  (w w' : world) (r : Path * pyobj * string) :
  setup_leaf base name submod w = (Ok r, w') ->
  lookup w (resolve w' (test_file_path base name)) = None ->
  fs w' (resolve w' (test_file_path base name))
  = Some (File (header_text name submod)).
Proof.
  unfold setup_leaf. intros H.
  set (fp := test_file_path base name) in *.
  apply bind_ok in H. destruct H as (u1 & w1 & Hmk & H).
  apply bind_ok in H. destruct H as (u2 & w2 & Hcd & H).
  destruct (header_text_lines name submod) as (l1 & l2 & Hlines & Htext).
  rewrite Hlines in H.
  assert (Hcwd1 : cwd w1 = cwd w).
  { pose proof (mkdir_cwd (parent fp) w) as Hc. now rewrite Hmk in Hc. }
  assert (Hcwd2 : cwd w2 = resolve w1 (parent base)).
  { unfold chdir in Hcd. destruct (is_dir w1 (resolve w1 (parent base)));
      inversion Hcd. reflexivity. }
  assert (Hfs2 : fs w2 = fs w1).
  { pose proof (chdir_fs (parent base) w1) as Hc. now rewrite Hcd in Hc. }
  destruct (create_block fp l1 l2 (fp, submod, test_module_name base name) w2)
    as [[Hsame Hraise] | [Habsent Hrun]].
  - (* nothing was created: the location was there after mkdir *)
    cbn zeta in Hsame, Hraise. rewrite H in Hsame, Hraise.
    cbn [fst snd] in Hsame, Hraise. subst w'.
    intros Hnone. exfalso.
    assert (Hl2 : lookup w2 (resolve w2 fp) <> None).
    { intros Hq. destruct (Hraise Hq) as [e He]. discriminate He. }
    apply Hl2.
    assert (Hl21 : lookup w2 (resolve w2 fp) = lookup w1 (resolve w2 fp))
      by (unfold lookup; now rewrite Hfs2).
    rewrite Hl21.
    pose proof (mkdir_lookup (parent fp) w (resolve w2 fp)) as Hmkl.
    rewrite Hmk in Hmkl. cbn [snd] in Hmkl.
    destruct Hmkl as [Heq | [_ Hin]]; [now rewrite Heq|].
    exfalso. apply prefixes_length in Hin.
    pose proof (removelast_shorter _ (test_file_path_parts base name))
      as Hshort. fold fp in Hshort.
    unfold resolve in Hin. cbn [parent absolute parts] in Hin.
    destruct (absolute fp) eqn:Hfp.
    + lia.
    + pose proof (test_file_path_relative _ _ Hfp) as Hb.
      rewrite Hcwd2 in Hin. unfold resolve in Hin.
      cbn [parent absolute parts] in Hin. rewrite Hb, Hcwd1 in Hin.
      rewrite !List.length_app in Hin. lia.
  - cbn zeta in Hrun. rewrite H in Hrun. inversion Hrun; subst w'.
    intros _.
    assert (Hres : resolve
                     (fs_set (resolve w2 fp) (File (l1 ++ l2))
                        (fs_set (resolve w2 fp) (File l1)
                           (fs_set (resolve w2 fp) (File "") w2))) fp
                   = resolve w2 fp) by reflexivity.
    rewrite Hres, fs_set_fs, path_eqb_refl, Htext. reflexivity.
Qed.

(** A leaf step that returns leaves the interpreter in the parent of the
    output directory, as found from where the step started. *)
Lemma setup_leaf_cwd (base : Path) (name : string) (submod : pyobj)
  (w w' : world) (r : Path * pyobj * string) :
  setup_leaf base name submod w = (Ok r, w') ->
  cwd w' = resolve w (parent base).
Proof.
  unfold setup_leaf. intros H.
  apply bind_ok in H. destruct H as (u1 & w1 & Hmk & H).
  apply bind_ok in H. destruct H as (u2 & w2 & Hcd & H).
  destruct (header_text_lines name submod) as (l1 & l2 & Hlines & _).
  rewrite Hlines in H.
  assert (Hcwd1 : cwd w1 = cwd w).
  { pose proof (mkdir_cwd (parent (test_file_path base name)) w) as Hc.
    now rewrite Hmk in Hc. }
  assert (Hcwd2 : cwd w2 = resolve w1 (parent base)).
  { unfold chdir in Hcd. destruct (is_dir w1 (resolve w1 (parent base)));
      inversion Hcd. reflexivity. }
  rewrite (resolve_same_cwd _ _ _ Hcwd1) in Hcwd2. rewrite <- Hcwd2.
  destruct (create_block (test_file_path base name) l1 l2
              (test_file_path base name, submod, test_module_name base name)
              w2)
    as [[Hsame _] | [_ Hrun]]; cbv zeta in *.
  - rewrite H in Hsame. cbn [snd] in Hsame. now subst w'.
  - rewrite H in Hrun. inversion Hrun. reflexivity.
Qed.

(** Where a leaf's test file is looked for once the step has moved to
    the parent of a steady output directory: where it is found from the
    start. *)
Lemma steady_location (base : Path) (name : string) (w w' : world) :
  steady base ->
  cwd w' = resolve w (parent base) ->
  resolve w' (test_file_path base name)
  = resolve w (test_file_path base name).
Proof.
  intros Hsteady Hcwd. unfold resolve in *.
  destruct (absolute (test_file_path base name)) eqn:Hfp; [reflexivity|].
  pose proof (test_file_path_relative _ _ Hfp) as Hb.
  cbn [parent absolute parts] in Hcwd. rewrite Hb in Hcwd.
  destruct Hsteady as [Habs | Hone]; [congruence|].
  rewrite Hone, app_nil_r in Hcwd. now rewrite Hcwd.
Qed.

(** The leaf step returns, and makes the header, when nothing stands in
    its way: no file sits where a directory is needed, the parent of the
    output directory is a directory, and nothing is at the leaf's test
    file. *)
Lemma setup_leaf_returns (base : Path) (name : string) (submod : pyobj)
  (w : world) :
  steady base ->
  existsb (is_file w)
          (prefixes (resolve w (parent (test_file_path base name)))) = false ->
  is_dir w (resolve w (parent base)) = true ->
  lookup w (resolve w (test_file_path base name)) = None ->
  exists r w',
    setup_leaf base name submod w = (Ok r, w')
    /\ fs w' (resolve w (test_file_path base name))
       = Some (File (header_text name submod)).
Proof.
  intros Hsteady Hnofile Hparent Habsent.
  set (fp := test_file_path base name) in *.
  set (q := resolve w fp) in *.
  assert (Hparts : parts fp <> []) by apply test_file_path_parts.
  assert (Hqparent : removelast q = resolve w (parent fp)).
  { unfold q, resolve. cbn [parent absolute parts].
    destruct (absolute fp); [reflexivity|]. now apply removelast_app. }
  destruct (setup_leaf base name submod w) as [[r | e] w'] eqn:Hrun.
  - exists r, w'. split; [reflexivity|].
    pose proof (steady_location base name w w' Hsteady
                  (setup_leaf_cwd _ _ _ _ _ _ Hrun)) as Hloc.
    fold fp in Hloc. fold q in Hloc. rewrite <- Hloc.
    apply (setup_leaf_creates _ _ _ _ _ _ Hrun).
    fold fp. now rewrite Hloc.
  - exfalso.
    destruct (mkdir (parent fp) w) as [res1 w1] eqn:Hmk.
    assert (Hres1 : res1 = Ok tt).
    { unfold mkdir in Hmk. rewrite Hnofile in Hmk. now inversion Hmk. }
    subst res1.
    assert (Hcwd1 : cwd w1 = cwd w).
    { pose proof (mkdir_cwd (parent fp) w) as Hc. now rewrite Hmk in Hc. }
    assert (Hkept1 : nodes_kept w w1).
    { pose proof (mkdir_nodes_kept (parent fp) w) as Hk.
      now rewrite Hmk in Hk. }
    pose proof (mkdir_makes_directory _ _ _ Hmk) as Hdir1.
    assert (Habsent1 : lookup w1 q = None).
    { pose proof (mkdir_lookup (parent fp) w q) as Hl.
      rewrite Hmk in Hl. cbn [snd] in Hl.
      destruct Hl as [Heq | [_ Hin]]; [now rewrite Heq|].
      exfalso. apply prefixes_length in Hin.
      pose proof (removelast_shorter _ Hparts) as Hshort.
      unfold q, resolve in Hin. cbn [parent absolute parts] in Hin.
      destruct (absolute fp); [lia|].
      rewrite !List.length_app in Hin. lia. }
    assert (Hparent1 : is_dir w1 (resolve w1 (parent base)) = true).
    { rewrite (resolve_same_cwd _ _ _ Hcwd1). unfold is_dir in *.
      destruct (lookup w (resolve w (parent base))) as [[c|]|] eqn:Hl;
        try discriminate Hparent.
      now rewrite (proj2 (Hkept1 _) Hl). }
    set (w2 := World (resolve w1 (parent base)) (fs w1) (stdout w1)).
    assert (Hcd : chdir (parent base) w1 = (Ok tt, w2)).
    { unfold chdir. now rewrite Hparent1. }
    assert (Hloc2 : resolve w2 fp = q).
    { apply (steady_location base name w w2 Hsteady). cbn [w2 cwd].
      apply resolve_same_cwd. exact Hcwd1. }
    assert (Hsame2 : forall p, lookup w2 p = lookup w1 p) by reflexivity.
    unfold setup_leaf in Hrun. fold fp in Hrun.
    destruct (header_text_lines name submod) as (l1 & l2 & Hlines & _).
    rewrite Hlines in Hrun.
    unfold bind at 1 in Hrun. rewrite Hmk in Hrun.
    unfold bind at 1 in Hrun. rewrite Hcd in Hrun.
    destruct (create_block fp l1 l2 (fp, submod, test_module_name base name)
                w2) as [[_ Hraise] | [_ Hok]]; cbv zeta in *.
    + rewrite Hloc2, Hsame2 in Hraise.
      unfold bind at 1 in Hraise. unfold exists_ at 1 in Hraise.
      rewrite Hloc2, Hsame2, Habsent1 in Hraise.
      cbv beta iota delta [negb] in Hraise.
      unfold bind at 1 2 in Hraise. unfold open_append in Hraise.
      rewrite Hloc2, Hsame2, Habsent1 in Hraise.
      assert (Hdir2 : is_dir w2 (removelast q) = true).
      { unfold is_dir. rewrite Hsame2, Hqparent, Hdir1. reflexivity. }
      rewrite Hdir2 in Hraise.
      rewrite writelines_two_new in Hraise
        by (rewrite fs_set_fs, path_eqb_refl; reflexivity).
      destruct (Hraise eq_refl) as [e' He']. discriminate He'.
    + rewrite Hok in Hrun. discriminate Hrun.
Qed.

Section LaidOut.

Variable base : Path.
Variable L : list (string * pyobj).
Variable D : list Path.
Hypothesis base_steady : steady base.
Hypothesis D_relative :
  forall d, In d D -> absolute d = false -> absolute base = false.

Lemma laid_out_refl (w : world) : laid_out base L D w w.
Proof.
  split; [apply files_kept_refl|]. split; [reflexivity|].
  split; intros; now left.
Qed.

Lemma laid_out_trans (w1 w2 w3 : world) :
  laid_out base L D w1 w2 -> laid_out base L D w2 w3 ->
  laid_out base L D w1 w3.
Proof.
  intros (Hk12 & Hc12 & Hf12 & Hd12) (Hk23 & Hc23 & Hf23 & Hd23).
  split; [exact (files_kept_trans _ _ _ Hk12 Hk23)|].
  split; [intros Hb; now rewrite Hc23, Hc12|].
  split.
  - intros p c Hp.
    destruct (Hf23 p c Hp) as [Hold | (name & m & Hin & Hc & Hwhere)].
    + exact (Hf12 p c Hold).
    + right. exists name, m. split; [exact Hin|]. split; [exact Hc|].
      rewrite Hwhere. unfold resolve.
      destruct (absolute (test_file_path base name)) eqn:Hfp; [reflexivity|].
      now rewrite (Hc12 (test_file_path_relative _ _ Hfp)).
  - intros p Hp.
    destruct (Hd23 p Hp) as [Hold | (d & Hin & Hpre)].
    + exact (Hd12 p Hold).
    + right. exists d. split; [exact Hin|].
      unfold resolve in *. destruct (absolute d) eqn:Hd; [exact Hpre|].
      now rewrite <- (Hc12 (D_relative d Hin Hd)).
Qed.

Lemma mkdir_laid_out (d : Path) :
  In d D -> respects (laid_out base L D) (mkdir d).
Proof.
  intros Hin w. split; [|split; [|split]].
  - intros p c Hp. now apply mkdir_files.
  - intros _. apply mkdir_cwd.
  - intros p c Hp. left. now apply mkdir_files in Hp.
  - intros p Hp. destruct (mkdir_lookup d w p) as [Heq | [_ Hpre]].
    + left. now rewrite <- Heq.
    + right. now exists d.
Qed.

Lemma chdir_laid_out : respects (laid_out base L D) (chdir (parent base)).
Proof.
  intros w. unfold chdir.
  destruct (is_dir w (resolve w (parent base))); cbn [snd];
    [|apply laid_out_refl].
  split; [intros p c Hp; exact Hp|]. split.
  - intros Hb. cbn [cwd]. unfold resolve. cbn [parent absolute parts].
    rewrite Hb. destruct base_steady as [Habs | Hone].
    + rewrite Habs in Hb. discriminate Hb.
    + rewrite Hone. apply app_nil_r.
  - split; intros; now left.
Qed.

Lemma create_laid_out {A} (name : string) (submod : pyobj) (x : A) :
  In (name, submod) L ->
  respects (laid_out base L D)
    (present <- exists_ (test_file_path base name) ;;
     (if negb present then
        f <- open_append (test_file_path base name) ;;
        writelines f (import_header name submod)
      else ret tt) ;;
     ret x).
Proof.
  intros Hin w.
  destruct (header_text_lines name submod) as (l1 & l2 & Hlines & Htext).
  rewrite Hlines.
  destruct (create_block (test_file_path base name) l1 l2 x w)
    as [[Hsame _] | [Habsent Hrun]]; cbv zeta in *.
  - rewrite Hsame. apply laid_out_refl.
  - rewrite Hrun. cbn [snd].
    set (q := resolve w (test_file_path base name)) in *.
    assert (Hnone : fs w q = None).
    { unfold lookup in Habsent. destruct q; [discriminate Habsent|].
      exact Habsent. }
    split; [|split; [|split]].
    + intros p c Hp. rewrite !fs_set_fs.
      destruct (path_eqb q p) eqn:Heq; [|exact Hp].
      apply path_eqb_eq in Heq. subst p. rewrite Hp in Hnone.
      discriminate Hnone.
    + reflexivity.
    + intros p c Hp. rewrite !fs_set_fs in Hp.
      destruct (path_eqb q p) eqn:Heq; [|now left].
      right. apply path_eqb_eq in Heq. inversion Hp.
      exists name, submod. split; [exact Hin|]. split; [now symmetry|].
      now symmetry.
    + intros p Hp. left. destruct p as [|y p]; [reflexivity|].
      unfold lookup in *. rewrite !fs_set_fs in Hp.
      destruct (path_eqb q (y :: p)); [discriminate Hp | exact Hp].
Qed.

Lemma setup_leaf_laid_out (name : string) (submod : pyobj) :
  In (name, submod) L ->
  In (parent (test_file_path base name)) D ->
  respects (laid_out base L D) (setup_leaf base name submod).
Proof.
  intros HL HD. unfold setup_leaf.
  apply (respects_bind _ laid_out_trans); [now apply mkdir_laid_out|].
  intros _.
  apply (respects_bind _ laid_out_trans); [apply chdir_laid_out|].
  intros _. now apply create_laid_out.
Qed.

Lemma help_setup_files_laid_out (modules : tree) :
  incl (leaves modules) L ->
  incl (made_dirs base modules) D ->
  respects (laid_out base L D) (_help_setup_files base modules).
Proof.
  induction modules as [m | items IH] using tree_items_ind; intros HL HD.
  - cbn [_help_setup_files].
    apply (respects_bind _ laid_out_trans).
    + apply setup_leaf_laid_out; [apply HL | apply HD]; now left.
    + intros r. apply respects_ret. exact laid_out_refl.
  - cbn [_help_setup_files]. cbn [leaves] in HL. cbn [made_dirs] in HD.
    match goal with
    | |- respects ?R (?loop items []) =>
        enough (Hloop : forall result, respects R (loop items result))
          by apply Hloop
    end.
    induction items as [|[name submod] items IHitems]; intros result.
    + apply respects_ret. exact laid_out_refl.
    + assert (Hitems : forall n s, In (n, s) items ->
                incl (leaves s) L -> incl (made_dirs base s) D ->
                respects (laid_out base L D) (_help_setup_files base s)).
      { intros n s Hin. apply (IH n s). now right. }
      assert (HwalkL : incl (leaves (Dict items)) L).
      { intros x Hx. apply HL. cbn [leaves] in Hx.
        destruct submod; [now right | apply in_or_app; now right]. }
      assert (HwalkD : incl (made_dirs base (Dict items)) D).
      { intros x Hx. apply HD. cbn [made_dirs] in Hx.
        destruct submod; [now right | right; apply in_or_app; now right]. }
      specialize (IHitems Hitems HwalkL HwalkD).
      destruct submod as [m | sub].
      * apply (respects_bind _ laid_out_trans).
        -- apply setup_leaf_laid_out; [apply HL | apply HD]; now left.
        -- intros r. apply IHitems.
      * apply (respects_bind _ laid_out_trans).
        { apply mkdir_laid_out. apply HD. now left. }
        intros _.
        apply (respects_bind _ laid_out_trans).
        -- apply (IH name (Dict sub)); [now left | |].
           ++ intros x Hx. apply HL. apply in_or_app. now left.
           ++ intros x Hx. apply HD. right. apply in_or_app. now left.
        -- intros r. apply IHitems.
Qed.

(** Every leaf of the tree is served by the leaf step, in a world laid
    out from the initial one, and the files it leaves are kept to the
    end. *)
Lemma help_setup_files_serves (modules : tree) :
  incl (leaves modules) L ->
  incl (made_dirs base modules) D ->
  forall w w' r,
    _help_setup_files base modules w = (Ok r, w') ->
    forall name submod, In (name, submod) (leaves modules) ->
      exists w_reach w_done e,
        laid_out base L D w w_reach
        /\ setup_leaf base name submod w_reach = (Ok e, w_done)
        /\ files_kept w_done w'.
Proof.
  assert (Hkept : forall t, respects files_kept (_help_setup_files base t)).
  { intros t. apply (respects_weaken (materialized (fresh_header base (leaves t)))).
    - intros w1 w2 [Hk _]. exact Hk.
    - apply help_setup_files_materialized. apply incl_refl. }
  induction modules as [m | items IH] using tree_items_ind;
    intros HL HD w w' r.
  - cbn [_help_setup_files leaves]. intros H name submod [Heq | []].
    inversion Heq; subst name submod. clear Heq.
    apply bind_ok in H. destruct H as (r0 & w1 & Hleaf & H).
    unfold ret in H. inversion H; subst.
    exists w, w', r0. split; [apply laid_out_refl|].
    split; [exact Hleaf | apply files_kept_refl].
  - cbn [_help_setup_files]. cbn [leaves] in HL. cbn [made_dirs] in HD.
    match goal with
    | |- ?loop items [] w = _ -> _ =>
        enough (Hloop : forall result w0 r0,
                  loop items result w0 = (Ok r0, w') ->
                  files_kept w0 w'
                  /\ forall name submod,
                       In (name, submod) (leaves (Dict items)) ->
                       exists w_reach w_done e,
                         laid_out base L D w0 w_reach
                         /\ setup_leaf base name submod w_reach
                            = (Ok e, w_done)
                         /\ files_kept w_done w')
          by (intros H; exact (proj2 (Hloop [] w r H)))
    end.
    clear w r. revert IH HL HD.
    induction items as [|[name submod] items IHitems];
      intros IH HL HD result w0 r0.
    + intros H. unfold ret in H. inversion H; subst.
      split; [apply files_kept_refl | intros n s []].
    + assert (HwalkL : incl (leaves (Dict items)) L).
      { intros x Hx. apply HL. cbn [leaves] in Hx.
        destruct submod; [now right | apply in_or_app; now right]. }
      assert (HwalkD : incl (made_dirs base (Dict items)) D).
      { intros x Hx. apply HD. cbn [made_dirs] in Hx.
        destruct submod; [now right | right; apply in_or_app; now right]. }
      assert (Hitems : forall result' w1 r1,
                _ = (Ok r1, w') ->
                files_kept w1 w'
                /\ forall name submod,
                     In (name, submod) (leaves (Dict items)) ->
                     exists w_reach w_done e,
                       laid_out base L D w1 w_reach
                       /\ setup_leaf base name submod w_reach
                          = (Ok e, w_done)
                       /\ files_kept w_done w')
        by (apply IHitems; [intros n s Hin; apply (IH n s); now right
                           | exact HwalkL | exact HwalkD]).
      destruct submod as [m | sub].
      * intros H. apply bind_ok in H. destruct H as (e0 & w1 & Hleaf & H).
        destruct (Hitems _ _ _ H) as [Hk Hrest].
        assert (Hstep : laid_out base L D w0 w1).
        { pose proof (setup_leaf_laid_out name m) as Hs.
          specialize (Hs (HL _ (or_introl eq_refl))
                         (HD _ (or_introl eq_refl)) w0).
          now rewrite Hleaf in Hs. }
        split.
        -- apply (files_kept_trans _ w1); [exact (proj1 Hstep) | exact Hk].
        -- cbn [leaves]. intros n s [Heq | Hin].
           ++ inversion Heq; subst n s.
              exists w0, w1, e0. split; [apply laid_out_refl|].
              split; [exact Hleaf | exact Hk].
           ++ destruct (Hrest n s Hin) as (wr & wd & e & Hlaid & Hrun & Hkd).
              exists wr, wd, e. split; [|split; assumption].
              exact (laid_out_trans _ _ _ Hstep Hlaid).
      * intros H. apply bind_ok in H. destruct H as (u & w1 & Hmk & H).
        apply bind_ok in H. destruct H as (sub_r & w2 & Hsub & H).
        destruct (Hitems _ _ _ H) as [Hk Hrest].
        assert (HsubL : incl (leaves (Dict sub)) L).
        { intros x Hx. apply HL. apply in_or_app. now left. }
        assert (HsubD : incl (made_dirs base (Dict sub)) D).
        { intros x Hx. apply HD. right. apply in_or_app. now left. }
        assert (Hstep1 : laid_out base L D w0 w1).
        { pose proof (mkdir_laid_out _ (HD _ (or_introl eq_refl)) w0) as Hs.
          now rewrite Hmk in Hs. }
        assert (Hstep2 : laid_out base L D w1 w2).
        { pose proof (help_setup_files_laid_out (Dict sub) HsubL HsubD w1)
            as Hs.
          now rewrite Hsub in Hs. }
        split.
        -- apply (files_kept_trans _ w1); [exact (proj1 Hstep1)|].
           apply (files_kept_trans _ w2); [exact (proj1 Hstep2) | exact Hk].
        -- change (leaves (Dict ((name, Dict sub) :: items)))
             with (leaves (Dict sub) ++ leaves (Dict items))%list.
           intros n s Hin. apply in_app_or in Hin.
           destruct Hin as [Hin | Hin].
           ++ destruct (IH name (Dict sub) (or_introl eq_refl) HsubL HsubD
                          _ _ _ Hsub n s Hin)
                as (wr & wd & e & Hlaid & Hrun & Hkd).
              exists wr, wd, e. split; [|split].
              ** exact (laid_out_trans _ _ _ Hstep1 Hlaid).
              ** exact Hrun.
              ** exact (files_kept_trans _ _ _ Hkd Hk).
           ++ destruct (Hrest n s Hin) as (wr & wd & e & Hlaid & Hrun & Hkd).
              exists wr, wd, e. split; [|split; assumption].
              exact (laid_out_trans _ _ _
                       (laid_out_trans _ _ _ Hstep1 Hstep2) Hlaid).
Qed.

End LaidOut.

Lemma div_relative (p : Path) (s : string) :
  absolute (div p s) = false -> absolute p = false.
Proof.
  intros H. destruct (absolute p) eqn:Hp; [|reflexivity].
  now rewrite (div_absolute _ _ Hp) in H.
Qed.

Lemma made_dirs_relative (base : Path) (modules : tree) :
  forall d, In d (made_dirs base modules) ->
            absolute d = false -> absolute base = false.
Proof.
  induction modules as [m | items IH] using tree_items_ind; intros d.
  - cbn [made_dirs]. intros [<- | []]. cbn [parent absolute].
    apply test_file_path_relative.
  - cbn [made_dirs].
    induction items as [|[name submod] items IHitems]; [intros []|].
    assert (Hrest : In d (made_dirs base (Dict items)) ->
                    absolute d = false -> absolute base = false).
    { apply IHitems. intros n s Hin. apply (IH n s). now right. }
    destruct submod as [m | sub].
    + intros [<- | Hin]; [|now apply Hrest].
      cbn [parent absolute]. apply test_file_path_relative.
    + intros [<- | Hin]; [apply div_relative|].
      apply in_app_or in Hin. destruct Hin as [Hin | Hin].
      * exact (IH name (Dict sub) (or_introl eq_refl) d Hin).
      * now apply Hrest.
Qed.

Lemma setup_files_laid_out (path : string) (modules : tree) :
  steady (of_string path) ->
  respects (laid_out (of_string path) (leaves modules)
              (of_string path :: made_dirs (of_string path) modules))
           (setup_files path modules).
Proof.
  intros Hsteady.
  assert (HD : forall d,
             In d (of_string path :: made_dirs (of_string path) modules) ->
             absolute d = false -> absolute (of_string path) = false).
  { intros d [<- | Hin]; [auto|]. exact (made_dirs_relative _ _ d Hin). }
  unfold setup_files.
  apply (respects_bind _ (laid_out_trans _ _ _ HD)).
  - apply mkdir_laid_out. now left.
  - intros _. apply help_setup_files_laid_out.
    + exact Hsteady.
    + exact HD.
    + apply incl_refl.
    + intros x Hx. now right.
Qed.

(** C5 (amended): a leaf whose test file is not there gets a file that
    holds the header of that very leaf.

    First, for the leaf step on any output directory, absolute or
    relative: when the step returns it has moved to the parent of the
    output directory, and if nothing was at the leaf's test file (as
    resolved from there) when the materializer reached the leaf, that
    location afterwards holds a file with the header described below.

    Second, on an output directory that is absolute or a single relative
    component (as in [testgen root tests]), the leaf step does return and
    make that file when nothing stands in its way: no file sits where it
    needs a directory, the parent of the output directory is a directory,
    and nothing is at the leaf's test file.

    Third, for a run of the materializer over a tree that returns, on
    such an output directory: a leaf whose test file was not there at the
    start has, at the end, a file there with its header, provided no leaf
    with another header and no directory the walk makes is mapped to the
    same location.

    Fourth, conversely, whether the run returns or raises: a file that was
    not there at the start and is there at the end holds the header of a
    leaf of the tree and, on such an output directory, sits at that
    leaf's test file.

    The header: its first line imports the [__name__] of every testable
    binding of the leaf, one entry per binding in the extractor's
    attribute-name order, or is a bare import of the leaf when the list
    of names is empty; its second line is [import pytest].  No name is
    repeated when every testable attribute is bound under its own
    [__name__]. *)
Theorem fresh_file_import_header
  (path : string) (modules : tree) (w : world) :
  let base := of_string path in
  let w' := snd (setup_files path modules w) in
  (forall name submod w0 w1 r,
     setup_leaf base name submod w0 = (Ok r, w1) ->
     cwd w1 = resolve w0 (parent base)
     /\ (lookup w0 (resolve w1 (test_file_path base name)) = None ->
         exists c,
           fs w1 (resolve w1 (test_file_path base name)) = Some (File c)
           /\ header_described name submod c))
  /\ (forall name submod w0,
        steady base ->
        existsb (is_file w0)
          (prefixes (resolve w0 (parent (test_file_path base name))))
        = false ->
        is_dir w0 (resolve w0 (parent base)) = true ->
        lookup w0 (resolve w0 (test_file_path base name)) = None ->
        exists r w1 c,
          setup_leaf base name submod w0 = (Ok r, w1)
          /\ fs w1 (resolve w0 (test_file_path base name)) = Some (File c)
          /\ header_described name submod c)
  /\ (forall r name submod,
        fst (setup_files path modules w) = Ok r ->
        steady base ->
        In (name, submod) (leaves modules) ->
        let q := resolve w (test_file_path base name) in
        lookup w q = None ->
        (forall name' submod',
           In (name', submod') (leaves modules) ->
           resolve w (test_file_path base name') = q ->
           header_text name' submod' = header_text name submod) ->
        (forall d, In d (base :: made_dirs base modules) ->
                   ~ In q (prefixes (resolve w d))) ->
        exists c, fs w' q = Some (File c) /\ header_described name submod c)
  /\ (forall p c,
        (forall c0, fs w p <> Some (File c0)) ->
        fs w' p = Some (File c) ->
        exists name submod,
          In (name, submod) (leaves modules)
          /\ (absolute base = true ->
              p = parts (test_file_path base name))
          /\ (steady base -> p = resolve w (test_file_path base name))
          /\ header_described name submod c).
Proof.
  cbv zeta. split; [|split; [|split]].
  - intros name submod w0 w1 r Hrun.
    split; [exact (setup_leaf_cwd _ _ _ _ _ _ Hrun)|].
    intros Habsent. exists (header_text name submod).
    split; [exact (setup_leaf_creates _ _ _ _ _ _ Hrun Habsent)|].
    apply header_text_described.
  - intros name submod w0 Hsteady Hnofile Hparent Habsent.
    destruct (setup_leaf_returns _ name submod w0 Hsteady Hnofile Hparent
                Habsent) as (r & w1 & Hrun & Hfile).
    exists r, w1, (header_text name submod).
    split; [exact Hrun|]. split; [exact Hfile|].
    apply header_text_described.
  - intros r name submod Hok Hsteady Hin Habsent Hclash Hdir.
    set (base := of_string path) in *.
    set (fp := test_file_path base name) in *.
    set (q := resolve w fp) in *.
    exists (header_text name submod).
    split; [|apply header_text_described].
    assert (HD : forall d, In d (base :: made_dirs base modules) ->
                           absolute d = false -> absolute base = false).
    { intros d [<- | Hd]; [auto|]. exact (made_dirs_relative _ _ d Hd). }
    destruct (setup_files path modules w) as [res w'] eqn:Hrun.
    cbn [fst snd] in *. subst res.
    unfold setup_files in Hrun. fold base in Hrun.
    apply bind_ok in Hrun. destruct Hrun as (u & w1 & Hmk & Hrun).
    assert (Hstep0 : laid_out base (leaves modules)
                       (base :: made_dirs base modules) w w1).
    { pose proof (mkdir_laid_out base (leaves modules)
                    (base :: made_dirs base modules) base
                    (or_introl eq_refl) w) as Hs.
      now rewrite Hmk in Hs. }
    destruct (help_setup_files_serves base (leaves modules)
                (base :: made_dirs base modules) Hsteady HD modules
                (incl_refl _) (fun x Hx => or_intror Hx)
                _ _ _ Hrun name submod Hin)
      as (wr & wd & e & Hlaid1 & Hleaf & Hkept).
    pose proof (laid_out_trans _ _ _ HD _ _ _ Hstep0 Hlaid1) as Hlaid.
    assert (Hleaf_laid : laid_out base (leaves modules)
                           (base :: made_dirs base modules) wr wd).
    { pose proof (setup_leaf_laid_out base (leaves modules)
                    (base :: made_dirs base modules) Hsteady HD
                    name submod Hin) as Hs.
      assert (HinD : In (parent (test_file_path base name))
                        (base :: made_dirs base modules)).
      { right. clear - Hin. revert Hin.
        induction modules as [m | items IH] using tree_items_ind.
        - cbn [leaves made_dirs]. intros [Heq | []]. inversion Heq. now left.
        - cbn [leaves made_dirs].
          induction items as [|[n s] items IHitems]; [intros []|].
          assert (Hrest : In (name, submod) (leaves (Dict items)) ->
                          In (parent (test_file_path base name))
                             (made_dirs base (Dict items))).
          { apply IHitems. intros n' s' Hin'. apply (IH n' s'). now right. }
          destruct s as [m | sub].
          + intros [Heq | Hin]; [inversion Heq; now left|].
            right. now apply Hrest.
          + intros Hin. apply in_app_or in Hin. right. apply in_or_app.
            destruct Hin as [Hin | Hin].
            * left. exact (IH n (Dict sub) (or_introl eq_refl) Hin).
            * right. now apply Hrest. }
      specialize (Hs HinD wr). now rewrite Hleaf in Hs. }
    assert (Hq : resolve wd fp = q).
    { unfold q, resolve. destruct (absolute fp) eqn:Hfp; [reflexivity|].
      pose proof (test_file_path_relative _ _ Hfp) as Hb.
      destruct Hlaid as (_ & Hc1 & _). destruct Hleaf_laid as (_ & Hc2 & _).
      now rewrite (Hc2 Hb), (Hc1 Hb). }
    assert (Hqne : lookup w q = fs w q).
    { destruct q; [discriminate Habsent | reflexivity]. }
    destruct (lookup wr q) as [[c|]|] eqn:Hl.
    + apply Hkept. apply (proj1 Hleaf_laid).
      apply lookup_file in Hl.
      destruct Hlaid as (_ & _ & Hnew & _).
      destruct (Hnew q c Hl) as [Hold | (n' & s' & Hin' & Hc & Hwhere)].
      * rewrite Hqne, Hold in Habsent. discriminate Habsent.
      * rewrite Hl, Hc. f_equal. f_equal.
        apply Hclash; [exact Hin' | now symmetry].
    + exfalso. destruct Hlaid as (_ & _ & _ & Hdirs).
      destruct (Hdirs q Hl) as [Hold | (d & Hd & Hpre)].
      * rewrite Hold in Habsent. discriminate Habsent.
      * exact (Hdir d Hd Hpre).
    + apply Hkept. rewrite <- Hq. rewrite <- Hq in Hl.
      exact (setup_leaf_creates _ _ _ _ _ _ Hleaf Hl).
  - intros p c Habsent Hfile.
    set (base := of_string path) in *.
    destruct (absolute base) eqn:Hb;
      [|destruct (removelast (parts base)) as [|x l] eqn:Hparts].
    + assert (Hsteady : steady base) by (left; exact Hb).
      destruct (setup_files_laid_out path modules Hsteady w)
        as (_ & _ & Hnew & _).
      destruct (Hnew p c Hfile) as [Hold | (name & submod & Hin & Hc & Hp)];
        [exfalso; exact (Habsent c Hold)|].
      exists name, submod. split; [exact Hin|]. split; [|split].
      * intros _. rewrite Hp. apply resolve_absolute.
        unfold test_file_path. now apply div_absolute, div_absolute.
      * intros _. exact Hp.
      * rewrite Hc. apply header_text_described.
    + assert (Hsteady : steady base) by (right; exact Hparts).
      destruct (setup_files_laid_out path modules Hsteady w)
        as (_ & _ & Hnew & _).
      destruct (Hnew p c Hfile) as [Hold | (name & submod & Hin & Hc & Hp)];
        [exfalso; exact (Habsent c Hold)|].
      exists name, submod. split; [exact Hin|]. split; [|split].
      * discriminate.
      * intros _. exact Hp.
      * rewrite Hc. apply header_text_described.
    + destruct (setup_files_materialized path modules w) as [_ Hnew].
      destruct (Hnew p c Hfile) as [Hold | (name & submod & Hin & Hc & _)];
        [exfalso; exact (Habsent c Hold)|].
      exists name, submod. split; [exact Hin|]. split; [|split].
      * discriminate.
      * intros [Habs | Hone]; congruence.
      * rewrite Hc. apply header_text_described.
Qed.

Lemma fresh_file_import_header_witness :
  steady (of_string "tests")
  /\ lookup Scenario.proj Scenario.nested_test_file = None
  /\ fs (snd (setup_leaf (of_string "tests") "root.pkg.sub"
                Scenario.nested_sub Scenario.proj))
        Scenario.nested_test_file
     = Some (File Scenario.nested_header)
  /\ fs (snd (setup_files "tests"
                (Dict [("root.pkg",
                        Dict [("root.pkg.sub", Leaf Scenario.nested_sub)])])
                Scenario.proj))
        Scenario.nested_test_file
     = Some (File Scenario.nested_header).
Proof.
  assert (Hsteady : steady (of_string "tests")) by (right; reflexivity).
  split; [exact Hsteady|]. split; [reflexivity|].
  destruct (fresh_file_import_header "tests"
              (Dict [("root.pkg",
                      Dict [("root.pkg.sub", Leaf Scenario.nested_sub)])])
              Scenario.proj) as (_ & Hleaf & Htree & _).
  split.
  - destruct (Hleaf "root.pkg.sub" Scenario.nested_sub Scenario.proj
                Hsteady eq_refl eq_refl eq_refl)
      as (r & w1 & c & Hrun & Hfile & _ & Hc & _).
    rewrite Hrun. cbn [snd]. rewrite Hc in Hfile. exact Hfile.
  - destruct (Htree [(of_string "tests/pkg/test_sub.py", Scenario.nested_sub,
                      "tests.pkg.test_sub")]
                    "root.pkg.sub" Scenario.nested_sub)
      as (c & Hfile & _ & Hc & _).
    + reflexivity.
    + exact Hsteady.
    + left. reflexivity.
    + reflexivity.
    + intros name' submod' [Heq | []] _. now inversion Heq.
    + intros d [<- | [<- | [<- | []]]]; vm_compute; intuition discriminate.
    + rewrite Hc in Hfile. exact Hfile.
Defined.
